(** * SolarRally: telemetry aggregation, billing and the mock feed

    A shallow embedding of the dashboard's data pipeline:
    - [WebSocketProvider], [UseWebSocket]: the multi-unit
      hooks/useWebSocket.tsx, with [calculateSystemStats] and the
      [websocket.onmessage] handler;
    - [MockFirebaseDB], [UseFirebaseData]: hooks/useFirebaseData.tsx, the
      mock feed with [generateTelemetry] and [generateMockData];
    - [SessionInfo], [StatsGrid], [EnergySourceIndicator]: the panels that
      derive costs and the energy mix from a snapshot;
    - [PowerCurve]: the charging power curve of the design document.

    JavaScript numbers are doubles.  A finite double is a rational number,
    so numbers are embedded as rationals ([Q], compared with [==]), and an
    arithmetic operation of the source is the exact operation followed by
    a rounding [rnd : Q -> Q] of its result ([Num]); [Binary64.rnd] rounds
    to the nearest double.  [Math.round], [Math.floor], [toFixed] and the
    comparisons act on the exact value of their argument, as they do in
    JavaScript.  Infinities and [NaN] are not represented: a division
    whose divisor is zero returns [None], and the functions that divide
    live in the option monad.

    [UseWebSocket], [UseFirebaseData] and the three panels take [rnd] as a
    parameter, and a [Map] is there the list of its entries in insertion
    order: the statements on sums, quotients and costs are made on them,
    for every [rnd] where they hold whatever the arithmetic, for
    [Binary64.rnd] where they rest on its properties.  [WebSocketProvider]
    and [MockFirebaseDB] read the same functions with exact arithmetic
    and the map as a finite map: they carry the statements on keys,
    counts, statuses, guards and ranges, which the rounding leaves alone.

    The results of [Math.random()] and the clock are inputs of the model;
    time stamps are milliseconds since the epoch. *)

From Stdlib Require Import QArith Qround Qabs Qminmax Qpower Lqa Lia ZArith Ascii String DecimalString.
From stdpp Require Import gmap strings list fin_maps.

Local Open Scope Q_scope.

(** ** JavaScript numerics on rationals *)

Module JS.

Definition half : Q := 1 # 2.

(** [Math.floor], as an integer. *)
Definition Math_floor (x : Q) : Z := Qfloor x.

(** [Math.round]: nearest integer, ties towards +infinity. *)
Definition Math_round (x : Q) : Q := inject_Z (Qfloor (x + half)).

Definition pow10 (d : nat) : Q := inject_Z (10 ^ Z.of_nat d).

(** [x.toFixed(d)], as the number its decimal string denotes: the
    magnitude is rounded to [d] decimals, ties taking the larger candidate;
    the sign is put back afterwards. *)
Definition toFixed (d : nat) (x : Q) : Q :=
  if Qle_bool 0 x
  then inject_Z (Qfloor (x * pow10 d + half)) / pow10 d
  else - (inject_Z (Qfloor ((- x) * pow10 d + half)) / pow10 d).

(** [a / b]; no rational result on a zero divisor. *)
Definition jsdiv (a b : Q) : option Q :=
  if Qeq_bool b 0 then None else Some (a / b).

(** Truthiness of a [string | null] value: [null] and [""] are falsy. *)
Definition truthy (s : option string) : bool :=
  match s with
  | Some EmptyString | None => false
  | Some _ => true
  end.

End JS.

(** ** IEEE 754 binary64 *)

Module Binary64.

(** A finite double is a rational number.  [rnd x] is the double nearest
    to the rational [x], ties going to the even significand: 53
    significant bits in the normal range, multiples of [2^-1074] below it.
    The exponent range is left open above: a result beyond [max_value],
    which JavaScript turns into an infinity, keeps its rounded value
    here. *)

(** [floor (log2 x)] of a positive rational. *)
Definition exponent (x : Q) : Z :=
  let e0 := (Z.log2 (Qnum x) - Z.log2 (Zpos (Qden x)))%Z in
  if Qle_bool (2 ^ e0) x then e0 else (e0 - 1)%Z.

(** The integer nearest to [q], ties going to the even one. *)
Definition nearest_even (q : Q) : Z :=
  let f := Qfloor q in
  match Qcompare (q - inject_Z f) (1 # 2) with
  | Lt => f
  | Gt => (f + 1)%Z
  | Eq => if Z.even f then f else (f + 1)%Z
  end.

(** The binary exponent of the spacing of the doubles around [x]. *)
Definition quantum (x : Q) : Z := Z.max (exponent x - 52) (-1074).

(** The double nearest to a positive [x]. *)
Definition round_pos (x : Q) : Q :=
  inject_Z (nearest_even (x / 2 ^ quantum x)) * 2 ^ quantum x.

Definition rnd (x : Q) : Q :=
  match Qnum (Qred x) with
  | Z0 => 0
  | Zpos _ => Qred (round_pos (Qred x))
  | Zneg _ => Qred (- round_pos (Qred (- x)))
  end.

(** The largest double below 1; [Math.random()] returns a double in
    [0, 1), hence at most this one. *)
Definition below_one : Q := 9007199254740991 # 9007199254740992.

(** The largest finite double, [(2^53 - 1) * 2^971]. *)
Definition max_value : Q := inject_Z ((2 ^ 53 - 1) * 2 ^ 971).

End Binary64.

(** ** Arithmetic on numbers *)

Module Num.

Section Operations.

(** How an exact result becomes a number: [Binary64.rnd] in the running
    program, the identity in exact arithmetic. *)
Variable rnd : Q -> Q.

Definition add (a b : Q) : Q := rnd (a + b).
Definition sub (a b : Q) : Q := rnd (a - b).
Definition mul (a b : Q) : Q := rnd (a * b).

(** [a / k] for a non-zero literal [k]. *)
Definition quot (a k : Q) : Q := rnd (a / k).

(** [a / b]; no finite result on a zero divisor. *)
Definition div (a b : Q) : option Q :=
  if Qeq_bool b 0 then None else Some (rnd (a / b)).

(** A decimal literal of the source text. *)
Definition literal (q : Q) : Q := rnd q.

(** [Number(x.toFixed(d))]: the decimal string is read back as a number. *)
Definition Number_toFixed (d : nat) (x : Q) : Q := rnd (JS.toFixed d x).

(** [Math.round(x * k) / k] for a literal [k]. *)
Definition round_to (k x : Q) : Q := quot (JS.Math_round (mul x k)) k.

End Operations.

End Num.

(** ** String helpers used by the live consumer and the mock feed *)

Module Str.

(** [n.toString()] for an integer [n]. *)
Definition toString (n : Z) : string := NilZero.string_of_int (Z.to_int n).

Fixpoint repeat0 (k : nat) : string :=
  match k with
  | O => EmptyString
  | S k' => String "0"%char (repeat0 k')
  end.

(** [s.padStart(w, '0')] *)
Definition padStart0 (w : nat) (s : string) : string :=
  repeat0 (w - String.length s) +:+ s.

(** [s.split(sep)] for a one-character separator. *)
Fixpoint split (sep : ascii) (s : string) : list string :=
  match s with
  | EmptyString => [EmptyString]
  | String c rest =>
      if Ascii.eqb c sep then EmptyString :: split sep rest
      else match split sep rest with
           | p :: ps => String c p :: ps
           | [] => [String c EmptyString]
           end
  end.

(** [parts[i]] inside a template literal: a missing element prints as
    [undefined]. *)
Definition part (parts : list string) (i : nat) : string :=
  default "undefined" (parts !! i).

End Str.

(** ** [Map] objects with string keys *)

Module JSMap.

(** A [Map] is the list of its entries in insertion order.
    [map.set(key, value)]: a key that is present keeps its place. *)
Fixpoint set {V} (key : string) (value : V) (entries : list (string * V))
  : list (string * V) :=
  match entries with
  | [] => [(key, value)]
  | (k, v) :: rest =>
      if String.eqb k key then (k, value) :: rest
      else (k, v) :: set key value rest
  end.

End JSMap.

(** ** Data model shared by every component *)

Inductive Status := available | preparing | charging | finishing | faulted.

Inductive EnergySource := solar | grid | none.

Definition Status_eqb (a b : Status) : bool :=
  match a, b with
  | available, available | preparing, preparing | charging, charging
  | finishing, finishing | faulted, faulted => true
  | _, _ => false
  end.

(** [TelemetryData & { unit_id?: string }]; [msg_unit_id] is the optional
    field, time stamps are milliseconds since the epoch. *)
Record TelemetryData := {
  timestamp : Z;
  session_id : option string;
  voltage_v : Q;
  current_a : Q;
  power_w : Q;
  session_energy_kwh_solar : Q;
  session_energy_kwh_grid : Q;
  session_total_energy_kwh : Q;
  energy_source : EnergySource;
  temperature_c : Q;
  status : Status;
  msg_unit_id : option string
}.

Record EVSEUnit := {
  unit_id : string;
  telemetry : TelemetryData;
  last_updated : Z
}.

Record SystemStats := {
  total_power_w : Q;
  total_solar_energy_kwh : Q;
  total_grid_energy_kwh : Q;
  total_energy_kwh : Q;
  avg_temperature_c : Q;
  solar_percentage : Q;
  active_sessions : nat;
  available_units : nat;
  charging_units : nat;
  faulted_units : nat;
  stats_last_updated : Z
}.

(** ** hooks/useWebSocket.tsx, in exact arithmetic *)

Module WebSocketProvider.

(** The accumulator object threaded through [unitArray.reduce]. *)
Record Acc := {
  acc_total_power_w : Q;
  acc_total_solar_energy_kwh : Q;
  acc_total_grid_energy_kwh : Q;
  acc_total_temperature_c : Q;
  acc_active_sessions : nat;
  acc_available_units : nat;
  acc_charging_units : nat;
  acc_faulted_units : nat
}.

Definition acc0 : Acc :=
  {| acc_total_power_w := 0; acc_total_solar_energy_kwh := 0;
     acc_total_grid_energy_kwh := 0; acc_total_temperature_c := 0;
     acc_active_sessions := 0; acc_available_units := 0;
     acc_charging_units := 0; acc_faulted_units := 0 |}.

Definition b2n (b : bool) : nat := if b then 1%nat else 0%nat.

(** The callback of [reduce]. *)
Definition step (acc : Acc) (unit : EVSEUnit) : Acc :=
  let t := telemetry unit in
  {| acc_total_power_w := acc_total_power_w acc + power_w t;
     acc_total_solar_energy_kwh :=
       acc_total_solar_energy_kwh acc + session_energy_kwh_solar t;
     acc_total_grid_energy_kwh :=
       acc_total_grid_energy_kwh acc + session_energy_kwh_grid t;
     acc_total_temperature_c := acc_total_temperature_c acc + temperature_c t;
     acc_active_sessions :=
       (acc_active_sessions acc + b2n (JS.truthy (session_id t)))%nat;
     acc_available_units :=
       (acc_available_units acc + b2n (Status_eqb (status t) available))%nat;
     acc_charging_units :=
       (acc_charging_units acc + b2n (Status_eqb (status t) charging))%nat;
     acc_faulted_units :=
       (acc_faulted_units acc + b2n (Status_eqb (status t) faulted))%nat |}.

Definition reduce (unitArray : list EVSEUnit) : Acc :=
  fold_left step unitArray acc0.

(** [Array.from(units.values())].  A JavaScript [Map] hands out its values
    in insertion order, the finite map in key order: this reading carries
    the statements on keys, counts and guards, which do not depend on the
    order; [UseWebSocket] below keeps the insertion order for the sums. *)
Definition Array_from_values (units : gmap string EVSEUnit) : list EVSEUnit :=
  (map_to_list units).*2.

(** [total_energy_kwh > 0 ? (solar / total_energy_kwh) * 100 : 0] *)
Definition percentage (part total : Q) : option Q :=
  if Qlt_le_dec 0 total
  then q ← JS.jsdiv part total; Some (q * 100)
  else Some 0.

(** The body of [calculateSystemStats] once [unitArray] is built. *)
Definition statsOfArray (now : Z) (unitArray : list EVSEUnit)
  : option SystemStats :=
  if Nat.eqb (length unitArray) 0 then
    Some {| total_power_w := 0; total_solar_energy_kwh := 0;
            total_grid_energy_kwh := 0; total_energy_kwh := 0;
            avg_temperature_c := 0; solar_percentage := 0;
            active_sessions := 0; available_units := 0;
            charging_units := 0; faulted_units := 0;
            stats_last_updated := now |}
  else
    let stats := reduce unitArray in
    let total_energy_kwh' :=
      acc_total_solar_energy_kwh stats + acc_total_grid_energy_kwh stats in
    solar_percentage' ←
      percentage (acc_total_solar_energy_kwh stats) total_energy_kwh';
    avg ← JS.jsdiv (acc_total_temperature_c stats)
                   (inject_Z (Z.of_nat (length unitArray)));
    Some {| total_power_w := JS.Math_round (acc_total_power_w stats);
            total_solar_energy_kwh :=
              JS.toFixed 4 (acc_total_solar_energy_kwh stats);
            total_grid_energy_kwh :=
              JS.toFixed 4 (acc_total_grid_energy_kwh stats);
            total_energy_kwh := JS.toFixed 4 total_energy_kwh';
            avg_temperature_c := JS.toFixed 1 avg;
            solar_percentage := JS.toFixed 1 solar_percentage';
            active_sessions := acc_active_sessions stats;
            available_units := acc_available_units stats;
            charging_units := acc_charging_units stats;
            faulted_units := acc_faulted_units stats;
            stats_last_updated := now |}.

Definition calculateSystemStats (now : Z) (units : gmap string EVSEUnit)
  : option SystemStats :=
  statsOfArray now (Array_from_values units).

(** *** The message handler of [connect] *)

(** The React state written by the handler; [systemStats] is [null] until
    the first message. *)
Record State := {
  telemetryData : option TelemetryData;
  evseUnits : gmap string EVSEUnit;
  systemStats : option SystemStats
}.

(** [Math.floor(Date.now() / 5000) % 3 + 1]; [%] takes the sign of the
    dividend. *)
Definition unitNumber (now : Z) : Z := (Z.rem (now / 5000) 3 + 1)%Z.

(** The unit id under which a message is filed: lines 265-281. *)
Definition unitIdOf (now : Z) (data : TelemetryData) : string :=
  let unitId :=
    if JS.truthy (msg_unit_id data)
    then default "evse_unit_01" (msg_unit_id data)
    else "evse_unit_01" in
  if negb (JS.truthy (msg_unit_id data)) && JS.truthy (session_id data) then
    let sessionParts := Str.split "_" (default "" (session_id data)) in
    if (2 <=? length sessionParts)%nat then
      if String.eqb (Str.part sessionParts 0) "evse"
         && String.eqb (Str.part sessionParts 1) "unit"
      then Str.part sessionParts 0 +:+ "_" +:+ Str.part sessionParts 1
           +:+ "_" +:+ Str.part sessionParts 2
      else if String.eqb (Str.part sessionParts 0) "sess"
      then "evse_unit_" +:+ Str.padStart0 2 (Str.toString (unitNumber now))
      else unitId
    else unitId
  else unitId.

(** [websocket.onmessage] on a payload that parses to an object of the
    declared type, or that [JSON.parse] rejects ([None]: the [catch] only
    logs).  The clock is read once per run of the handler. *)
Definition onmessage (now : Z) (msg : option TelemetryData) (st : State)
  : State :=
  match msg with
  | None => st
  | Some data =>
      let unitId := unitIdOf now data in
      let newUnits :=
        <[ unitId := {| unit_id := unitId; telemetry := data;
                        last_updated := now |} ]> (evseUnits st) in
      {| telemetryData := Some data;
         evseUnits := newUnits;
         systemStats := calculateSystemStats now newUnits |}
  end.

(** What [JSON.parse(event.data)] can be for the handler: no value (it
    throws), the value [null], or an object of the declared type; values
    of other shapes are outside [TelemetryData]. *)
Inductive Message :=
| Unparsable
| JsonNull
| Parsed (data : TelemetryData).

(** The whole [try] block of [websocket.onmessage].  On [null] the handler
    has run [setTelemetryData(data)] when reading [data.unit_id] throws;
    the [catch] only logs, so nothing else is written. *)
Definition onPayload (now : Z) (payload : Message) (st : State) : State :=
  match payload with
  | Unparsable => onmessage now None st
  | JsonNull =>
      {| telemetryData := None;
         evseUnits := evseUnits st;
         systemStats := systemStats st |}
  | Parsed data => onmessage now (Some data) st
  end.

End WebSocketProvider.

(** ** components/SessionInfo.tsx *)

Module SessionInfo.

(** Tariff rates (JM$ per kWh) *)
Definition SOLAR_RATE : Q := 10.
Definition GRID_RATE : Q := 50.



Section Rounded.

Variable rnd : Q -> Q.

Definition solarCost (t : TelemetryData) : Q :=
  Num.mul rnd (session_energy_kwh_solar t) SOLAR_RATE.
Definition gridCost (t : TelemetryData) : Q :=
  Num.mul rnd (session_energy_kwh_grid t) GRID_RATE.
Definition totalCost (t : TelemetryData) : Q :=
  Num.add rnd (solarCost t) (gridCost t).



End Rounded.

End SessionInfo.

(** ** components/StatsGrid.tsx (fleet version) *)

Module StatsGrid.

(** [systemStats || { ...zeros }]; the placeholder has no time stamp. *)
Definition placeholder : SystemStats :=
  {| total_power_w := 0; total_solar_energy_kwh := 0;
     total_grid_energy_kwh := 0; total_energy_kwh := 0;
     avg_temperature_c := 0; solar_percentage := 0;
     active_sessions := 0; available_units := 0;
     charging_units := 0; faulted_units := 0;
     stats_last_updated := 0 |}.

Definition stats (systemStats : option SystemStats) : SystemStats :=
  default placeholder systemStats.

Section Rounded.

Variable rnd : Q -> Q.

(** Costs in Jamaican dollars. *)
Definition solarCostJMD (s : SystemStats) : Q :=
  Num.mul rnd (total_solar_energy_kwh s) 10.
Definition gridCostJMD (s : SystemStats) : Q :=
  Num.mul rnd (total_grid_energy_kwh s) 50.
Definition totalCostJMD (s : SystemStats) : Q :=
  Num.add rnd (solarCostJMD s) (gridCostJMD s).



End Rounded.

End StatsGrid.

(** ** components/EnergySourceIndicator.tsx *)

Module EnergySourceIndicator.

Section Rounded.

Variable rnd : Q -> Q.

Definition totalEnergy (t : TelemetryData) : Q :=
  Num.add rnd (session_energy_kwh_solar t) (session_energy_kwh_grid t).

(** [totalEnergy > 0 ? (session_energy_kwh_solar / totalEnergy) * 100 : 0] *)
Definition solarPercentage (t : TelemetryData) : option Q :=
  if Qlt_le_dec 0 (totalEnergy t)
  then q ← Num.div rnd (session_energy_kwh_solar t) (totalEnergy t);
       Some (Num.mul rnd q 100)
  else Some 0.

Definition gridPercentage (t : TelemetryData) : option Q :=
  if Qlt_le_dec 0 (totalEnergy t)
  then q ← Num.div rnd (session_energy_kwh_grid t) (totalEnergy t);
       Some (Num.mul rnd q 100)
  else Some 0.

End Rounded.

End EnergySourceIndicator.

(** ** hooks/useFirebaseData.tsx: the mock feed, in exact arithmetic *)

Module MockFirebaseDB.

Record Scenario := {
  sc_status : Status;
  voltageRange : Q * Q;
  currentRange : Q * Q;
  energySource : list EnergySource;
  sessionId : option string
}.

(** [arr[i]] for a computed integer index; [None] is [undefined]. *)
Definition at_index {A} (arr : list A) (i : Z) : option A :=
  if (i <? 0)%Z then None else arr !! Z.to_nat i.

(** [Math.floor(r * n)] as an integer. *)
Definition floor_times (r : Q) (n : nat) : Z :=
  JS.Math_floor (r * inject_Z (Z.of_nat n)).

(** [`sess_${Math.floor(Math.random() * 9000) + 1000}`] *)
Definition sess (r : Q) : string :=
  "sess_" +:+ Str.toString (JS.Math_floor (r * 9000) + 1000).

(** The [scenarios] table; its two session ids each consume one draw. *)
Definition scenarios (r_charging r_preparing : Q) : list Scenario :=
  [ {| sc_status := charging; voltageRange := (220, 240);
       currentRange := (15, 32); energySource := [solar; grid; solar];
       sessionId := Some (sess r_charging) |};
    {| sc_status := available; voltageRange := (220, 240);
       currentRange := (0, 0); energySource := [none];
       sessionId := None |};
    {| sc_status := preparing; voltageRange := (220, 240);
       currentRange := (0, 5); energySource := [solar];
       sessionId := Some (sess r_preparing) |} ].

(** The seven [Math.random()] results of one [generateTelemetry] call, in
    the order the body consumes them. *)
Record Draws := {
  r_scenario : Q;
  r_voltage : Q;
  r_current : Q;
  r_source : Q;
  r_sessionTime : Q;
  r_temperature : Q;
  r_unit : Q
}.

Definition voltage (sc : Scenario) (d : Draws) : Q :=
  r_voltage d * (snd (voltageRange sc) - fst (voltageRange sc))
  + fst (voltageRange sc).
Definition current (sc : Scenario) (d : Draws) : Q :=
  r_current d * (snd (currentRange sc) - fst (currentRange sc))
  + fst (currentRange sc).
Definition power (sc : Scenario) (d : Draws) : Q := voltage sc d * current sc d.

Definition sessionTime (d : Draws) : Q := r_sessionTime d * (24 # 10) + (1 # 10).
Definition energyRate (sc : Scenario) (d : Draws) : Q := power sc d / 1000.

(** The [if (energySource === "solar") ... else if (... "grid")] block:
    the pair (solarEnergy, gridEnergy). *)
Definition energies (src : EnergySource) (sc : Scenario) (d : Draws) : Q * Q :=
  match src with
  | solar => (sessionTime d * energyRate sc d,
              sessionTime d * energyRate sc d * (1 # 10))
  | grid => (sessionTime d * energyRate sc d * (2 # 10),
             sessionTime d * energyRate sc d * (8 # 10))
  | none => (0, 0)
  end.

(** [Math.round(x * k) / k] for a literal [k]. *)
Definition round_to (k : Q) (x : Q) : Q := JS.Math_round (x * k) / k.

(** The record returned by [generateTelemetry] once the scenario and the
    source are picked. *)
Definition mkTelemetry (now : Z) (scenario : Scenario) (src : EnergySource)
    (d : Draws) : TelemetryData :=
  let '(solarEnergy, gridEnergy) := energies src scenario d in
  {| timestamp := now;
     session_id := sessionId scenario;
     voltage_v := round_to 100 (voltage scenario d);
     current_a := round_to 100 (current scenario d);
     power_w := round_to 100 (power scenario d);
     session_energy_kwh_solar := round_to 10000 solarEnergy;
     session_energy_kwh_grid := round_to 10000 gridEnergy;
     session_total_energy_kwh := round_to 10000 (solarEnergy + gridEnergy);
     energy_source := src;
     temperature_c := round_to 10 (r_temperature d * 25 + 20);
     status := sc_status scenario;
     msg_unit_id :=
       Some ("evse_unit_"
             +:+ Str.toString (JS.Math_floor (r_unit d * 3) + 1)) |}.

(** [generateTelemetry]; a scenario or source index outside its array
    leaves the typed record undefined ([None]). *)
Definition generateTelemetry (now : Z) (scs : list Scenario) (d : Draws)
  : option TelemetryData :=
  scenario ← at_index scs (floor_times (r_scenario d) (length scs));
  src ← at_index (energySource scenario)
                 (floor_times (r_source d) (length (energySource scenario)));
  Some (mkTelemetry now scenario src d).

(** Every draw of one [generateMockData] call. *)
Record MockDraws := {
  r_session_charging : Q;
  r_session_preparing : Q;
  unit1 : Draws;
  unit2 : Draws;
  unit3 : Draws;
  r_avg_temperature : Q
}.

(** The mutable totals of the statistics loop. *)
Record Totals := {
  totalPower : Q;
  totalSolar : Q;
  totalGrid : Q;
  activeSessions : nat;
  chargingUnits : nat;
  availableUnits : nat
}.

Definition totals0 : Totals :=
  {| totalPower := 0; totalSolar := 0; totalGrid := 0;
     activeSessions := 0; chargingUnits := 0; availableUnits := 0 |}.

(** The body of [Object.values(units).forEach]; [unit.telemetry] is an
    object, hence truthy. *)
Definition visit (acc : Totals) (unit : EVSEUnit) : Totals :=
  let t := telemetry unit in
  {| totalPower := totalPower acc + power_w t;
     totalSolar := totalSolar acc + session_energy_kwh_solar t;
     totalGrid := totalGrid acc + session_energy_kwh_grid t;
     activeSessions :=
       (if JS.truthy (session_id t) then S (activeSessions acc)
        else activeSessions acc);
     chargingUnits :=
       (if Status_eqb (status t) charging then S (chargingUnits acc)
        else chargingUnits acc);
     availableUnits :=
       (if Status_eqb (status t) available then S (availableUnits acc)
        else availableUnits acc) |}.

Definition solarPercentage (tot : Totals) : option Q :=
  let totalEnergy := totalSolar tot + totalGrid tot in
  if Qlt_le_dec 0 totalEnergy
  then q ← JS.jsdiv (totalSolar tot) totalEnergy; Some (q * 100)
  else Some 0.

Definition systemStatsOf (now : Z) (r_avg : Q) (units : list EVSEUnit)
  : option SystemStats :=
  let tot := fold_left visit units totals0 in
  let totalEnergy := totalSolar tot + totalGrid tot in
  pct ← solarPercentage tot;
  Some {| total_power_w := JS.Math_round (totalPower tot);
          total_solar_energy_kwh := round_to 10000 (totalSolar tot);
          total_grid_energy_kwh := round_to 10000 (totalGrid tot);
          total_energy_kwh := round_to 10000 totalEnergy;
          avg_temperature_c := round_to 10 (r_avg * 10 + 25);
          solar_percentage := round_to 10 pct;
          active_sessions := activeSessions tot;
          available_units := availableUnits tot;
          charging_units := chargingUnits tot;
          faulted_units := 0;
          stats_last_updated := now |}.

Record MockData := {
  latest_telemetry : TelemetryData;
  system_stats : SystemStats;
  evse_units : list EVSEUnit
}.

(** The [for (let i = 1; i <= 3; i++)] loop, unrolled: unit [i] is filed
    under [`evse_unit_${i}`]. *)
Definition mkUnit (now : Z) (i : Z) (t : TelemetryData) : EVSEUnit :=
  {| unit_id := "evse_unit_" +:+ Str.toString i; telemetry := t;
     last_updated := now |}.

Definition generateMockData (now : Z) (d : MockDraws) : option MockData :=
  let scs := scenarios (r_session_charging d) (r_session_preparing d) in
  t1 ← generateTelemetry now scs (unit1 d);
  t2 ← generateTelemetry now scs (unit2 d);
  t3 ← generateTelemetry now scs (unit3 d);
  let units := [mkUnit now 1 t1; mkUnit now 2 t2; mkUnit now 3 t3] in
  systemStats ← systemStatsOf now (r_avg_temperature d) units;
  Some {| latest_telemetry := t1;
          system_stats := systemStats;
          evse_units := units |}.

End MockFirebaseDB.

(** ** hooks/useWebSocket.tsx: the statistics, in rounded arithmetic *)

Module UseWebSocket.

Section Rounded.

Variable rnd : Q -> Q.

(** The callback of [reduce]: every [+] on a reading is an addition of
    numbers. *)
Definition step (acc : WebSocketProvider.Acc) (unit : EVSEUnit)
  : WebSocketProvider.Acc :=
  let t := telemetry unit in
  {| WebSocketProvider.acc_total_power_w :=
       Num.add rnd (WebSocketProvider.acc_total_power_w acc) (power_w t);
     WebSocketProvider.acc_total_solar_energy_kwh :=
       Num.add rnd (WebSocketProvider.acc_total_solar_energy_kwh acc)
                   (session_energy_kwh_solar t);
     WebSocketProvider.acc_total_grid_energy_kwh :=
       Num.add rnd (WebSocketProvider.acc_total_grid_energy_kwh acc)
                   (session_energy_kwh_grid t);
     WebSocketProvider.acc_total_temperature_c :=
       Num.add rnd (WebSocketProvider.acc_total_temperature_c acc)
                   (temperature_c t);
     WebSocketProvider.acc_active_sessions :=
       (WebSocketProvider.acc_active_sessions acc
        + WebSocketProvider.b2n (JS.truthy (session_id t)))%nat;
     WebSocketProvider.acc_available_units :=
       (WebSocketProvider.acc_available_units acc
        + WebSocketProvider.b2n (Status_eqb (status t) available))%nat;
     WebSocketProvider.acc_charging_units :=
       (WebSocketProvider.acc_charging_units acc
        + WebSocketProvider.b2n (Status_eqb (status t) charging))%nat;
     WebSocketProvider.acc_faulted_units :=
       (WebSocketProvider.acc_faulted_units acc
        + WebSocketProvider.b2n (Status_eqb (status t) faulted))%nat |}.

Definition reduce (unitArray : list EVSEUnit) : WebSocketProvider.Acc :=
  fold_left step unitArray WebSocketProvider.acc0.

(** [Array.from(units.values())]: a [Map] is the list of its entries in
    insertion order, and hands out its values in that order. *)
Definition Array_from_values (units : list (string * EVSEUnit))
  : list EVSEUnit :=
  units.*2.

(** [total_energy_kwh > 0 ? (solar / total_energy_kwh) * 100 : 0] *)
Definition percentage (part total : Q) : option Q :=
  if Qlt_le_dec 0 total
  then q ← Num.div rnd part total; Some (Num.mul rnd q 100)
  else Some 0.

Definition calculateSystemStats (now : Z) (units : list (string * EVSEUnit))
  : option SystemStats :=
  let unitArray := Array_from_values units in
  if Nat.eqb (length unitArray) 0 then
    Some {| total_power_w := 0; total_solar_energy_kwh := 0;
            total_grid_energy_kwh := 0; total_energy_kwh := 0;
            avg_temperature_c := 0; solar_percentage := 0;
            active_sessions := 0; available_units := 0;
            charging_units := 0; faulted_units := 0;
            stats_last_updated := now |}
  else
    let stats := reduce unitArray in
    let total_energy_kwh' :=
      Num.add rnd (WebSocketProvider.acc_total_solar_energy_kwh stats)
                  (WebSocketProvider.acc_total_grid_energy_kwh stats) in
    solar_percentage' ←
      percentage (WebSocketProvider.acc_total_solar_energy_kwh stats)
                 total_energy_kwh';
    avg ← Num.div rnd (WebSocketProvider.acc_total_temperature_c stats)
                      (inject_Z (Z.of_nat (length unitArray)));
    Some {| total_power_w :=
              JS.Math_round (WebSocketProvider.acc_total_power_w stats);
            total_solar_energy_kwh :=
              Num.Number_toFixed rnd 4
                (WebSocketProvider.acc_total_solar_energy_kwh stats);
            total_grid_energy_kwh :=
              Num.Number_toFixed rnd 4
                (WebSocketProvider.acc_total_grid_energy_kwh stats);
            total_energy_kwh := Num.Number_toFixed rnd 4 total_energy_kwh';
            avg_temperature_c := Num.Number_toFixed rnd 1 avg;
            solar_percentage := Num.Number_toFixed rnd 1 solar_percentage';
            active_sessions := WebSocketProvider.acc_active_sessions stats;
            available_units := WebSocketProvider.acc_available_units stats;
            charging_units := WebSocketProvider.acc_charging_units stats;
            faulted_units := WebSocketProvider.acc_faulted_units stats;
            stats_last_updated := now |}.

End Rounded.

End UseWebSocket.

(** ** hooks/useFirebaseData.tsx: the mock feed, in rounded arithmetic *)

Module UseFirebaseData.

Section Rounded.

Variable rnd : Q -> Q.

(** [Math.floor(r * n)] as an integer. *)
Definition floor_times (r : Q) (n : nat) : Z :=
  JS.Math_floor (Num.mul rnd r (inject_Z (Z.of_nat n))).

(** [`sess_${Math.floor(Math.random() * 9000) + 1000}`] *)
Definition sess (r : Q) : string :=
  "sess_" +:+ Str.toString (JS.Math_floor (Num.mul rnd r 9000) + 1000).

(** The [scenarios] table; its two session ids each consume one draw. *)
Definition scenarios (r_charging r_preparing : Q)
  : list MockFirebaseDB.Scenario :=
  [ {| MockFirebaseDB.sc_status := charging;
       MockFirebaseDB.voltageRange := (220, 240);
       MockFirebaseDB.currentRange := (15, 32);
       MockFirebaseDB.energySource := [solar; grid; solar];
       MockFirebaseDB.sessionId := Some (sess r_charging) |};
    {| MockFirebaseDB.sc_status := available;
       MockFirebaseDB.voltageRange := (220, 240);
       MockFirebaseDB.currentRange := (0, 0);
       MockFirebaseDB.energySource := [none];
       MockFirebaseDB.sessionId := None |};
    {| MockFirebaseDB.sc_status := preparing;
       MockFirebaseDB.voltageRange := (220, 240);
       MockFirebaseDB.currentRange := (0, 5);
       MockFirebaseDB.energySource := [solar];
       MockFirebaseDB.sessionId := Some (sess r_preparing) |} ].

(** [Math.random() * (voltageRange[1] - voltageRange[0]) + voltageRange[0]] *)
Definition voltage (sc : MockFirebaseDB.Scenario) (d : MockFirebaseDB.Draws)
  : Q :=
  Num.add rnd
    (Num.mul rnd (MockFirebaseDB.r_voltage d)
       (Num.sub rnd (snd (MockFirebaseDB.voltageRange sc))
                    (fst (MockFirebaseDB.voltageRange sc))))
    (fst (MockFirebaseDB.voltageRange sc)).
Definition current (sc : MockFirebaseDB.Scenario) (d : MockFirebaseDB.Draws)
  : Q :=
  Num.add rnd
    (Num.mul rnd (MockFirebaseDB.r_current d)
       (Num.sub rnd (snd (MockFirebaseDB.currentRange sc))
                    (fst (MockFirebaseDB.currentRange sc))))
    (fst (MockFirebaseDB.currentRange sc)).
Definition power (sc : MockFirebaseDB.Scenario) (d : MockFirebaseDB.Draws)
  : Q :=
  Num.mul rnd (voltage sc d) (current sc d).

(** [Math.random() * 2.4 + 0.1] *)
Definition sessionTime (d : MockFirebaseDB.Draws) : Q :=
  Num.add rnd (Num.mul rnd (MockFirebaseDB.r_sessionTime d)
                           (Num.literal rnd (24 # 10)))
              (Num.literal rnd (1 # 10)).

(** [power / 1000] *)
Definition energyRate (sc : MockFirebaseDB.Scenario)
    (d : MockFirebaseDB.Draws) : Q :=
  Num.quot rnd (power sc d) 1000.

(** The [if (energySource === "solar") ... else if (... "grid")] block:
    the pair (solarEnergy, gridEnergy). *)
Definition energies (src : EnergySource) (sc : MockFirebaseDB.Scenario)
    (d : MockFirebaseDB.Draws) : Q * Q :=
  match src with
  | solar =>
      (Num.mul rnd (sessionTime d) (energyRate sc d),
       Num.mul rnd (Num.mul rnd (sessionTime d) (energyRate sc d))
                   (Num.literal rnd (1 # 10)))
  | grid =>
      (Num.mul rnd (Num.mul rnd (sessionTime d) (energyRate sc d))
                   (Num.literal rnd (2 # 10)),
       Num.mul rnd (Num.mul rnd (sessionTime d) (energyRate sc d))
                   (Num.literal rnd (8 # 10)))
  | none => (0, 0)
  end.

(** The record returned by [generateTelemetry] once the scenario and the
    source are picked. *)
Definition mkTelemetry (now : Z) (scenario : MockFirebaseDB.Scenario)
    (src : EnergySource) (d : MockFirebaseDB.Draws) : TelemetryData :=
  let '(solarEnergy, gridEnergy) := energies src scenario d in
  {| timestamp := now;
     session_id := MockFirebaseDB.sessionId scenario;
     voltage_v := Num.round_to rnd 100 (voltage scenario d);
     current_a := Num.round_to rnd 100 (current scenario d);
     power_w := Num.round_to rnd 100 (power scenario d);
     session_energy_kwh_solar := Num.round_to rnd 10000 solarEnergy;
     session_energy_kwh_grid := Num.round_to rnd 10000 gridEnergy;
     session_total_energy_kwh :=
       Num.round_to rnd 10000 (Num.add rnd solarEnergy gridEnergy);
     energy_source := src;
     temperature_c :=
       Num.round_to rnd 10
         (Num.add rnd (Num.mul rnd (MockFirebaseDB.r_temperature d) 25) 20);
     status := MockFirebaseDB.sc_status scenario;
     msg_unit_id :=
       Some ("evse_unit_"
             +:+ Str.toString
                   (JS.Math_floor (Num.mul rnd (MockFirebaseDB.r_unit d) 3)
                    + 1)) |}.

(** [generateTelemetry]; a scenario or source index outside its array
    leaves the typed record undefined ([None]). *)
Definition generateTelemetry (now : Z) (scs : list MockFirebaseDB.Scenario)
    (d : MockFirebaseDB.Draws) : option TelemetryData :=
  scenario ← MockFirebaseDB.at_index scs
               (floor_times (MockFirebaseDB.r_scenario d) (length scs));
  src ← MockFirebaseDB.at_index (MockFirebaseDB.energySource scenario)
          (floor_times (MockFirebaseDB.r_source d)
                       (length (MockFirebaseDB.energySource scenario)));
  Some (mkTelemetry now scenario src d).

(** The body of [Object.values(units).forEach]; [unit.telemetry] is an
    object, hence truthy. *)
Definition visit (acc : MockFirebaseDB.Totals) (unit : EVSEUnit)
  : MockFirebaseDB.Totals :=
  let t := telemetry unit in
  {| MockFirebaseDB.totalPower :=
       Num.add rnd (MockFirebaseDB.totalPower acc) (power_w t);
     MockFirebaseDB.totalSolar :=
       Num.add rnd (MockFirebaseDB.totalSolar acc)
                   (session_energy_kwh_solar t);
     MockFirebaseDB.totalGrid :=
       Num.add rnd (MockFirebaseDB.totalGrid acc) (session_energy_kwh_grid t);
     MockFirebaseDB.activeSessions :=
       (if JS.truthy (session_id t)
        then S (MockFirebaseDB.activeSessions acc)
        else MockFirebaseDB.activeSessions acc);
     MockFirebaseDB.chargingUnits :=
       (if Status_eqb (status t) charging
        then S (MockFirebaseDB.chargingUnits acc)
        else MockFirebaseDB.chargingUnits acc);
     MockFirebaseDB.availableUnits :=
       (if Status_eqb (status t) available
        then S (MockFirebaseDB.availableUnits acc)
        else MockFirebaseDB.availableUnits acc) |}.

(** [totalEnergy > 0 ? (totalSolar / totalEnergy * 100) : 0] *)
Definition solarPercentage (tot : MockFirebaseDB.Totals) : option Q :=
  let totalEnergy :=
    Num.add rnd (MockFirebaseDB.totalSolar tot) (MockFirebaseDB.totalGrid tot) in
  if Qlt_le_dec 0 totalEnergy
  then q ← Num.div rnd (MockFirebaseDB.totalSolar tot) totalEnergy;
       Some (Num.mul rnd q 100)
  else Some 0.

(** The statistics block of [generateMockData], lines 120-155; [units]
    are the values of the [units] object in insertion order. *)
Definition systemStatsOf (now : Z) (r_avg : Q) (units : list EVSEUnit)
  : option SystemStats :=
  let tot := fold_left visit units MockFirebaseDB.totals0 in
  let totalEnergy :=
    Num.add rnd (MockFirebaseDB.totalSolar tot) (MockFirebaseDB.totalGrid tot) in
  pct ← solarPercentage tot;
  Some {| total_power_w := JS.Math_round (MockFirebaseDB.totalPower tot);
          total_solar_energy_kwh :=
            Num.round_to rnd 10000 (MockFirebaseDB.totalSolar tot);
          total_grid_energy_kwh :=
            Num.round_to rnd 10000 (MockFirebaseDB.totalGrid tot);
          total_energy_kwh := Num.round_to rnd 10000 totalEnergy;
          avg_temperature_c :=
            Num.round_to rnd 10 (Num.add rnd (Num.mul rnd r_avg 10) 25);
          solar_percentage := Num.round_to rnd 10 pct;
          active_sessions := MockFirebaseDB.activeSessions tot;
          available_units := MockFirebaseDB.availableUnits tot;
          charging_units := MockFirebaseDB.chargingUnits tot;
          faulted_units := 0;
          stats_last_updated := now |}.

Definition generateMockData (now : Z) (d : MockFirebaseDB.MockDraws)
  : option MockFirebaseDB.MockData :=
  let scs := scenarios (MockFirebaseDB.r_session_charging d)
                       (MockFirebaseDB.r_session_preparing d) in
  t1 ← generateTelemetry now scs (MockFirebaseDB.unit1 d);
  t2 ← generateTelemetry now scs (MockFirebaseDB.unit2 d);
  t3 ← generateTelemetry now scs (MockFirebaseDB.unit3 d);
  let units := [MockFirebaseDB.mkUnit now 1 t1; MockFirebaseDB.mkUnit now 2 t2;
                MockFirebaseDB.mkUnit now 3 t3] in
  systemStats ← systemStatsOf now (MockFirebaseDB.r_avg_temperature d) units;
  Some {| MockFirebaseDB.latest_telemetry := t1;
          MockFirebaseDB.system_stats := systemStats;
          MockFirebaseDB.evse_units := units |}.

End Rounded.

End UseFirebaseData.

(** ** The power curve of the charging phase *)

Module PowerCurve.

(** Modelled from the spec: the Power Curve Model of section 4.2; the
    publisher script that draws the curve is not among the sources.
    [(phase, elapsed_fraction, nominal_power) -> power]: zero outside
    [charging]; the nominal power below 80 % of the target; from 80 % to
    100 % the line [nominal_power * (1 - 4 * (elapsed_fraction - 0.8))]
    with a floor of [0.2 * nominal_power]; the defensive clamp to zero
    beyond 100 %. *)
Definition power_curve (phase : Status) (elapsed_fraction nominal_power : Q)
  : Q :=
  if negb (Status_eqb phase charging) then 0
  else if Qlt_le_dec elapsed_fraction (8 # 10) then nominal_power
  else if Qle_bool elapsed_fraction 1
       then Qmax (nominal_power * (1 - 4 * (elapsed_fraction - (8 # 10))))
                 ((2 # 10) * nominal_power)
  else 0.

End PowerCurve.

(** ** components/PowerChart.tsx *)

Module PowerChart.

(** One point of the chart; [time] stands for the formatted time string. *)
Record ChartDataPoint := {
  time : Z;
  power : Q;
  voltage : Q;
  current : Q;
  temperature : Q
}.

Definition newDataPoint (t : TelemetryData) : ChartDataPoint :=
  {| time := timestamp t;
     power := power_w t / 1000;
     voltage := voltage_v t;
     current := current_a t;
     temperature := temperature_c t |}.

(** [arr.slice(-n)] *)
Definition slice_last {A} (n : nat) (arr : list A) : list A :=
  drop (length arr - n) arr.

(** The effect that runs when [telemetryData] changes: append the new
    point and keep only the last 20. *)
Definition onTelemetry (telemetryData : option TelemetryData)
    (prevData : list ChartDataPoint) : list ChartDataPoint :=
  match telemetryData with
  | None => prevData
  | Some t => slice_last 20 (prevData ++ [newDataPoint t])
  end.

End PowerChart.

(** ** The connection state of the providers and components/Header.tsx *)

Module Connection.

Record Conn := {
  isConnected : bool;
  connectionError : option string;
  ws : bool
}.

(** The [useState] defaults. *)
Definition initial : Conn :=
  {| isConnected := false; connectionError := None; ws := false |}.

(** What can happen to a provider: a call of [connect] (the socket
    constructor returns or throws), the three socket callbacks that write
    connection state, and a call of [disconnect]. *)
Inductive Event :=
| Connect (constructed : bool)
| OnOpen
| OnClose
| OnError
| Disconnect.

Definition step (c : Conn) (e : Event) : Conn :=
  match e with
  | Connect true =>
      {| isConnected := isConnected c; connectionError := None; ws := true |}
  | Connect false =>
      {| isConnected := false;
         connectionError := Some "Unable to establish WebSocket connection";
         ws := ws c |}
  | OnOpen =>
      {| isConnected := true; connectionError := None; ws := ws c |}
  | OnClose =>
      {| isConnected := false; connectionError := connectionError c;
         ws := false |}
  | OnError =>
      {| isConnected := false;
         connectionError := Some "Failed to connect to real-time data service";
         ws := ws c |}
  | Disconnect =>
      if ws c
      then {| isConnected := isConnected c;
              connectionError := connectionError c; ws := false |}
      else c
  end.

(** The status text of the header. *)
Definition banner (c : Conn) : string :=
  if isConnected c then "Live Data Connected"
  else if JS.truthy (connectionError c) then default "" (connectionError c)
  else "Disconnected".

End Connection.

(** ** hooks/useFirebaseData.tsx: the listener registry and the provider *)

Module MockListeners.

(** What a listener receives through [snapshot.val()]. *)
Inductive Payload :=
| LatestTelemetry (t : TelemetryData)
| Stats (s : SystemStats)
| Units (units : list EVSEUnit).

(** [ref(path).on(_, callback)]: callbacks are named by numbers; the
    object keeps its keys in insertion order. *)
Fixpoint on (path : string) (callback : nat) (listeners : list (string * list nat))
  : list (string * list nat) :=
  match listeners with
  | [] => [(path, [callback])]
  | (p, cbs) :: rest =>
      if String.eqb p path then (p, cbs ++ [callback]) :: rest
      else (p, cbs) :: on path callback rest
  end.

(** [ref(path).off()]: an existing entry is reset to the empty array. *)
Fixpoint off (path : string) (listeners : list (string * list nat))
  : list (string * list nat) :=
  match listeners with
  | [] => []
  | (p, cbs) :: rest =>
      if String.eqb p path then (p, []) :: rest
      else (p, cbs) :: off path rest
  end.

(** The [if (path === ...) ... else if ...] chain of [simulateData]. *)
Definition payloadFor (path : string) (mockData : MockFirebaseDB.MockData)
  : option Payload :=
  if String.eqb path "latest_telemetry"
  then Some (LatestTelemetry (MockFirebaseDB.latest_telemetry mockData))
  else if String.eqb path "system_stats"
  then Some (Stats (MockFirebaseDB.system_stats mockData))
  else if String.eqb path "evse_units"
  then Some (Units (MockFirebaseDB.evse_units mockData))
  else None.

(** One tick of [simulateData]: the calls made, in order, as pairs of a
    callback and its payload. *)
Definition notify (mockData : MockFirebaseDB.MockData)
    (listeners : list (string * list nat)) : list (nat * Payload) :=
  flat_map (fun entry =>
              match payloadFor (fst entry) mockData with
              | Some payload => List.map (fun cb => (cb, payload)) (snd entry)
              | None => []
              end) listeners.

(** The [evse_units] listener of [FirebaseDataProvider]:
    [Object.entries(data).forEach(([unitId, unit]) => unitsMap.set(unitId, unit))];
    the feed files every unit under its [unit_id]. *)
Definition unitsMap (data : list EVSEUnit) : list (string * EVSEUnit) :=
  fold_left (fun m unit => JSMap.set (unit_id unit) unit m) data [].

End MockListeners.

(** ** Vocabulary of the statements *)

(** The sum of a list of numbers. *)
Definition Qsum (l : list Q) : Q := foldr Qplus 0 l.

(** How many elements satisfy a test. *)
Definition count {A} (p : A -> bool) (l : list A) : nat :=
  length (List.filter p l).

(** The telemetry snapshots held by a fleet map. *)
Definition telemetries (units : gmap string EVSEUnit) : list TelemetryData :=
  telemetry <$> WebSocketProvider.Array_from_values units.

(** The value of the ternary [total > 0 ? (part / total) * 100 : 0]. *)
Definition pct_value (part total : Q) : Q :=
  if Qlt_le_dec 0 total then part / total * 100 else 0.

(** Both energy buckets of a record are non-negative. *)
Definition nonneg_energy (t : TelemetryData) : Prop :=
  0 <= session_energy_kwh_solar t /\ 0 <= session_energy_kwh_grid t.

(** A result of [Math.random()]. *)
Definition is_random (r : Q) : Prop := 0 <= r /\ r < 1.

Definition Draws_random (d : MockFirebaseDB.Draws) : Prop :=
  is_random (MockFirebaseDB.r_scenario d)
  /\ is_random (MockFirebaseDB.r_voltage d)
  /\ is_random (MockFirebaseDB.r_current d)
  /\ is_random (MockFirebaseDB.r_source d)
  /\ is_random (MockFirebaseDB.r_sessionTime d)
  /\ is_random (MockFirebaseDB.r_temperature d)
  /\ is_random (MockFirebaseDB.r_unit d).

Definition MockDraws_random (d : MockFirebaseDB.MockDraws) : Prop :=
  is_random (MockFirebaseDB.r_session_charging d)
  /\ is_random (MockFirebaseDB.r_session_preparing d)
  /\ Draws_random (MockFirebaseDB.unit1 d)
  /\ Draws_random (MockFirebaseDB.unit2 d)
  /\ Draws_random (MockFirebaseDB.unit3 d)
  /\ is_random (MockFirebaseDB.r_avg_temperature d).

(** A record that one [generateTelemetry] call can return: some row of
    the scenario table and one of that row's sources. *)
Definition generated (now : Z) (rc rp : Q) (d : MockFirebaseDB.Draws)
    (t : TelemetryData) : Prop :=
  exists sc src,
    sc ∈ MockFirebaseDB.scenarios rc rp
    /\ src ∈ MockFirebaseDB.energySource sc
    /\ t = MockFirebaseDB.mkTelemetry now sc src d.

(** The five lifecycle states. *)
Definition lifecycle : list Status :=
  [available; preparing; charging; finishing; faulted].

(** Status and session presence agree on a telemetry record. *)
Definition consistent (t : TelemetryData) : Prop :=
  In (status t) lifecycle /\ (status t = available <-> session_id t = None).

(** ** Event streams *)

(** The live consumer after a run of messages, each with the clock reading
    at its arrival. *)
Definition process (msgs : list (Z * option TelemetryData))
    (st : WebSocketProvider.State) : WebSocketProvider.State :=
  fold_left (fun st m => WebSocketProvider.onmessage (fst m) (snd m) st) msgs st.

(** The key under which a message is filed, if it parses. *)
Definition key_of (m : Z * option TelemetryData) : option string :=
  WebSocketProvider.unitIdOf (fst m) <$> snd m.

(** Every unit of a fleet map sits under its own [unit_id]. *)
Definition keyed_by_unit_id (units : gmap string EVSEUnit) : Prop :=
  forall k u, units !! k = Some u -> unit_id u = k.

(** The chart after a run of telemetry updates. *)
Definition chart_after (updates : list (option TelemetryData))
    (chart : list PowerChart.ChartDataPoint) : list PowerChart.ChartDataPoint :=
  fold_left (fun c u => PowerChart.onTelemetry u c) updates chart.

(** The connection state after a run of events. *)
Definition conn_after (events : list Connection.Event) (c : Connection.Conn)
  : Connection.Conn :=
  fold_left Connection.step events c.

(** ** Vocabulary of the statements on numbers *)

(** The running sum of a list of numbers: added one after the other to 0,
    in list order. *)
Definition running_sum (rnd : Q -> Q) (l : list Q) : Q :=
  fold_left (Num.add rnd) l 0.

(** The telemetry snapshots of a [Map] of units, in insertion order. *)
Definition snapshots (units : list (string * EVSEUnit)) : list TelemetryData :=
  telemetry <$> UseWebSocket.Array_from_values units.

(** The all-zero statistics stamped with the clock's reading. *)
Definition zero_stats (now : Z) : SystemStats :=
  {| total_power_w := 0; total_solar_energy_kwh := 0;
     total_grid_energy_kwh := 0; total_energy_kwh := 0;
     avg_temperature_c := 0; solar_percentage := 0;
     active_sessions := 0; available_units := 0;
     charging_units := 0; faulted_units := 0;
     stats_last_updated := now |}.

(** A number the running program can hold. *)
Definition is_double (x : Q) : Prop := Binary64.rnd x == x.

(** A result of [Math.random()] in the running program. *)
Definition is_draw (r : Q) : Prop := 0 <= r <= Binary64.below_one.

Definition Draws_drawn (d : MockFirebaseDB.Draws) : Prop :=
  is_draw (MockFirebaseDB.r_scenario d)
  /\ is_draw (MockFirebaseDB.r_voltage d)
  /\ is_draw (MockFirebaseDB.r_current d)
  /\ is_draw (MockFirebaseDB.r_source d)
  /\ is_draw (MockFirebaseDB.r_sessionTime d)
  /\ is_draw (MockFirebaseDB.r_temperature d)
  /\ is_draw (MockFirebaseDB.r_unit d).

Definition MockDraws_drawn (d : MockFirebaseDB.MockDraws) : Prop :=
  is_draw (MockFirebaseDB.r_session_charging d)
  /\ is_draw (MockFirebaseDB.r_session_preparing d)
  /\ Draws_drawn (MockFirebaseDB.unit1 d)
  /\ Draws_drawn (MockFirebaseDB.unit2 d)
  /\ Draws_drawn (MockFirebaseDB.unit3 d)
  /\ is_draw (MockFirebaseDB.r_avg_temperature d).



(** The energy buckets of a record are doubles, each at least 0. *)
Definition energy_measured (t : TelemetryData) : Prop :=
  is_double (session_energy_kwh_solar t) /\ 0 <= session_energy_kwh_solar t
  /\ is_double (session_energy_kwh_grid t) /\ 0 <= session_energy_kwh_grid t.

(** ** Sample inputs *)

Module Examples.

Import WebSocketProvider MockFirebaseDB.

(** A charging snapshot with the given power, energy buckets and
    temperature. *)
Definition snapshot (p s g te : Q) : TelemetryData :=
  {| timestamp := 0; session_id := Some "sess_1234";
     voltage_v := 230; current_a := 16; power_w := p;
     session_energy_kwh_solar := s; session_energy_kwh_grid := g;
     session_total_energy_kwh := s + g; energy_source := solar;
     temperature_c := te; status := charging; msg_unit_id := None |}.

Definition unit_of (id : string) (t : TelemetryData) : EVSEUnit :=
  {| unit_id := id; telemetry := t; last_updated := 0 |}.

(** A message without [unit_id] whose session id is [sess_abc123]. *)
Definition legacy_message : TelemetryData :=
  {| timestamp := 0; session_id := Some "sess_abc123";
     voltage_v := 230; current_a := 16; power_w := 3680;
     session_energy_kwh_solar := 1; session_energy_kwh_grid := 2;
     session_total_energy_kwh := 3; energy_source := solar;
     temperature_c := 30; status := charging; msg_unit_id := None |}.

(** The same message carrying [unit_id: "evse_unit_07"]. *)
Definition tagged_message : TelemetryData :=
  {| timestamp := 0; session_id := Some "sess_abc123";
     voltage_v := 230; current_a := 16; power_w := 3680;
     session_energy_kwh_solar := 1; session_energy_kwh_grid := 2;
     session_total_energy_kwh := 3; energy_source := solar;
     temperature_c := 30; status := charging;
     msg_unit_id := Some "evse_unit_07" |}.

Definition st0 : State :=
  {| telemetryData := None; evseUnits := ∅; systemStats := None |}.

(** Draws that pick the charging row, 220 V, 15 A, a tenth of an hour
    and the first source (solar). *)
Definition draws_solar : Draws :=
  {| r_scenario := 0; r_voltage := 0; r_current := 0; r_source := 0;
     r_sessionTime := 0; r_temperature := 0; r_unit := 0 |}.

(** The same draws but for the source draw, which picks the second
    source (grid). *)
Definition draws_grid : Draws :=
  {| r_scenario := 0; r_voltage := 0; r_current := 0; r_source := 1 # 2;
     r_sessionTime := 0; r_temperature := 0; r_unit := 0 |}.

(** Draws that pick the preparing row with 0.41 Wh delivered. *)
Definition draws_preparing : Draws :=
  {| r_scenario := 7 # 10; r_voltage := 0; r_current := 41 # 11000;
     r_source := 0; r_sessionTime := 0; r_temperature := 0; r_unit := 0 |}.

Definition mock_draws : MockDraws :=
  {| r_session_charging := 1 # 2; r_session_preparing := 1 # 3;
     unit1 := draws_solar; unit2 := draws_grid; unit3 := draws_preparing;
     r_avg_temperature := 1 # 2 |}.

End Examples.

Module RegistryExamples.

(** A tick's data: one unit, placeholder statistics. *)
Definition tick : MockFirebaseDB.MockData :=
  {| MockFirebaseDB.latest_telemetry := Examples.legacy_message;
     MockFirebaseDB.system_stats := StatsGrid.placeholder;
     MockFirebaseDB.evse_units :=
       [Examples.unit_of "evse_unit_1" Examples.legacy_message] |}.

(** Callbacks 1 and 2 on [system_stats], callback 3 on [debug]. *)
Definition registry : list (string * list nat) :=
  MockListeners.on "debug" 3
    (MockListeners.on "system_stats" 2
       (MockListeners.on "system_stats" 1 [])).

End RegistryExamples.

(** Sample inputs of the running program: every reading is a double. *)
Module Doubles.

(** What [JSON.parse] makes of a decimal numeral. *)
Definition parsed (q : Q) : Q := Binary64.rnd q.

Definition entry (id : string) (t : TelemetryData) : string * EVSEUnit :=
  (id, Examples.unit_of id t).

(** One unit: half a watt, 1 kWh solar, 2 kWh grid. *)
Definition fleet1 : list (string * EVSEUnit) :=
  [entry "evse_unit_01" (Examples.snapshot (1 # 2) 1 2 20)].

(** Three units with the given power readings, at 20, 20 and 21 degrees. *)
Definition fleet3 (p1 p2 p3 : Q) : list (string * EVSEUnit) :=
  [entry "evse_unit_01" (Examples.snapshot (parsed p1) 1 2 20);
   entry "evse_unit_02" (Examples.snapshot (parsed p2) 1 2 20);
   entry "evse_unit_03" (Examples.snapshot (parsed p3) 1 2 21)].

(** Two units at 20 and 20.3 degrees. *)
Definition fleet2 : list (string * EVSEUnit) :=
  [entry "evse_unit_01" (Examples.snapshot 3300 1 2 20);
   entry "evse_unit_02" (Examples.snapshot 3300 1 2 (parsed (203 # 10)))].

(** One unit whose solar bucket is 2 kWh and whose grid bucket is -1 kWh. *)
Definition fleet_negative : list (string * EVSEUnit) :=
  [entry "evse_unit_01" (Examples.snapshot 3300 2 (-1) 20)].

(** A session with 0.0015 kWh from solar and nothing from the grid. *)
Definition small_session : TelemetryData :=
  {| timestamp := 0; session_id := Some "sess_abc123";
     voltage_v := 230; current_a := 16; power_w := 3680;
     session_energy_kwh_solar := parsed (15 # 10000);
     session_energy_kwh_grid := 0;
     session_total_energy_kwh := parsed (15 # 10000);
     energy_source := solar; temperature_c := 30; status := charging;
     msg_unit_id := None |}.

(** Statistics with the same totals as [small_session]. *)
Definition small_stats : SystemStats :=
  {| total_power_w := 3680; total_solar_energy_kwh := parsed (15 # 10000);
     total_grid_energy_kwh := 0; total_energy_kwh := parsed (15 # 10000);
     avg_temperature_c := 30; solar_percentage := 100;
     active_sessions := 1; available_units := 0;
     charging_units := 1; faulted_units := 0;
     stats_last_updated := 0 |}.

(** Draws that pick the charging row, 220 V, 15 A, a tenth of an hour and
    the source given by [r]. *)
Definition draws_charging (r : Q) : MockFirebaseDB.Draws :=
  {| MockFirebaseDB.r_scenario := 0; MockFirebaseDB.r_voltage := 0;
     MockFirebaseDB.r_current := 0; MockFirebaseDB.r_source := r;
     MockFirebaseDB.r_sessionTime := 0; MockFirebaseDB.r_temperature := 0;
     MockFirebaseDB.r_unit := 0 |}.

(** Draws that pick the preparing row at 220 V and 0.02 A, a tenth of an
    hour. *)
Definition draws_preparing : MockFirebaseDB.Draws :=
  {| MockFirebaseDB.r_scenario := parsed (7 # 10);
     MockFirebaseDB.r_voltage := 0;
     MockFirebaseDB.r_current := parsed (4 # 1000);
     MockFirebaseDB.r_source := 0; MockFirebaseDB.r_sessionTime := 0;
     MockFirebaseDB.r_temperature := 0; MockFirebaseDB.r_unit := 0 |}.

Definition mock_draws : MockFirebaseDB.MockDraws :=
  {| MockFirebaseDB.r_session_charging := 1 # 2;
     MockFirebaseDB.r_session_preparing := 1 # 4;
     MockFirebaseDB.unit1 := draws_charging 0;
     MockFirebaseDB.unit2 := draws_charging (1 # 2);
     MockFirebaseDB.unit3 := draws_preparing;
     MockFirebaseDB.r_avg_temperature := 1 # 2 |}.

End Doubles.

(** * Properties *)

(** ** Rounding on rationals *)

Section Rounding.

Lemma pow10_pos (d : nat) : 0 < JS.pow10 d.
Proof.
  unfold JS.pow10. change 0 with (inject_Z 0). rewrite <- Zlt_Qlt.
  apply Z.pow_pos_nonneg; lia.
Qed.

Lemma floor_half_bounds (x : Q) :
  x - (1 # 2) < inject_Z (Qfloor (x + JS.half))
  /\ inject_Z (Qfloor (x + JS.half)) <= x + (1 # 2).
Proof.
  pose proof (Qfloor_le (x + JS.half)) as Hle.
  pose proof (Qlt_floor (x + JS.half)) as Hlt.
  rewrite inject_Z_plus in Hlt. unfold JS.half in *.
  change (inject_Z 1) with 1 in Hlt. split; lra.
Qed.

Lemma Math_round_bounds (x : Q) :
  x - (1 # 2) < JS.Math_round x /\ JS.Math_round x <= x + (1 # 2).
Proof. apply floor_half_bounds. Qed.

Global Instance Math_round_Proper : Proper (Qeq ==> Qeq) JS.Math_round.
Proof.
  intros x y Hxy. unfold JS.Math_round.
  assert (Hf : Qfloor (x + JS.half) = Qfloor (y + JS.half))
    by (apply Qfloor_comp; rewrite Hxy; reflexivity).
  rewrite Hf. reflexivity.
Qed.

Lemma Qle_bool_Proper_r (x y : Q) : x == y -> Qle_bool 0 x = Qle_bool 0 y.
Proof.
  intros Hxy. destruct (Qle_bool 0 x) eqn:Hx, (Qle_bool 0 y) eqn:Hy; trivial.
  - apply Qle_bool_iff in Hx. rewrite Hxy in Hx.
    apply Qle_bool_iff in Hx. congruence.
  - apply Qle_bool_iff in Hy. rewrite <- Hxy in Hy.
    apply Qle_bool_iff in Hy. congruence.
Qed.

Global Instance toFixed_Proper (d : nat) : Proper (Qeq ==> Qeq) (JS.toFixed d).
Proof.
  intros x y Hxy. unfold JS.toFixed.
  rewrite (Qle_bool_Proper_r x y Hxy).
  assert (Hp : Qfloor (x * JS.pow10 d + JS.half)
               = Qfloor (y * JS.pow10 d + JS.half))
    by (apply Qfloor_comp; rewrite Hxy; reflexivity).
  assert (Hn : Qfloor (- x * JS.pow10 d + JS.half)
               = Qfloor (- y * JS.pow10 d + JS.half))
    by (apply Qfloor_comp; rewrite Hxy; reflexivity).
  rewrite Hp, Hn. reflexivity.
Qed.

Lemma toFixed_0 (d : nat) : JS.toFixed d 0 == 0.
Proof.
  unfold JS.toFixed. change (Qle_bool 0 0) with true. cbv iota.
  assert (H : Qfloor (0 * JS.pow10 d + JS.half) = 0%Z).
  { transitivity (Qfloor JS.half); [| reflexivity].
    apply Qfloor_comp. ring. }
  rewrite H. change (inject_Z 0) with 0. unfold Qdiv. ring.
Qed.

(** [toFixed] on a non-negative argument. *)
Lemma toFixed_nonneg (d : nat) (x : Q) :
  0 <= x ->
  JS.toFixed d x == inject_Z (Qfloor (x * JS.pow10 d + JS.half)) / JS.pow10 d.
Proof.
  intros Hx. unfold JS.toFixed.
  apply Qle_bool_iff in Hx. rewrite Hx. reflexivity.
Qed.

(** The rounding error of [toFixed(d)] is at most half a unit of the last
    kept decimal. *)
Lemma toFixed_error (d : nat) (x : Q) :
  Qabs (JS.toFixed d x - x) <= 1 / (2 * JS.pow10 d).
Proof.
  pose proof (pow10_pos d) as Hp.
  assert (Hmul : forall n y : Q,
             y * JS.pow10 d - (1 # 2) < n -> n <= y * JS.pow10 d + (1 # 2) ->
             Qabs (n / JS.pow10 d - y) <= 1 / (2 * JS.pow10 d)).
  { intros n y H1 H2. apply Qabs_Qle_condition.
    assert (Hq : (n / JS.pow10 d - y) * JS.pow10 d == n - y * JS.pow10 d)
      by (field; lra).
    assert (He : 1 / (2 * JS.pow10 d) * JS.pow10 d == 1 # 2) by (field; lra).
    assert (He' : - (1 / (2 * JS.pow10 d)) * JS.pow10 d == - (1 # 2))
      by (field; lra).
    split; apply (Qmult_le_r _ _ (JS.pow10 d) Hp).
    - rewrite He', Hq. lra.
    - rewrite He, Hq. lra. }
  unfold JS.toFixed. destruct (Qle_bool 0 x).
  - destruct (floor_half_bounds (x * JS.pow10 d)). apply Hmul; assumption.
  - destruct (floor_half_bounds (- x * JS.pow10 d)) as [H1 H2].
    specialize (Hmul _ (- x) H1 H2).
    rewrite <- Qabs_opp.
    assert (E : - (- (inject_Z (Qfloor (- x * JS.pow10 d + JS.half))
                      / JS.pow10 d) - x)
                == inject_Z (Qfloor (- x * JS.pow10 d + JS.half))
                   / JS.pow10 d - - x) by ring.
    rewrite E.
    exact Hmul.
Qed.

(** A percentage stays a percentage under [toFixed(1)]. *)
Lemma toFixed1_percent (x : Q) :
  0 <= x <= 100 -> 0 <= JS.toFixed 1 x <= 100.
Proof.
  intros [H0 H100]. rewrite (toFixed_nonneg 1 x H0).
  change (JS.pow10 1) with 10.
  assert (Hlo : (0 <= Qfloor (x * 10 + JS.half))%Z).
  { change 0%Z with (Qfloor 0). apply Qfloor_resp_le. unfold JS.half. lra. }
  assert (Hhi : (Qfloor (x * 10 + JS.half) <= 1000)%Z).
  { change 1000%Z with (Qfloor (1000 + JS.half)).
    apply Qfloor_resp_le. unfold JS.half. lra. }
  rewrite Zle_Qle in Hlo, Hhi.
  change (inject_Z 0) with 0 in Hlo. change (inject_Z 1000) with 1000 in Hhi.
  split.
  - apply Qle_shift_div_l; lra.
  - apply Qle_shift_div_r; lra.
Qed.

End Rounding.

(** ** The [reduce] of [calculateSystemStats] *)

Section Reduce.

Import WebSocketProvider.

Lemma Qsum_cons (x : Q) (l : list Q) : Qsum (x :: l) = x + Qsum l.
Proof. reflexivity. Qed.

Lemma count_cons {A} (p : A -> bool) (x : A) (l : list A) :
  count p (x :: l) = ((if p x then 1 else 0) + count p l)%nat.
Proof. unfold count. simpl. destruct (p x); reflexivity. Qed.

Lemma count_perm {A} (p : A -> bool) (l1 l2 : list A) :
  Permutation l1 l2 -> count p l1 = count p l2.
Proof.
  induction 1 as [| x l l' _ IH | x y l | l l' l'' _ IH1 _ IH2].
  - reflexivity.
  - rewrite !count_cons, IH. reflexivity.
  - rewrite !count_cons. lia.
  - congruence.
Qed.

(** What [reduce] has accumulated after a run from [a] over [l]. *)
Lemma fold_step_power (l : list EVSEUnit) (a : Acc) :
  acc_total_power_w (fold_left step l a)
  == acc_total_power_w a + Qsum (power_w <$> (telemetry <$> l)).
Proof.
  revert a. induction l as [| u l IH]; intros a.
  - cbn. ring.
  - cbn [fold_left]. rewrite IH. rewrite !fmap_cons, Qsum_cons.
    cbn [step acc_total_power_w acc_total_solar_energy_kwh
         acc_total_grid_energy_kwh acc_total_temperature_c]. ring.
Qed.

Lemma fold_step_solar (l : list EVSEUnit) (a : Acc) :
  acc_total_solar_energy_kwh (fold_left step l a)
  == acc_total_solar_energy_kwh a
     + Qsum (session_energy_kwh_solar <$> (telemetry <$> l)).
Proof.
  revert a. induction l as [| u l IH]; intros a.
  - cbn. ring.
  - cbn [fold_left]. rewrite IH. rewrite !fmap_cons, Qsum_cons.
    cbn [step acc_total_power_w acc_total_solar_energy_kwh
         acc_total_grid_energy_kwh acc_total_temperature_c]. ring.
Qed.

Lemma fold_step_grid (l : list EVSEUnit) (a : Acc) :
  acc_total_grid_energy_kwh (fold_left step l a)
  == acc_total_grid_energy_kwh a
     + Qsum (session_energy_kwh_grid <$> (telemetry <$> l)).
Proof.
  revert a. induction l as [| u l IH]; intros a.
  - cbn. ring.
  - cbn [fold_left]. rewrite IH. rewrite !fmap_cons, Qsum_cons.
    cbn [step acc_total_power_w acc_total_solar_energy_kwh
         acc_total_grid_energy_kwh acc_total_temperature_c]. ring.
Qed.

Lemma fold_step_temperature (l : list EVSEUnit) (a : Acc) :
  acc_total_temperature_c (fold_left step l a)
  == acc_total_temperature_c a + Qsum (temperature_c <$> (telemetry <$> l)).
Proof.
  revert a. induction l as [| u l IH]; intros a.
  - cbn. ring.
  - cbn [fold_left]. rewrite IH. rewrite !fmap_cons, Qsum_cons.
    cbn [step acc_total_power_w acc_total_solar_energy_kwh
         acc_total_grid_energy_kwh acc_total_temperature_c]. ring.
Qed.

Lemma fold_step_counts (l : list EVSEUnit) (a : Acc) :
  acc_active_sessions (fold_left step l a)
    = (acc_active_sessions a
       + count (fun t => JS.truthy (session_id t)) (telemetry <$> l))%nat
  /\ acc_available_units (fold_left step l a)
    = (acc_available_units a
       + count (fun t => Status_eqb (status t) available) (telemetry <$> l))%nat
  /\ acc_charging_units (fold_left step l a)
    = (acc_charging_units a
       + count (fun t => Status_eqb (status t) charging) (telemetry <$> l))%nat
  /\ acc_faulted_units (fold_left step l a)
    = (acc_faulted_units a
       + count (fun t => Status_eqb (status t) faulted) (telemetry <$> l))%nat.
Proof.
  revert a. induction l as [| u l IH]; intros a.
  - simpl. unfold count. simpl. lia.
  - simpl fold_left. destruct (IH (step a u)) as (H1 & H2 & H3 & H4).
    rewrite H1, H2, H3, H4. rewrite !fmap_cons, !count_cons. simpl.
    unfold b2n.
    destruct (JS.truthy _), (Status_eqb _ available),
      (Status_eqb _ charging), (Status_eqb _ faulted); lia.
Qed.

Lemma jsdiv_Some (a b : Q) : ~ b == 0 -> JS.jsdiv a b = Some (a / b).
Proof.
  intros Hb. unfold JS.jsdiv. destruct (Qeq_bool b 0) eqn:E; [| reflexivity].
  apply Qeq_bool_iff in E. contradiction.
Qed.

Lemma percentage_Some (part total : Q) :
  percentage part total = Some (pct_value part total).
Proof.
  unfold percentage, pct_value.
  destruct (Qlt_le_dec 0 total) as [Hpos | Hle].
  - rewrite jsdiv_Some by (intros E; rewrite E in Hpos; lra). reflexivity.
  - reflexivity.
Qed.

Lemma length_divisor_nonzero {A} (x : A) (l : list A) :
  ~ inject_Z (Z.of_nat (length (x :: l))) == 0.
Proof.
  intros H. unfold Qeq in H. cbn [Qnum Qden inject_Z length] in H. lia.
Qed.

(** The statistics of a non-empty array, with both divisions carried out. *)
Lemma statsOfArray_cons (now : Z) (u : EVSEUnit) (l : list EVSEUnit) :
  let unitArray := u :: l in
  let stats := reduce unitArray in
  let total := acc_total_solar_energy_kwh stats
               + acc_total_grid_energy_kwh stats in
  statsOfArray now unitArray
  = Some {| total_power_w := JS.Math_round (acc_total_power_w stats);
            total_solar_energy_kwh :=
              JS.toFixed 4 (acc_total_solar_energy_kwh stats);
            total_grid_energy_kwh :=
              JS.toFixed 4 (acc_total_grid_energy_kwh stats);
            total_energy_kwh := JS.toFixed 4 total;
            avg_temperature_c :=
              JS.toFixed 1 (acc_total_temperature_c stats
                            / inject_Z (Z.of_nat (length unitArray)));
            solar_percentage :=
              JS.toFixed 1 (pct_value (acc_total_solar_energy_kwh stats) total);
            active_sessions := acc_active_sessions stats;
            available_units := acc_available_units stats;
            charging_units := acc_charging_units stats;
            faulted_units := acc_faulted_units stats;
            stats_last_updated := now |}.
Proof.
  intros unitArray stats total. unfold statsOfArray.
  change (Nat.eqb (length unitArray) 0) with false. cbv iota.
  fold stats. fold total. rewrite percentage_Some.
  rewrite (jsdiv_Some _ _ (length_divisor_nonzero u l)).
  reflexivity.
Qed.

(** Reading the accumulator as sums over the snapshot list. *)
Lemma reduce_sums (l : list EVSEUnit) :
  let ts := telemetry <$> l in
  acc_total_power_w (reduce l) == Qsum (power_w <$> ts)
  /\ acc_total_solar_energy_kwh (reduce l)
     == Qsum (session_energy_kwh_solar <$> ts)
  /\ acc_total_grid_energy_kwh (reduce l)
     == Qsum (session_energy_kwh_grid <$> ts)
  /\ acc_total_temperature_c (reduce l) == Qsum (temperature_c <$> ts).
Proof.
  unfold reduce. cbv zeta.
  rewrite fold_step_power, fold_step_solar, fold_step_grid,
    fold_step_temperature.
  simpl. repeat split; ring.
Qed.

End Reduce.

(** ** The percentage ternary *)

Section Percentage.

Lemma pct_value_zero (part total : Q) : total <= 0 -> pct_value part total == 0.
Proof.
  intros H. unfold pct_value. destruct (Qlt_le_dec 0 total); [lra | reflexivity].
Qed.

Lemma pct_value_pos (part total : Q) :
  0 < total -> pct_value part total == part / total * 100.
Proof.
  intros H. unfold pct_value. destruct (Qlt_le_dec 0 total); [reflexivity | lra].
Qed.

Global Instance pct_value_Proper : Proper (Qeq ==> Qeq ==> Qeq) pct_value.
Proof.
  intros p1 p2 Hp t1 t2 Ht.
  destruct (Qlt_le_dec 0 t1) as [H1 | H1].
  - rewrite !pct_value_pos by lra. rewrite Hp, Ht. reflexivity.
  - rewrite !pct_value_zero by lra. reflexivity.
Qed.

End Percentage.

(** ** Fleet statistics of the live consumer *)

Section FleetStats.

Import WebSocketProvider.

Lemma Array_from_values_empty : Array_from_values ∅ = [].
Proof. unfold Array_from_values. rewrite map_to_list_empty. reflexivity. Qed.

(** The statistics in terms of sums and counts over the snapshots; the
    empty array included. *)
Lemma statsOfArray_sums (now : Z) (unitArray : list EVSEUnit) :
  let ts := telemetry <$> unitArray in
  let S := Qsum (session_energy_kwh_solar <$> ts) in
  let G := Qsum (session_energy_kwh_grid <$> ts) in
  exists st,
    statsOfArray now unitArray = Some st
    /\ total_power_w st == JS.Math_round (Qsum (power_w <$> ts))
    /\ total_solar_energy_kwh st == JS.toFixed 4 S
    /\ total_grid_energy_kwh st == JS.toFixed 4 G
    /\ total_energy_kwh st == JS.toFixed 4 (S + G)
    /\ solar_percentage st == JS.toFixed 1 (pct_value S (S + G))
    /\ active_sessions st = count (fun t => JS.truthy (session_id t)) ts
    /\ available_units st
       = count (fun t => Status_eqb (status t) available) ts
    /\ charging_units st = count (fun t => Status_eqb (status t) charging) ts
    /\ faulted_units st = count (fun t => Status_eqb (status t) faulted) ts
    /\ stats_last_updated st = now.
Proof.
  destruct unitArray as [| u l].
  - eexists. split; [reflexivity |]. cbn.
    repeat split; try reflexivity.
  - intros ts S G. eexists. split; [apply statsOfArray_cons |].
    destruct (reduce_sums (u :: l)) as (Hp & Hs & Hg & _).
    destruct (fold_step_counts (u :: l) acc0) as (C1 & C2 & C3 & C4).
    fold (reduce (u :: l)) in C1, C2, C3, C4.
    cbn [total_power_w total_solar_energy_kwh total_grid_energy_kwh
         total_energy_kwh solar_percentage active_sessions available_units
         charging_units faulted_units stats_last_updated].
    fold ts in Hp, Hs, Hg, C1, C2, C3, C4. fold S in Hs. fold G in Hg.
    rewrite Hp, Hs, Hg, C1, C2, C3, C4.
    repeat split; reflexivity.
Qed.

(** No input makes [calculateSystemStats] divide by zero. *)
Lemma statsOfArray_total (now : Z) (unitArray : list EVSEUnit) :
  is_Some (statsOfArray now unitArray).
Proof.
  destruct (statsOfArray_sums now unitArray) as (st & E & _).
  rewrite E. eexists. reflexivity.
Qed.

End FleetStats.

(** ** The mock feed *)

Section MockFeed.

Import MockFirebaseDB.

Lemma floor_times_range (r : Q) (n : nat) :
  is_random r -> (0 < n)%nat -> (0 <= floor_times r n < Z.of_nat n)%Z.
Proof.
  intros [H0 H1] Hn. unfold floor_times, JS.Math_floor.
  assert (HN : 0 < inject_Z (Z.of_nat n)).
  { change 0 with (inject_Z 0). rewrite <- Zlt_Qlt. lia. }
  split.
  - change 0%Z with (Qfloor 0). apply Qfloor_resp_le.
    apply Qmult_le_0_compat; lra.
  - rewrite Zlt_Qlt.
    apply Qle_lt_trans with (r * inject_Z (Z.of_nat n)); [apply Qfloor_le |].
    rewrite <- (Qmult_1_l (inject_Z (Z.of_nat n))) at 2.
    apply Qmult_lt_compat_r; assumption.
Qed.

Lemma at_index_Some {A} (arr : list A) (i : Z) :
  (0 <= i < Z.of_nat (length arr))%Z ->
  exists x, at_index arr i = Some x /\ x ∈ arr.
Proof.
  intros [Hlo Hhi]. unfold at_index.
  destruct (Z.ltb_spec i 0) as [Hneg | _]; [lia |].
  destruct (lookup_lt_is_Some_2 arr (Z.to_nat i)) as [x Hx]; [lia |].
  exists x. split; [assumption |]. eapply list_elem_of_lookup_2; eassumption.
Qed.

Lemma scenarios_inv (rc rp : Q) (sc : Scenario) :
  sc ∈ scenarios rc rp ->
  sc = {| sc_status := charging; voltageRange := (220, 240);
          currentRange := (15, 32); energySource := [solar; grid; solar];
          sessionId := Some (sess rc) |}
  \/ sc = {| sc_status := available; voltageRange := (220, 240);
             currentRange := (0, 0); energySource := [none];
             sessionId := None |}
  \/ sc = {| sc_status := preparing; voltageRange := (220, 240);
             currentRange := (0, 5); energySource := [solar];
             sessionId := Some (sess rp) |}.
Proof.
  unfold scenarios. rewrite !elem_of_cons, elem_of_nil. tauto.
Qed.

Lemma generateTelemetry_Some (now : Z) (rc rp : Q) (d : Draws) :
  is_random (r_scenario d) -> is_random (r_source d) ->
  exists t, generateTelemetry now (scenarios rc rp) d = Some t
            /\ generated now rc rp d t.
Proof.
  intros Hsc Hsrc. unfold generateTelemetry.
  destruct (at_index_Some (scenarios rc rp)
              (floor_times (r_scenario d) (length (scenarios rc rp))))
    as (sc & Esc & Hin).
  { apply floor_times_range; [assumption | simpl; lia]. }
  rewrite Esc. cbn [mbind option_bind].
  destruct (at_index_Some (energySource sc)
              (floor_times (r_source d) (length (energySource sc))))
    as (src & Esrc & Hsin).
  { apply floor_times_range; [assumption |].
    destruct (scenarios_inv _ _ _ Hin) as [-> | [-> | ->]]; simpl; lia. }
  rewrite Esrc. cbn [mbind option_bind].
  eexists. split; [reflexivity |]. exists sc, src. auto.
Qed.

(** *** Fields of a generated record *)

Lemma mkTelemetry_status now sc src d :
  status (mkTelemetry now sc src d) = sc_status sc.
Proof. unfold mkTelemetry. destruct (energies src sc d). reflexivity. Qed.

Lemma mkTelemetry_session_id now sc src d :
  session_id (mkTelemetry now sc src d) = sessionId sc.
Proof. unfold mkTelemetry. destruct (energies src sc d). reflexivity. Qed.

Lemma mkTelemetry_energy_source now sc src d :
  energy_source (mkTelemetry now sc src d) = src.
Proof. unfold mkTelemetry. destruct (energies src sc d). reflexivity. Qed.

Lemma mkTelemetry_energy now sc src d :
  session_energy_kwh_solar (mkTelemetry now sc src d)
    = round_to 10000 (fst (energies src sc d))
  /\ session_energy_kwh_grid (mkTelemetry now sc src d)
    = round_to 10000 (snd (energies src sc d))
  /\ session_total_energy_kwh (mkTelemetry now sc src d)
    = round_to 10000 (fst (energies src sc d) + snd (energies src sc d)).
Proof. unfold mkTelemetry. destruct (energies src sc d). auto. Qed.

Lemma generated_consistent now rc rp d t :
  generated now rc rp d t -> consistent t.
Proof.
  intros (sc & src & Hin & _ & ->).
  unfold consistent. rewrite mkTelemetry_status, mkTelemetry_session_id.
  destruct (scenarios_inv _ _ _ Hin) as [-> | [-> | ->]];
    cbn [sc_status sessionId]; (split; [unfold lifecycle; simpl; tauto |]);
    split; intros H; try discriminate; reflexivity.
Qed.

(** *** The statistics loop *)

Global Instance round_to_Proper (k : Q) : Proper (Qeq ==> Qeq) (round_to k).
Proof.
  intros x y Hxy. unfold round_to. rewrite Hxy. reflexivity.
Qed.

Lemma fold_visit_sums (l : list EVSEUnit) (a : Totals) :
  let ts := telemetry <$> l in
  totalPower (fold_left visit l a) == totalPower a + Qsum (power_w <$> ts)
  /\ totalSolar (fold_left visit l a)
     == totalSolar a + Qsum (session_energy_kwh_solar <$> ts)
  /\ totalGrid (fold_left visit l a)
     == totalGrid a + Qsum (session_energy_kwh_grid <$> ts).
Proof.
  revert a. induction l as [| u l IH]; intros a.
  - cbn. repeat split; ring.
  - cbn [fold_left]. cbv zeta. rewrite !fmap_cons, !Qsum_cons.
    destruct (IH (visit a u)) as (Hp & Hs & Hg).
    rewrite Hp, Hs, Hg. cbn [visit totalPower totalSolar totalGrid].
    repeat split; ring.
Qed.

Lemma fold_visit_counts (l : list EVSEUnit) (a : Totals) :
  let ts := telemetry <$> l in
  activeSessions (fold_left visit l a)
    = (activeSessions a + count (fun t => JS.truthy (session_id t)) ts)%nat
  /\ chargingUnits (fold_left visit l a)
    = (chargingUnits a
       + count (fun t => Status_eqb (status t) charging) ts)%nat
  /\ availableUnits (fold_left visit l a)
    = (availableUnits a
       + count (fun t => Status_eqb (status t) available) ts)%nat.
Proof.
  revert a. induction l as [| u l IH]; intros a.
  - cbn. unfold count. simpl. lia.
  - cbn [fold_left]. cbv zeta. destruct (IH (visit a u)) as (H1 & H2 & H3).
    rewrite H1, H2, H3. rewrite !fmap_cons, !count_cons.
    cbn [visit activeSessions chargingUnits availableUnits].
    destruct (JS.truthy _), (Status_eqb _ charging),
      (Status_eqb _ available); lia.
Qed.

Lemma solarPercentage_Some (tot : Totals) :
  solarPercentage tot
  = Some (pct_value (totalSolar tot) (totalSolar tot + totalGrid tot)).
Proof.
  unfold solarPercentage, pct_value. cbv zeta.
  destruct (Qlt_le_dec 0 (totalSolar tot + totalGrid tot)) as [Hpos | Hle].
  - rewrite jsdiv_Some by (intros E; rewrite E in Hpos; lra). reflexivity.
  - reflexivity.
Qed.

Lemma systemStatsOf_sums (now : Z) (r_avg : Q) (units : list EVSEUnit) :
  let ts := telemetry <$> units in
  let S := Qsum (session_energy_kwh_solar <$> ts) in
  let G := Qsum (session_energy_kwh_grid <$> ts) in
  exists st,
    systemStatsOf now r_avg units = Some st
    /\ total_power_w st == JS.Math_round (Qsum (power_w <$> ts))
    /\ total_solar_energy_kwh st == round_to 10000 S
    /\ total_grid_energy_kwh st == round_to 10000 G
    /\ total_energy_kwh st == round_to 10000 (S + G)
    /\ avg_temperature_c st = round_to 10 (r_avg * 10 + 25)
    /\ solar_percentage st == round_to 10 (pct_value S (S + G))
    /\ active_sessions st = count (fun t => JS.truthy (session_id t)) ts
    /\ available_units st
       = count (fun t => Status_eqb (status t) available) ts
    /\ charging_units st = count (fun t => Status_eqb (status t) charging) ts
    /\ faulted_units st = 0%nat.
Proof.
  intros ts S G. unfold systemStatsOf. cbv zeta.
  rewrite solarPercentage_Some. cbn [mbind option_bind].
  eexists. split; [reflexivity |].
  destruct (fold_visit_sums units totals0) as (Hp & Hs & Hg).
  destruct (fold_visit_counts units totals0) as (C1 & C2 & C3).
  cbv zeta in Hp, Hs, Hg, C1, C2, C3. fold ts in Hp, Hs, Hg, C1, C2, C3.
  fold S in Hs. fold G in Hg.
  cbn [totals0 totalPower totalSolar totalGrid activeSessions chargingUnits
       availableUnits] in Hp, Hs, Hg, C1, C2, C3.
  rewrite Qplus_0_l in Hp, Hs, Hg.
  cbn [total_power_w total_solar_energy_kwh total_grid_energy_kwh
       total_energy_kwh avg_temperature_c solar_percentage active_sessions
       available_units charging_units faulted_units].
  rewrite Hp, Hs, Hg, C1, C2, C3.
  repeat split; reflexivity.
Qed.

(** One run of the generator on genuine draws. *)
Lemma generateMockData_Some (now : Z) (d : MockDraws) :
  MockDraws_random d ->
  exists t1 t2 t3 st,
    generateMockData now d
    = Some {| latest_telemetry := t1; system_stats := st;
              evse_units := [mkUnit now 1 t1; mkUnit now 2 t2;
                             mkUnit now 3 t3] |}
    /\ generated now (r_session_charging d) (r_session_preparing d)
                 (unit1 d) t1
    /\ generated now (r_session_charging d) (r_session_preparing d)
                 (unit2 d) t2
    /\ generated now (r_session_charging d) (r_session_preparing d)
                 (unit3 d) t3
    /\ systemStatsOf now (r_avg_temperature d)
         [mkUnit now 1 t1; mkUnit now 2 t2; mkUnit now 3 t3] = Some st.
Proof.
  intros (_ & _ & D1 & D2 & D3 & _).
  destruct D1 as (A1 & _ & _ & B1 & _), D2 as (A2 & _ & _ & B2 & _),
    D3 as (A3 & _ & _ & B3 & _).
  destruct (generateTelemetry_Some now (r_session_charging d)
              (r_session_preparing d) (unit1 d) A1 B1) as (t1 & E1 & G1).
  destruct (generateTelemetry_Some now (r_session_charging d)
              (r_session_preparing d) (unit2 d) A2 B2) as (t2 & E2 & G2).
  destruct (generateTelemetry_Some now (r_session_charging d)
              (r_session_preparing d) (unit3 d) A3 B3) as (t3 & E3 & G3).
  destruct (systemStatsOf_sums now (r_avg_temperature d)
              [mkUnit now 1 t1; mkUnit now 2 t2; mkUnit now 3 t3])
    as (st & Est & _).
  exists t1, t2, t3, st. unfold generateMockData. cbv zeta.
  rewrite E1, E2, E3. cbn [mbind option_bind]. rewrite Est.
  cbn [mbind option_bind]. auto.
Qed.

End MockFeed.

(** ** Rounding in the mock feed *)

Section RoundTo.

Import MockFirebaseDB.

Lemma round_to_0 (k : Q) : round_to k 0 == 0.
Proof.
  unfold round_to.
  assert (E : JS.Math_round (0 * k) == 0).
  { assert (Ek : 0 * k == 0) by ring. rewrite Ek. reflexivity. }
  rewrite E. unfold Qdiv. ring.
Qed.

End RoundTo.

(** ** Splitting session identifiers *)

Section Split.

Lemma split_nonempty (sep : ascii) (s : string) :
  exists p ps, Str.split sep s = p :: ps.
Proof.
  induction s as [| c s (p & ps & IH)]; cbn [Str.split].
  - eauto.
  - destruct (Ascii.eqb c sep); [eauto |]. rewrite IH. eauto.
Qed.

Lemma split_sess (rest : string) :
  Str.split "_" ("sess_" +:+ rest) = "sess" :: Str.split "_" rest.
Proof.
  destruct (split_nonempty "_" rest) as (p & ps & E).
  change ("sess_" +:+ rest)
    with (String "s" (String "e" (String "s" (String "s" (String "_" rest))))).
  cbn. rewrite E. reflexivity.
Qed.

Lemma split_evse_unit (rest : string) :
  Str.split "_" ("evse_unit_" +:+ rest)
  = "evse" :: "unit" :: Str.split "_" rest.
Proof.
  destruct (split_nonempty "_" rest) as (p & ps & E).
  change ("evse_unit_" +:+ rest)
    with (String "e" (String "v" (String "s" (String "e" (String "_"
           (String "u" (String "n" (String "i" (String "t" (String "_"
              rest)))))))))).
  cbn. rewrite E. reflexivity.
Qed.

Lemma truthy_Some (s : string) : s <> "" -> JS.truthy (Some s) = true.
Proof. destruct s; [congruence | reflexivity]. Qed.

(** The rotating unit number is 1, 2 or 3 from the epoch onwards. *)
Lemma unitNumber_range (now : Z) :
  (0 <= now)%Z ->
  WebSocketProvider.unitNumber now = ((now / 5000) mod 3 + 1)%Z
  /\ (1 <= WebSocketProvider.unitNumber now <= 3)%Z.
Proof.
  intros Hnow. unfold WebSocketProvider.unitNumber.
  assert (Hq : (0 <= now / 5000)%Z) by (apply Z.div_pos; lia).
  rewrite Z.rem_mod_nonneg by lia.
  pose proof (Z.mod_pos_bound (now / 5000) 3). lia.
Qed.

Lemma padded_unit_number (n : Z) :
  (1 <= n <= 3)%Z ->
  Str.padStart0 2 (Str.toString n) = "0" +:+ Str.toString n.
Proof.
  intros Hn. assert (H : n = 1%Z \/ n = 2%Z \/ n = 3%Z) by lia.
  destruct H as [-> | [-> | ->]]; reflexivity.
Qed.

End Split.

(** ** Statements about the fleet statistics *)

Section FleetStatements.

Import WebSocketProvider.

(** C10. On the empty fleet [calculateSystemStats] returns the all-zero
    statistics through its guard, and on no fleet does it divide by zero:
    the division by the unit count is reached only behind that guard, the
    division by the total energy only behind the [> 0] test. *)
Theorem calculateSystemStats_empty_and_total (now : Z) :
  calculateSystemStats now ∅
  = Some {| total_power_w := 0; total_solar_energy_kwh := 0;
            total_grid_energy_kwh := 0; total_energy_kwh := 0;
            avg_temperature_c := 0; solar_percentage := 0;
            active_sessions := 0; available_units := 0;
            charging_units := 0; faulted_units := 0;
            stats_last_updated := now |}
  /\ forall units : gmap string EVSEUnit,
       is_Some (calculateSystemStats now units).
Proof.
  split.
  - unfold calculateSystemStats. rewrite Array_from_values_empty. reflexivity.
  - intros units. apply statsOfArray_total.
Qed.

End FleetStatements.

Section MockEnergy.

Import WebSocketProvider MockFirebaseDB.

Lemma round_to_nonneg (k x : Q) : 0 < k -> 0 <= x -> 0 <= round_to k x.
Proof.
  intros Hk Hx. unfold round_to, JS.Math_round.
  apply Qle_shift_div_l; [assumption |]. rewrite Qmult_0_l.
  change 0 with (inject_Z 0). rewrite <- Zle_Qle.
  change 0%Z with (Qfloor 0). apply Qfloor_resp_le.
  assert (0 <= x * k) by (apply Qmult_le_0_compat; lra).
  unfold JS.half. lra.
Qed.

(** Records produced from genuine draws carry non-negative energy. *)
Lemma generated_nonneg_energy now rc rp d t :
  Draws_random d -> generated now rc rp d t -> nonneg_energy t.
Proof.
  intros (_ & [Hv0 Hv1] & [Hc0 Hc1] & _ & [Ht0 Ht1] & _)
         (sc & src & Hin & _ & ->).
  destruct (mkTelemetry_energy now sc src d) as (Es & Eg & _).
  unfold nonneg_energy. rewrite Es, Eg.
  assert (HE : 0 <= sessionTime d * energyRate sc d).
  { apply Qmult_le_0_compat; [unfold sessionTime; lra |].
    unfold energyRate. apply Qle_shift_div_l; [lra |]. rewrite Qmult_0_l.
    unfold power. apply Qmult_le_0_compat.
    - unfold voltage.
      destruct (scenarios_inv _ _ _ Hin) as [-> | [-> | ->]];
        cbn [voltageRange fst snd]; lra.
    - unfold current.
      destruct (scenarios_inv _ _ _ Hin) as [-> | [-> | ->]];
        cbn [currentRange fst snd]; lra. }
  destruct src; cbn [energies fst snd];
    split; apply round_to_nonneg; lra.
Qed.

End MockEnergy.



(** ** The power curve *)

Section PowerCurveContract.

Import PowerCurve.

Lemma power_curve_taper (ef nominal : Q) :
  8 # 10 <= ef -> ef <= 1 ->
  power_curve charging ef nominal
  == Qmax (nominal * (1 - 4 * (ef - (8 # 10)))) ((2 # 10) * nominal).
Proof.
  intros Hlo Hhi. unfold power_curve. cbn [Status_eqb negb].
  destruct (Qlt_le_dec ef (8 # 10)) as [Hlt | _]; [lra |].
  apply Qle_bool_iff in Hhi. rewrite Hhi. reflexivity.
Qed.

(** On the taper a non-negative nominal power keeps the line above the
    floor. *)
Lemma taper_above_floor (ef nominal : Q) :
  0 <= nominal -> ef <= 1 ->
  (2 # 10) * nominal <= nominal * (1 - 4 * (ef - (8 # 10))).
Proof.
  intros Hn Hhi.
  assert (E : nominal * (1 - 4 * (ef - (8 # 10))) - (2 # 10) * nominal
              == nominal * (4 * (1 - ef))) by ring.
  assert (H : 0 <= nominal * (4 * (1 - ef)))
    by (apply Qmult_le_0_compat; lra).
  lra.
Qed.

Lemma power_curve_line (ef nominal : Q) :
  0 <= nominal -> 8 # 10 <= ef -> ef <= 1 ->
  power_curve charging ef nominal == nominal * (1 - 4 * (ef - (8 # 10))).
Proof.
  intros Hn Hlo Hhi. rewrite power_curve_taper by assumption.
  apply Q.max_l. apply taper_above_floor; assumption.
Qed.

(** C3.  The power curve is 0 outside the charging phase, the nominal
    power below 80 %, and on [0.8, 1] the line
    [nominal * (1 - 4 * (elapsed - 0.8))] floored at [0.2 * nominal]; for a
    non-negative nominal power it equals the nominal power at 0.8,
    [0.2 * nominal] at 1, and does not increase in between. *)
Theorem power_curve_contract (phase : Status) (ef ef' nominal : Q) :
  0 <= nominal ->
  (phase <> charging -> power_curve phase ef nominal == 0)
  /\ (ef < 8 # 10 -> power_curve charging ef nominal == nominal)
  /\ (8 # 10 <= ef -> ef <= 1 ->
      power_curve charging ef nominal
      == Qmax (nominal * (1 - 4 * (ef - (8 # 10)))) ((2 # 10) * nominal))
  /\ power_curve charging (8 # 10) nominal == nominal
  /\ power_curve charging 1 nominal == (2 # 10) * nominal
  /\ (8 # 10 <= ef -> ef <= ef' -> ef' <= 1 ->
      power_curve charging ef' nominal <= power_curve charging ef nominal).
Proof.
  intros Hn. repeat split.
  - intros Hph. unfold power_curve.
    destruct phase; try reflexivity. congruence.
  - intros Hlt. unfold power_curve. cbn [Status_eqb negb].
    destruct (Qlt_le_dec ef (8 # 10)); [reflexivity | lra].
  - apply power_curve_taper.
  - rewrite power_curve_line by lra. ring.
  - rewrite power_curve_line by lra. ring.
  - intros Hlo Hle Hhi. rewrite !power_curve_line by lra.
    assert (E : nominal * (1 - 4 * (ef - (8 # 10)))
                - nominal * (1 - 4 * (ef' - (8 # 10)))
                == nominal * (4 * (ef' - ef))) by ring.
    assert (H : 0 <= nominal * (4 * (ef' - ef)))
      by (apply Qmult_le_0_compat; lra).
    lra.
Qed.

(** [power_curve_contract] at the sample inputs. *)
Lemma power_curve_contract_witness :
  0 <= 7360
  /\ power_curve charging (8 # 10) 7360 == 7360
  /\ power_curve charging 1 7360 == 1472
  /\ power_curve charging 1 7360 <= power_curve charging (9 # 10) 7360.
Proof.
  assert (H : 0 <= 7360) by (unfold Qle; simpl; lia).
  split; [exact H |].
  destruct (power_curve_contract charging (9 # 10) 1 7360 H)
    as (_ & _ & _ & H8 & H1 & Hmono).
  split; [exact H8 |]. split; [rewrite H1; reflexivity |].
  apply Hmono; unfold Qle; simpl; lia.
Defined.

End PowerCurveContract.

(** ** The mock feed: statements *)

Section MockStatements.

Import MockFirebaseDB.

(** C4.  Every record the feed produces has one of the five lifecycle
    states, and its status is [available] exactly when it carries no
    session id. *)
Theorem mock_telemetry_consistent (now : Z) (d : MockDraws) :
  MockDraws_random d ->
  exists r,
    generateMockData now d = Some r
    /\ consistent (latest_telemetry r)
    /\ Forall (fun u => consistent (telemetry u)) (evse_units r).
Proof.
  intros Hd.
  destruct (generateMockData_Some now d Hd)
    as (t1 & t2 & t3 & st & E & G1 & G2 & G3 & _).
  eexists. split; [exact E |]. cbn [latest_telemetry evse_units].
  pose proof (generated_consistent _ _ _ _ _ G1) as C1.
  pose proof (generated_consistent _ _ _ _ _ G2) as C2.
  pose proof (generated_consistent _ _ _ _ _ G3) as C3.
  split; [exact C1 |].
  constructor; [exact C1 |]. constructor; [exact C2 |].
  constructor; [exact C3 |]. constructor.
Qed.

(** [mock_telemetry_consistent] at the sample inputs. *)
Lemma mock_telemetry_consistent_witness :
  MockDraws_random Examples.mock_draws
  /\ exists r,
       generateMockData 0 Examples.mock_draws = Some r
       /\ consistent (latest_telemetry r).
Proof.
  assert (H : MockDraws_random Examples.mock_draws).
  { unfold MockDraws_random, Draws_random, is_random, Qle, Qlt.
    simpl. lia. }
  split; [exact H |].
  destruct (mock_telemetry_consistent 0 Examples.mock_draws H)
    as (r & E & C & _).
  exists r. split; assumption.
Defined.

(** C8, refuted as stated: two runs that differ in nothing but the result
    of one [Math.random()] call select different sources. *)
Lemma source_selection_is_random :
  exists t1 t2,
    generateTelemetry 0 (scenarios 0 0) Examples.draws_solar = Some t1
    /\ generateTelemetry 0 (scenarios 0 0) Examples.draws_grid = Some t2
    /\ status t1 = status t2
    /\ energy_source t1 = solar
    /\ energy_source t2 = grid.
Proof.
  eexists _, _. split; [vm_compute; reflexivity |].
  split; [vm_compute; reflexivity |]. repeat split.
Qed.

Lemma floor_times_eq (r r' : Q) (n : nat) :
  r == r' -> floor_times r n = floor_times r' n.
Proof.
  intros H. unfold floor_times, JS.Math_floor. apply Qfloor_comp.
  rewrite H. reflexivity.
Qed.

Lemma generateTelemetry_at (now : Z) (scs : list Scenario) (d : Draws)
    (sc : Scenario) (src : EnergySource) :
  at_index scs (floor_times (r_scenario d) (length scs)) = Some sc ->
  at_index (energySource sc)
    (floor_times (r_source d) (length (energySource sc))) = Some src ->
  generateTelemetry now scs d = Some (mkTelemetry now sc src d).
Proof.
  intros H1 H2. unfold generateTelemetry. rewrite H1.
  cbn [mbind option_bind]. rewrite H2. reflexivity.
Qed.

(** The source of a record, from the two indices the draws select. *)
Lemma generateTelemetry_source (now : Z) (rc rp : Q) (d : Draws) :
  is_random (r_scenario d) -> is_random (r_source d) ->
  exists t,
    generateTelemetry now (scenarios rc rp) d = Some t
    /\ (let i := floor_times (r_scenario d) 3 in
        (i = 0%Z /\ status t = charging
         /\ let j := floor_times (r_source d) 3 in
            (j = 0%Z /\ energy_source t = solar)
            \/ (j = 1%Z /\ energy_source t = grid)
            \/ (j = 2%Z /\ energy_source t = solar))
        \/ (i = 1%Z /\ status t = available /\ energy_source t = none)
        \/ (i = 2%Z /\ status t = preparing /\ energy_source t = solar)).
Proof.
  intros Hsc Hsrc. cbv zeta.
  pose proof (floor_times_range _ 3 Hsc ltac:(lia)) as Hi.
  assert (Hcase : floor_times (r_scenario d) 3 = 0%Z
                  \/ floor_times (r_scenario d) 3 = 1%Z
                  \/ floor_times (r_scenario d) 3 = 2%Z) by lia.
  destruct Hcase as [Ei | [Ei | Ei]].
  - pose proof (floor_times_range _ 3 Hsrc ltac:(lia)) as Hj.
    assert (Hcase : floor_times (r_source d) 3 = 0%Z
                    \/ floor_times (r_source d) 3 = 1%Z
                    \/ floor_times (r_source d) 3 = 2%Z) by lia.
    destruct Hcase as [Ej | [Ej | Ej]];
      (eexists; split;
       [ eapply generateTelemetry_at;
         [ change (length (scenarios rc rp)) with 3%nat; rewrite Ei;
           reflexivity
         | cbn [energySource length]; rewrite Ej; reflexivity ]
       | rewrite mkTelemetry_status, mkTelemetry_energy_source;
         left; cbn [sc_status]; auto 10 ]).
  - pose proof (floor_times_range _ 1 Hsrc ltac:(lia)) as Hj.
    assert (Ej : floor_times (r_source d) 1 = 0%Z) by lia.
    eexists; split;
      [ eapply generateTelemetry_at;
        [ change (length (scenarios rc rp)) with 3%nat; rewrite Ei;
          reflexivity
        | cbn [energySource length]; rewrite Ej; reflexivity ]
      | rewrite mkTelemetry_status, mkTelemetry_energy_source;
        cbn [sc_status]; auto 10 ].
  - pose proof (floor_times_range _ 1 Hsrc ltac:(lia)) as Hj.
    assert (Ej : floor_times (r_source d) 1 = 0%Z) by lia.
    eexists; split;
      [ eapply generateTelemetry_at;
        [ change (length (scenarios rc rp)) with 3%nat; rewrite Ei;
          reflexivity
        | cbn [energySource length]; rewrite Ej; reflexivity ]
      | rewrite mkTelemetry_status, mkTelemetry_energy_source;
        cbn [sc_status]; auto 10 ].
Qed.

(** C8, as amended.  The source of a record is a function of two draws:
    runs whose scenario draw and source draw agree select the same status
    and the same source, whatever the clock, the session ids and the other
    draws; the source is [none] exactly for an available unit. *)
Theorem source_selection_depends_on_draws
    (now now' : Z) (rc rp rc' rp' : Q) (d d' : Draws) :
  Draws_random d -> Draws_random d' ->
  r_scenario d == r_scenario d' ->
  r_source d == r_source d' ->
  exists t t',
    generateTelemetry now (scenarios rc rp) d = Some t
    /\ generateTelemetry now' (scenarios rc' rp') d' = Some t'
    /\ status t = status t'
    /\ energy_source t = energy_source t'
    /\ (energy_source t = none <-> status t = available).
Proof.
  intros (A & _ & _ & B & _) (A' & _ & _ & B' & _) Hsc Hsrc.
  destruct (generateTelemetry_source now rc rp d A B) as (t & E & H).
  destruct (generateTelemetry_source now' rc' rp' d' A' B') as (t' & E' & H').
  exists t, t'. split; [exact E |]. split; [exact E' |].
  cbv zeta in H, H'.
  rewrite <- (floor_times_eq _ _ 3 Hsc), <- (floor_times_eq _ _ 3 Hsrc) in H'.
  destruct H as [(Hi & Hs & [[Hj Hx] | [[Hj Hx] | [Hj Hx]]])
                | [(Hi & Hs & Hx) | (Hi & Hs & Hx)]];
  destruct H' as [(Hi' & Hs' & [[Hj' Hx'] | [[Hj' Hx'] | [Hj' Hx']]])
                 | [(Hi' & Hs' & Hx') | (Hi' & Hs' & Hx')]];
    try lia;
    rewrite Hs, Hs', Hx, Hx'; repeat split; congruence.
Qed.

(** [source_selection_depends_on_draws] at the sample inputs. *)
Lemma source_selection_depends_on_draws_witness :
  Draws_random Examples.draws_solar
  /\ Draws_random Examples.draws_preparing
  /\ exists t t',
       generateTelemetry 0 (scenarios 0 0) Examples.draws_solar = Some t
       /\ generateTelemetry 7 (scenarios (1 # 2) (1 # 2)) Examples.draws_solar
          = Some t'
       /\ energy_source t = energy_source t'.
Proof.
  assert (H : Draws_random Examples.draws_solar).
  { unfold Draws_random, is_random, Qle, Qlt. simpl. lia. }
  assert (H' : Draws_random Examples.draws_preparing).
  { unfold Draws_random, is_random, Qle, Qlt. simpl. lia. }
  split; [exact H |]. split; [exact H' |].
  destruct (source_selection_depends_on_draws 0 7 0 0 (1 # 2) (1 # 2)
              Examples.draws_solar Examples.draws_solar H H
              ltac:(reflexivity) ltac:(reflexivity))
    as (t & t' & E & E' & _ & Hsrc & _).
  exists t, t'. auto.
Defined.

End MockStatements.


(** ** The live consumer's unit key *)

Section UnitKey.

Import WebSocketProvider.

(** C7, refuted as stated: a message without [unit_id] whose session id is
    [sess_abc123] is filed under a unit id derived from the clock:
    [evse_unit_01] at time 0 and [evse_unit_02] five seconds later. *)
Lemma unit_key_rotates :
  msg_unit_id Examples.legacy_message = None
  /\ unitIdOf 0 Examples.legacy_message = "evse_unit_01"
  /\ unitIdOf 5000 Examples.legacy_message = "evse_unit_02"
  /\ evseUnits (onmessage 5000 (Some Examples.legacy_message) Examples.st0)
       !! "evse_unit_02"
     = Some {| unit_id := "evse_unit_02";
               telemetry := Examples.legacy_message;
               last_updated := 5000 |}.
Proof.
  repeat split; vm_compute; reflexivity.
Qed.

Lemma unitIdOf_explicit (now : Z) (data : TelemetryData) (uid : string) :
  msg_unit_id data = Some uid -> uid <> "" -> unitIdOf now data = uid.
Proof.
  intros Hid Hne. unfold unitIdOf. rewrite Hid, (truthy_Some uid Hne).
  reflexivity.
Qed.

(** C7, as amended.  A message that carries a non-empty [unit_id] is filed
    under exactly that id and leaves every other entry alone.  A message
    without one is filed under a fallback: [evse_unit_01] when it has no
    session id, the prefix [evse_unit_<n>] of a session id of that shape,
    and for a session id [sess_...] the id [evse_unit_0<k>] with
    [k = (now / 5000) mod 3 + 1], which changes every five seconds. *)
Theorem unit_key_explicit_or_fallback
    (now : Z) (data : TelemetryData) (st : State) (uid rest : string) :
  (0 <= now)%Z ->
  uid <> "" ->
  (msg_unit_id data = Some uid ->
   unitIdOf now data = uid
   /\ evseUnits (onmessage now (Some data) st)
      = <[ uid := {| unit_id := uid; telemetry := data;
                     last_updated := now |} ]> (evseUnits st))
  /\ (JS.truthy (msg_unit_id data) = false ->
      (JS.truthy (session_id data) = false ->
       unitIdOf now data = "evse_unit_01")
      /\ (session_id data = Some ("evse_unit_" +:+ rest) ->
          unitIdOf now data
          = "evse_unit_" +:+ Str.part (Str.split "_" rest) 0)
      /\ (session_id data = Some ("sess_" +:+ rest) ->
          unitIdOf now data
          = "evse_unit_0" +:+ Str.toString ((now / 5000) mod 3 + 1))).
Proof.
  intros Hnow Hne. split.
  - intros Hid. pose proof (unitIdOf_explicit now data uid Hid Hne) as Hk.
    split; [exact Hk |]. cbn [onmessage evseUnits]. rewrite Hk. reflexivity.
  - intros Hno. unfold unitIdOf. rewrite Hno. cbn [negb andb].
    split; [| split].
    + intros Hsess. rewrite Hsess. reflexivity.
    + intros Hsess. rewrite Hsess.
      change (JS.truthy (Some ("evse_unit_" +:+ rest))) with true.
      cbn [default from_option id]. rewrite split_evse_unit.
      destruct (split_nonempty "_" rest) as (p & ps & Ep). rewrite Ep.
      reflexivity.
    + intros Hsess. rewrite Hsess.
      change (JS.truthy (Some ("sess_" +:+ rest))) with true.
      cbn [default from_option id]. rewrite split_sess.
      destruct (split_nonempty "_" rest) as (p & ps & Ep). rewrite Ep.
      destruct (unitNumber_range now Hnow) as [En Hr].
      cbn [length Nat.leb Str.part lookup list_lookup default from_option id].
      change (String.eqb "sess" "evse") with false.
      change (String.eqb "sess" "sess") with true.
      cbn [andb]. rewrite (padded_unit_number _ Hr), En. reflexivity.
Qed.

(** [unit_key_explicit_or_fallback] at the sample inputs. *)
Lemma unit_key_explicit_or_fallback_witness :
  (0 <= 5000)%Z
  /\ "evse_unit_07" <> ""
  /\ unitIdOf 5000 Examples.tagged_message = "evse_unit_07"
  /\ unitIdOf 5000 Examples.legacy_message = "evse_unit_02".
Proof.
  assert (H1 : (0 <= 5000)%Z) by lia.
  assert (H2 : "evse_unit_07" <> "") by discriminate.
  split; [exact H1 |]. split; [exact H2 |].
  split.
  - destruct (unit_key_explicit_or_fallback 5000 Examples.tagged_message
                Examples.st0 "evse_unit_07" "abc123" H1 H2) as [Ha _].
    apply Ha. reflexivity.
  - destruct (unit_key_explicit_or_fallback 5000 Examples.legacy_message
                Examples.st0 "evse_unit_07" "abc123" H1 H2) as [_ Hb].
    destruct (Hb ltac:(reflexivity)) as (_ & _ & Hs).
    rewrite Hs; reflexivity.
Defined.

End UnitKey.

(** * Further properties of the dashboard code *)

(** ** The chart buffer *)

Section ChartBuffer.

Import PowerChart.

Lemma slice_last_length {A} (n : nat) (arr : list A) :
  length (slice_last n arr) = Nat.min (length arr) n.
Proof. unfold slice_last. rewrite length_drop. lia. Qed.

Lemma slice_last_snoc {A} (n : nat) (arr : list A) (x : A) :
  (0 < n)%nat ->
  slice_last n (slice_last n arr ++ [x]) = slice_last n (arr ++ [x]).
Proof.
  intros Hn. unfold slice_last at 1 3.
  rewrite !length_app, slice_last_length. cbn [length].
  destruct (Nat.le_gt_cases (length arr) n) as [Hle | Hgt].
  - unfold slice_last. replace (length arr - n)%nat with 0%nat by lia.
    rewrite drop_0. f_equal. lia.
  - unfold slice_last.
    rewrite !drop_app_le by (rewrite ?length_drop; lia).
    rewrite drop_drop. do 2 f_equal. lia.
Qed.

Lemma chart_after_from (updates : list (option TelemetryData))
    (pts : list ChartDataPoint) :
  chart_after updates (slice_last 20 pts)
  = slice_last 20 (pts ++ (newDataPoint <$> omap id updates)).
Proof.
  revert pts. induction updates as [| u us IH]; intros pts.
  - cbn. rewrite app_nil_r. reflexivity.
  - destruct u as [t |]; cbn [chart_after fold_left onTelemetry omap].
    + fold (chart_after us (slice_last 20 (slice_last 20 pts ++ [newDataPoint t]))).
      rewrite slice_last_snoc by lia. rewrite IH.
      cbn [list_omap id]. rewrite fmap_cons, <- app_assoc. reflexivity.
    + fold (chart_after us (slice_last 20 pts)). rewrite IH. reflexivity.
Qed.

(** The chart shows exactly the points of the last 20 telemetry values
    received, in order of arrival; updates without telemetry leave it alone. *)
Theorem chart_keeps_last_20 (updates : list (option TelemetryData)) :
  let points := newDataPoint <$> omap id updates in
  chart_after updates [] = slice_last 20 points
  /\ length (chart_after updates []) = Nat.min (length points) 20
  /\ (forall i p,
        chart_after updates [] !! i = Some p ->
        points !! (length points - 20 + i)%nat = Some p).
Proof.
  intros points.
  assert (E : chart_after updates [] = slice_last 20 points).
  { change (@nil ChartDataPoint) with (slice_last 20 (@nil ChartDataPoint)) at 1.
    rewrite chart_after_from. reflexivity. }
  split; [exact E |]. split.
  - rewrite E. apply slice_last_length.
  - intros i p. rewrite E. unfold slice_last. rewrite lookup_drop.
    intros H. exact H.
Qed.

(** [chart_keeps_last_20] at the sample inputs. *)
Lemma chart_keeps_last_20_witness :
  chart_after [Some Examples.legacy_message; None] [] !! 0%nat
    = Some (newDataPoint Examples.legacy_message)
  /\ (newDataPoint <$> [Examples.legacy_message]) !! 0%nat
     = Some (newDataPoint Examples.legacy_message).
Proof.
  assert (H : chart_after [Some Examples.legacy_message; None] [] !! 0%nat
              = Some (newDataPoint Examples.legacy_message)) by reflexivity.
  split; [exact H |].
  destruct (chart_keeps_last_20 [Some Examples.legacy_message; None])
    as (_ & _ & Hl).
  exact (Hl 0%nat _ H).
Defined.

End ChartBuffer.

(** ** Counts against the fleet size *)

Section FleetCounts.

Import WebSocketProvider.

Lemma count_le_length {A} (p : A -> bool) (l : list A) :
  (count p l <= length l)%nat.
Proof.
  induction l as [| x l IH]; [unfold count; simpl; lia |].
  rewrite count_cons. cbn [length]. destruct (p x); lia.
Qed.

Lemma status_counts_le_length (ts : list TelemetryData) :
  (count (fun t => Status_eqb (status t) available) ts
   + count (fun t => Status_eqb (status t) charging) ts
   + count (fun t => Status_eqb (status t) faulted) ts <= length ts)%nat.
Proof.
  induction ts as [| t ts IH]; [unfold count; simpl; lia |].
  rewrite !count_cons. cbn [length]. destruct (status t); cbn; lia.
Qed.

Lemma length_telemetries (units : gmap string EVSEUnit) :
  length (telemetries units) = size units.
Proof.
  unfold telemetries, Array_from_values.
  rewrite !length_fmap. apply length_map_to_list.
Qed.

(** The reported counts never exceed the number of units: the available,
    charging and faulted units together, and the active sessions, are each at
    most the size of the fleet map. *)
Theorem counts_bounded_by_fleet_size (now : Z) (units : gmap string EVSEUnit) :
  exists st,
    calculateSystemStats now units = Some st
    /\ (available_units st + charging_units st + faulted_units st
        <= size units)%nat
    /\ (active_sessions st <= size units)%nat.
Proof.
  destruct (statsOfArray_sums now (Array_from_values units))
    as (st & E & _ & _ & _ & _ & _ & A & B & C & D & _).
  fold (telemetries units) in A, B, C, D.
  exists st. split; [exact E |]. rewrite A, B, C, D.
  rewrite <- length_telemetries. split.
  - apply status_counts_le_length.
  - apply count_le_length.
Qed.

End FleetCounts.

(** ** The live consumer as a store *)

Section LiveStore.

Import WebSocketProvider.

Lemma counts_bounded_helper (now : Z) (units : gmap string EVSEUnit) :
  exists st,
    calculateSystemStats now units = Some st
    /\ ((available_units st + charging_units st + faulted_units st
         <= size units)%nat
        /\ (active_sessions st <= size units)%nat).
Proof.
  destruct (statsOfArray_sums now (Array_from_values units))
    as (st & E & _ & _ & _ & _ & _ & A & B & C & D & _).
  fold (telemetries units) in A, B, C, D.
  exists st. split; [exact E |]. rewrite A, B, C, D.
  rewrite <- length_telemetries. split.
  - apply status_counts_le_length.
  - apply count_le_length.
Qed.

(** Handling the same message twice at the same clock reading leaves the
    state it left the first time. *)
Theorem onmessage_idempotent (now : Z) (msg : option TelemetryData) (st : State) :
  onmessage now msg (onmessage now msg st) = onmessage now msg st.
Proof.
  destruct msg as [data |]; [| reflexivity].
  cbn [onmessage evseUnits]. rewrite insert_insert_eq. reflexivity.
Qed.

Lemma process_snoc (msgs : list (Z * option TelemetryData))
    (m : Z * option TelemetryData) (st : State) :
  process (msgs ++ [m]) st = onmessage (fst m) (snd m) (process msgs st).
Proof. unfold process. rewrite fold_left_app. reflexivity. Qed.

(** Over a run of messages, a key that no message is filed under keeps the
    entry it had, and the unit filed by the last message is the one read
    back under that message's key. *)
Theorem process_touches_only_message_keys
    (msgs : list (Z * option TelemetryData)) (st : State)
    (k : string) (now : Z) (data : TelemetryData) :
  Forall (fun m => key_of m <> Some k) msgs ->
  evseUnits (process msgs st) !! k = evseUnits st !! k
  /\ evseUnits (process (msgs ++ [(now, Some data)]) st) !! unitIdOf now data
     = Some {| unit_id := unitIdOf now data; telemetry := data;
               last_updated := now |}.
Proof.
  intros Hk. split.
  - revert st. induction Hk as [| m msgs Hm _ IH]; intros st; [reflexivity |].
    cbn [process fold_left]. fold (process msgs (onmessage (fst m) (snd m) st)).
    rewrite IH. destruct m as [t [d |]]; cbn [fst snd]; [| reflexivity].
    cbn [onmessage evseUnits]. apply lookup_insert_ne.
    intros E. apply Hm. unfold key_of. cbn. congruence.
  - rewrite process_snoc. cbn [fst snd onmessage evseUnits].
    apply lookup_insert_eq.
Qed.

(** [process_touches_only_message_keys] at the sample inputs. *)
Lemma process_touches_only_message_keys_witness :
  Forall (fun m => key_of m <> Some "evse_unit_03")
         [(5000%Z, Some Examples.tagged_message); (6000%Z, None)]
  /\ evseUnits (process [(5000%Z, Some Examples.tagged_message); (6000%Z, None)]
                        Examples.st0) !! "evse_unit_03" = None.
Proof.
  assert (H : Forall (fun m => key_of m <> Some "evse_unit_03")
                [(5000%Z, Some Examples.tagged_message); (6000%Z, None)]).
  { repeat constructor; vm_compute; discriminate. }
  split; [exact H |].
  destruct (process_touches_only_message_keys _ Examples.st0 "evse_unit_03"
              0 Examples.legacy_message H) as [Hsame _].
  rewrite Hsame. reflexivity.
Defined.

(** If every unit of the fleet map sits under its own [unit_id], it still
    does after any run of messages. *)
Theorem process_keeps_units_keyed
    (msgs : list (Z * option TelemetryData)) (st : State) :
  keyed_by_unit_id (evseUnits st) ->
  keyed_by_unit_id (evseUnits (process msgs st)).
Proof.
  revert st. induction msgs as [| m msgs IH]; intros st Hst; [exact Hst |].
  cbn [process fold_left]. apply IH.
  destruct m as [t [d |]]; cbn [fst snd onmessage evseUnits]; [| exact Hst].
  intros k u Hku. destruct (decide (unitIdOf t d = k)) as [<- | Hne].
  - rewrite lookup_insert_eq in Hku. injection Hku as <-. reflexivity.
  - rewrite lookup_insert_ne in Hku by assumption. apply Hst. exact Hku.
Qed.

(** [process_keeps_units_keyed] at the sample inputs. *)
Lemma process_keeps_units_keyed_witness :
  keyed_by_unit_id (evseUnits Examples.st0)
  /\ keyed_by_unit_id
       (evseUnits (process [(5000%Z, Some Examples.tagged_message)]
                           Examples.st0)).
Proof.
  assert (H : keyed_by_unit_id (evseUnits Examples.st0)).
  { intros k u Hku. cbn in Hku. rewrite lookup_empty in Hku. discriminate. }
  split; [exact H |].
  exact (process_keeps_units_keyed _ Examples.st0 H).
Defined.

(** After any run of messages that started without statistics, the
    statistics on display, when present, count no more units than the fleet
    map holds. *)
Theorem process_stats_within_fleet
    (msgs : list (Z * option TelemetryData)) (st : State) (s : SystemStats) :
  systemStats st = None ->
  systemStats (process msgs st) = Some s ->
  (available_units s + charging_units s + faulted_units s
   <= size (evseUnits (process msgs st)))%nat
  /\ (active_sessions s <= size (evseUnits (process msgs st)))%nat.
Proof.
  revert st s. induction msgs as [| m msgs IH] using rev_ind; intros st s H0 Hs.
  - cbn in Hs. congruence.
  - rewrite process_snoc in *. destruct m as [t [d |]]; cbn [fst snd] in *.
    + cbn [onmessage systemStats evseUnits] in *.
      destruct (counts_bounded_helper t
                  (<[unitIdOf t d := {| unit_id := unitIdOf t d; telemetry := d;
                                        last_updated := t |}]>
                     (evseUnits (process msgs st)))) as (s' & E & B).
      rewrite E in Hs. injection Hs as <-. exact B.
    + cbn [onmessage] in *. eapply IH; eassumption.
Qed.

(** [process_stats_within_fleet] at the sample inputs. *)
Lemma process_stats_within_fleet_witness :
  systemStats Examples.st0 = None
  /\ exists s,
       systemStats (process [(5000%Z, Some Examples.tagged_message)]
                            Examples.st0) = Some s
       /\ (active_sessions s
           <= size (evseUnits (process [(5000%Z, Some Examples.tagged_message)]
                                       Examples.st0)))%nat.
Proof.
  assert (H : systemStats Examples.st0 = None) by reflexivity.
  split; [exact H |].
  destruct (systemStats (process [(5000%Z, Some Examples.tagged_message)]
                                 Examples.st0)) as [s |] eqn:E.
  - exists s. split; [reflexivity |].
    exact (proj2 (process_stats_within_fleet _ _ s H E)).
  - exfalso. vm_compute in E. discriminate.
Defined.

End LiveStore.

(** ** The rotating fallback key *)

Section RotatingKey.

Import WebSocketProvider.

Lemma unit_key_formula (now : Z) (data : TelemetryData) (rest : string) :
  (0 <= now)%Z ->
  JS.truthy (msg_unit_id data) = false ->
  session_id data = Some ("sess_" +:+ rest) ->
  unitIdOf now data = "evse_unit_0" +:+ Str.toString ((now / 5000) mod 3 + 1).
Proof.
  intros Hnow Hno Hsess. unfold unitIdOf. rewrite Hno, Hsess.
  cbn [negb andb].
  change (JS.truthy (Some ("sess_" +:+ rest))) with true.
  cbn [default from_option id]. rewrite split_sess.
  destruct (split_nonempty "_" rest) as (p & ps & Ep). rewrite Ep.
  destruct (unitNumber_range now Hnow) as [En Hr].
  cbn [length Nat.leb Str.part lookup list_lookup default from_option id].
  change (String.eqb "sess" "evse") with false.
  change (String.eqb "sess" "sess") with true.
  cbn [andb]. rewrite (padded_unit_number _ Hr), En. reflexivity.
Qed.

(** For a message without [unit_id] whose session id starts with [sess_],
    the key is one of three unit ids, stays the same within a five-second
    window and repeats every fifteen seconds. *)
Theorem rotating_key_cycle
    (now now' : Z) (data : TelemetryData) (rest : string) :
  (0 <= now)%Z -> (0 <= now')%Z ->
  JS.truthy (msg_unit_id data) = false ->
  session_id data = Some ("sess_" +:+ rest) ->
  (unitIdOf now data = "evse_unit_01" \/ unitIdOf now data = "evse_unit_02"
   \/ unitIdOf now data = "evse_unit_03")
  /\ ((now / 5000 = now' / 5000)%Z -> unitIdOf now data = unitIdOf now' data)
  /\ unitIdOf (now + 15000) data = unitIdOf now data
  /\ unitIdOf (now + 5000) data <> unitIdOf now data.
Proof.
  intros Hnow Hnow' Hno Hsess.
  assert (Hkey : forall t, (0 <= t)%Z ->
            unitIdOf t data
            = "evse_unit_0" +:+ Str.toString ((t / 5000) mod 3 + 1)).
  { intros t Ht. exact (unit_key_formula t data rest Ht Hno Hsess). }
  rewrite !Hkey by lia.
  pose proof (Z.mod_pos_bound (now / 5000) 3 ltac:(lia)) as Hb.
  assert (E15 : (((now + 15000) / 5000) mod 3 = (now / 5000) mod 3)%Z).
  { replace (now + 15000)%Z with (now + 3 * 5000)%Z by lia.
    rewrite Z.div_add by lia. rewrite Z.add_mod by lia.
    change (3 mod 3)%Z with 0%Z. rewrite Z.add_0_r. rewrite Z.mod_mod by lia.
    reflexivity. }
  assert (E5 : (((now + 5000) / 5000) mod 3 = ((now / 5000) mod 3 + 1) mod 3)%Z).
  { replace (now + 5000)%Z with (now + 1 * 5000)%Z by lia.
    rewrite Z.div_add by lia. rewrite Z.add_mod by lia. reflexivity. }
  split; [| split; [| split]].
  - assert (H : ((now / 5000) mod 3 = 0 \/ (now / 5000) mod 3 = 1
                 \/ (now / 5000) mod 3 = 2)%Z) by lia.
    destruct H as [-> | [-> | ->]]; auto.
  - intros ->. reflexivity.
  - rewrite E15. reflexivity.
  - rewrite E5.
    assert (H : ((now / 5000) mod 3 = 0 \/ (now / 5000) mod 3 = 1
                 \/ (now / 5000) mod 3 = 2)%Z) by lia.
    destruct H as [-> | [-> | ->]]; vm_compute; discriminate.
Qed.

(** [rotating_key_cycle] at the sample inputs. *)
Lemma rotating_key_cycle_witness :
  (0 <= 7000)%Z
  /\ JS.truthy (msg_unit_id Examples.legacy_message) = false
  /\ session_id Examples.legacy_message = Some ("sess_" +:+ "abc123")
  /\ unitIdOf (7000 + 15000) Examples.legacy_message
     = unitIdOf 7000 Examples.legacy_message.
Proof.
  assert (H1 : (0 <= 7000)%Z) by lia.
  assert (H2 : JS.truthy (msg_unit_id Examples.legacy_message) = false)
    by reflexivity.
  assert (H3 : session_id Examples.legacy_message = Some ("sess_" +:+ "abc123"))
    by reflexivity.
  split; [exact H1 |]. split; [exact H2 |]. split; [exact H3 |].
  destruct (rotating_key_cycle 7000 7000 Examples.legacy_message "abc123"
              H1 H1 H2 H3) as (_ & _ & Hper & _).
  exact Hper.
Defined.

End RotatingKey.

(** ** The connection state *)

Section ConnectionState.

Import Connection.

Lemma step_keeps_no_error_while_connected (c : Conn) (e : Event) :
  (isConnected c = true -> connectionError c = None) ->
  isConnected (step c e) = true -> connectionError (step c e) = None.
Proof.
  intros Hinv. destruct e as [[|] | | | |]; cbn [step isConnected connectionError];
    try discriminate; try reflexivity; try exact Hinv.
  destruct (ws c); exact Hinv.
Qed.

(** Whatever happens to the socket, the provider never reports a
    connection together with a connection error; the header then reads
    [Live Data Connected], and otherwise shows the error or
    [Disconnected]. *)
Theorem never_connected_with_error (events : list Event) :
  let c := conn_after events initial in
  (isConnected c = true ->
   connectionError c = None /\ banner c = "Live Data Connected")
  /\ (isConnected c = false ->
      banner c = "Disconnected" \/ Some (banner c) = connectionError c).
Proof.
  intros c.
  assert (Hinv : isConnected c = true -> connectionError c = None).
  { subst c. induction events as [| e events IH] using rev_ind.
    - cbn. discriminate.
    - unfold conn_after. rewrite fold_left_app. cbn [fold_left].
      apply step_keeps_no_error_while_connected. exact IH. }
  split.
  - intros Hc. split; [auto |]. unfold banner. rewrite Hc. reflexivity.
  - intros Hc. unfold banner. rewrite Hc.
    destruct (connectionError c) as [[| ch s] |]; cbn; auto.
Qed.

(** [never_connected_with_error] at the sample inputs. *)
Lemma never_connected_with_error_witness :
  isConnected (conn_after [Connect true; OnError; OnClose; Connect true; OnOpen]
                          initial) = true
  /\ connectionError
       (conn_after [Connect true; OnError; OnClose; Connect true; OnOpen]
                   initial) = None.
Proof.
  assert (H : isConnected
                (conn_after [Connect true; OnError; OnClose; Connect true; OnOpen]
                            initial) = true) by reflexivity.
  split; [exact H |].
  destruct (never_connected_with_error
              [Connect true; OnError; OnClose; Connect true; OnOpen]) as [Hc _].
  exact (proj1 (Hc H)).
Defined.

End ConnectionState.

(** ** The listener registry of the mock feed *)

Section Registry.

Import MockListeners.

Lemma payloadFor_known (path : string) (d : MockFirebaseDB.MockData) :
  is_Some (payloadFor path d)
  <-> path = "latest_telemetry" \/ path = "system_stats" \/ path = "evse_units".
Proof.
  unfold payloadFor.
  destruct (String.eqb_spec path "latest_telemetry") as [-> | H1];
    [split; [auto | eauto] |].
  destruct (String.eqb_spec path "system_stats") as [-> | H2];
    [split; [auto | eauto] |].
  destruct (String.eqb_spec path "evse_units") as [-> | H3];
    [split; [auto | eauto] |].
  split.
  - intros [x Hx]. discriminate.
  - intros [-> | [-> | ->]]; congruence.
Qed.

Lemma filter_other_paths (path : string) (rest : list (string * list nat)) :
  path ∉ (fst <$> rest) ->
  List.filter (fun entry => negb (String.eqb (fst entry) path)) rest = rest.
Proof.
  intros Hp. apply List.forallb_filter_id, List.forallb_forall.
  intros [q qs] Hin. cbn [fst].
  destruct (String.eqb_spec q path) as [-> | _]; [| reflexivity].
  exfalso. apply Hp. apply list_elem_of_fmap. exists (path, qs).
  split; [reflexivity |]. apply list_elem_of_In. exact Hin.
Qed.

(** After [off] on a path, a tick makes exactly the calls it would make if
    the path had never been subscribed to: every callback of that path is
    dropped, whoever registered it, and the others are called as before. *)
Theorem off_silences_path (path : string) (d : MockFirebaseDB.MockData)
    (listeners : list (string * list nat)) :
  NoDup (fst <$> listeners) ->
  notify d (off path listeners)
  = notify d (List.filter (fun entry => negb (String.eqb (fst entry) path))
                          listeners).
Proof.
  intros Hnd. induction listeners as [| [p cbs] rest IH]; [reflexivity |].
  rewrite fmap_cons in Hnd. apply NoDup_cons in Hnd as [Hp Hrest].
  cbn [off List.filter fst]. destruct (String.eqb_spec p path) as [-> | Hne].
  - cbn [negb]. rewrite (filter_other_paths path rest Hp).
    unfold notify. cbn [flat_map fst snd].
    destruct (payloadFor path d); reflexivity.
  - cbn [negb]. unfold notify. cbn [flat_map fst snd].
    f_equal. apply IH. exact Hrest.
Qed.

(** Registering keeps the paths of the registry distinct. *)
Lemma on_keeps_NoDup (path : string) (cb : nat)
    (listeners : list (string * list nat)) :
  NoDup (fst <$> listeners) -> NoDup (fst <$> on path cb listeners).
Proof.
  induction listeners as [| [p cbs] rest IH]; intros Hnd.
  - cbn. apply NoDup_singleton.
  - cbn [on]. destruct (String.eqb_spec p path) as [-> | Hne];
      [exact Hnd |].
    rewrite fmap_cons in *. apply NoDup_cons in Hnd as [Hp Hrest].
    apply NoDup_cons. split; [| apply IH; exact Hrest].
    cbn [fst] in *. intros Hin. apply list_elem_of_fmap in Hin as ([q qs] & Eq & Hin).
    cbn [fst] in Eq. subst q. clear IH Hrest.
    induction rest as [| [r rs] rest IH]; cbn [on] in Hin.
    + apply list_elem_of_singleton in Hin. congruence.
    + destruct (String.eqb_spec r path) as [-> | Hr].
      * apply elem_of_cons in Hin as [Hin | Hin].
        -- injection Hin as -> _. apply Hp. rewrite fmap_cons. left.
        -- apply Hp. rewrite fmap_cons. right.
           apply list_elem_of_fmap. exists (p, qs). auto.
      * apply elem_of_cons in Hin as [Hin | Hin].
        -- injection Hin as -> _. apply Hp. rewrite fmap_cons. left.
        -- apply IH; [| exact Hin]. intros H. apply Hp.
           rewrite fmap_cons. right. exact H.
Qed.

(** A callback registered on one of the three published paths is called
    on the next tick with that path's part of the mock data; one registered
    on any other path changes nothing about the calls made. *)
Theorem on_subscribes_known_paths (path : string) (cb : nat)
    (d : MockFirebaseDB.MockData) (listeners : list (string * list nat)) :
  (forall payload,
      payloadFor path d = Some payload ->
      In (cb, payload) (notify d (on path cb listeners)))
  /\ (payloadFor path d = None ->
      notify d (on path cb listeners) = notify d listeners).
Proof.
  split.
  - intros payload Hp. induction listeners as [| [p cbs] rest IH].
    + cbn [on]. unfold notify. cbn [flat_map fst snd]. rewrite Hp.
      cbn. auto.
    + cbn [on]. destruct (String.eqb_spec p path) as [-> | Hne].
      * unfold notify. cbn [flat_map fst snd]. rewrite Hp.
        apply in_or_app. left. rewrite List.map_app. apply in_or_app. right.
        cbn. auto.
      * unfold notify. cbn [flat_map]. apply in_or_app. right. exact IH.
  - intros Hnone. induction listeners as [| [p cbs] rest IH].
    + cbn [on]. unfold notify. cbn [flat_map fst snd]. rewrite Hnone.
      reflexivity.
    + cbn [on]. destruct (String.eqb_spec p path) as [-> | Hne].
      * unfold notify. cbn [flat_map fst snd]. rewrite Hnone. reflexivity.
      * unfold notify. cbn [flat_map]. f_equal. exact IH.
Qed.

End Registry.

(** ** Readings of the mock feed *)

Section MockReadings.

Import MockFirebaseDB.

Lemma round_to_range (kz lo hi : Z) (x : Q) :
  (0 < kz)%Z ->
  inject_Z lo <= x -> x <= inject_Z hi ->
  inject_Z lo <= round_to (inject_Z kz) x
  /\ round_to (inject_Z kz) x <= inject_Z hi.
Proof.
  intros Hk Hlo Hhi. unfold round_to, JS.Math_round.
  assert (HK : 0 < inject_Z kz).
  { change 0 with (inject_Z 0). rewrite <- Zlt_Qlt. exact Hk. }
  assert (Hxlo : inject_Z (lo * kz) <= x * inject_Z kz).
  { rewrite inject_Z_mult. apply Qmult_le_compat_r; lra. }
  assert (Hxhi : x * inject_Z kz <= inject_Z (hi * kz)).
  { rewrite inject_Z_mult. apply Qmult_le_compat_r; lra. }
  assert (H1 : (lo * kz <= Qfloor (x * inject_Z kz + JS.half))%Z).
  { rewrite <- (Qfloor_Z (lo * kz)). apply Qfloor_resp_le.
    unfold JS.half. lra. }
  assert (H2 : (Qfloor (x * inject_Z kz + JS.half) <= hi * kz)%Z).
  { assert (Hlt : inject_Z (Qfloor (x * inject_Z kz + JS.half))
                  < inject_Z (hi * kz + 1)).
    { eapply Qle_lt_trans; [apply Qfloor_le |].
      rewrite inject_Z_plus. change (inject_Z 1) with 1. unfold JS.half. lra. }
    rewrite <- Zlt_Qlt in Hlt. lia. }
  rewrite Zle_Qle in H1, H2. rewrite inject_Z_mult in H1, H2.
  split.
  - apply Qle_shift_div_l; lra.
  - apply Qle_shift_div_r; lra.
Qed.

Lemma mkTelemetry_readings now sc src d :
  voltage_v (mkTelemetry now sc src d) = round_to 100 (voltage sc d)
  /\ current_a (mkTelemetry now sc src d) = round_to 100 (current sc d)
  /\ power_w (mkTelemetry now sc src d) = round_to 100 (power sc d)
  /\ temperature_c (mkTelemetry now sc src d)
     = round_to 10 (r_temperature d * 25 + 20)
  /\ msg_unit_id (mkTelemetry now sc src d)
     = Some ("evse_unit_" +:+ Str.toString (JS.Math_floor (r_unit d * 3) + 1)).
Proof. unfold mkTelemetry. destruct (energies src sc d). auto 6. Qed.

Lemma scenario_ranges (rc rp : Q) (sc : Scenario) (d : Draws) :
  sc ∈ scenarios rc rp -> Draws_random d ->
  220 <= voltage sc d /\ voltage sc d <= 240
  /\ 0 <= current sc d /\ current sc d <= 32.
Proof.
  intros Hin (_ & [Hv0 Hv1] & [Hc0 Hc1] & _).
  unfold voltage, current.
  destruct (scenarios_inv _ _ _ Hin) as [-> | [-> | ->]];
    cbn [voltageRange currentRange fst snd]; repeat split; lra.
Qed.

(** Every record of the feed has plausible readings: 220 to 240 V, 0 to
    32 A, 0 to 7680 W, 20 to 45 degrees, and non-negative energy buckets. *)
Theorem mock_readings_in_range (now : Z) (rc rp : Q) (d : Draws) :
  Draws_random d ->
  exists t,
    generateTelemetry now (scenarios rc rp) d = Some t
    /\ (220 <= voltage_v t /\ voltage_v t <= 240)
    /\ (0 <= current_a t /\ current_a t <= 32)
    /\ (0 <= power_w t /\ power_w t <= 7680)
    /\ (20 <= temperature_c t /\ temperature_c t <= 45)
    /\ nonneg_energy t.
Proof.
  intros Hd. pose proof Hd as (A & _ & _ & B & _ & [Ht0 Ht1] & _).
  destruct (generateTelemetry_Some now rc rp d A B) as (t & E & G).
  exists t. split; [exact E |].
  pose proof (generated_nonneg_energy _ _ _ _ _ Hd G) as Hnn.
  destruct G as (sc & src & Hin & _ & ->).
  destruct (mkTelemetry_readings now sc src d) as (Ev & Ec & Ep & Et & _).
  destruct (scenario_ranges rc rp sc d Hin Hd) as (V0 & V1 & C0 & C1).
  rewrite Ev, Ec, Ep, Et.
  split; [apply (round_to_range 100 220 240); [lia | exact V0 | exact V1] |].
  split; [apply (round_to_range 100 0 32); [lia | exact C0 | exact C1] |].
  split.
  - apply (round_to_range 100 0 7680); [lia | |]; unfold power.
    + change (inject_Z 0) with 0. apply Qmult_le_0_compat; lra.
    + change (inject_Z 7680) with (240 * 32).
      apply Qle_trans with (240 * current sc d).
      * apply Qmult_le_compat_r; lra.
      * apply Qmult_le_l; lra.
  - split; [| exact Hnn].
    apply (round_to_range 10 20 45); [lia | |];
      [change (inject_Z 20) with 20 | change (inject_Z 45) with 45]; lra.
Qed.

(** [mock_readings_in_range] at the sample inputs. *)
Lemma mock_readings_in_range_witness :
  Draws_random Examples.draws_grid
  /\ exists t,
       generateTelemetry 0 (scenarios 0 0) Examples.draws_grid = Some t
       /\ (220 <= voltage_v t /\ voltage_v t <= 240).
Proof.
  assert (H : Draws_random Examples.draws_grid).
  { unfold Draws_random, is_random, Qle, Qlt. simpl. lia. }
  split; [exact H |].
  destruct (mock_readings_in_range 0 0 0 Examples.draws_grid H)
    as (t & E & V & _).
  exists t. auto.
Defined.

(** An available unit of the feed is idle: no source, no current, no power
    and no session energy; and only an available unit has the source
    [none]. *)
Theorem mock_available_unit_is_idle (now : Z) (rc rp : Q) (d : Draws) :
  Draws_random d ->
  exists t,
    generateTelemetry now (scenarios rc rp) d = Some t
    /\ (status t = available <-> energy_source t = none)
    /\ (status t = available ->
        current_a t == 0 /\ power_w t == 0
        /\ session_energy_kwh_solar t == 0
        /\ session_energy_kwh_grid t == 0
        /\ session_total_energy_kwh t == 0).
Proof.
  intros (A & _ & _ & B & _).
  destruct (generateTelemetry_Some now rc rp d A B)
    as (t & E & sc & src & Hin & Hsrc & ->).
  eexists. split; [exact E |].
  destruct (mkTelemetry_readings now sc src d) as (_ & Ec & Ep & _).
  destruct (mkTelemetry_energy now sc src d) as (Es & Eg & Et).
  rewrite mkTelemetry_status, mkTelemetry_energy_source, Ec, Ep, Es, Eg, Et.
  destruct (scenarios_inv _ _ _ Hin) as [-> | [-> | ->]];
    cbn [sc_status energySource] in *.
  - split.
    + split; [discriminate |]. intros ->.
      rewrite !elem_of_cons, elem_of_nil in Hsrc.
      destruct Hsrc as [H | [H | [H | []]]]; discriminate.
    + discriminate.
  - apply list_elem_of_singleton in Hsrc. subst src. split; [tauto |].
    intros _. unfold power, current. cbn [currentRange fst snd energies].
    assert (E0 : r_current d * (0 - 0) + 0 == 0) by ring.
    assert (E1 : 0 + 0 == 0) by ring.
    rewrite E0, E1.
    assert (E2 : voltage {| sc_status := available; voltageRange := (220, 240);
                            currentRange := (0, 0); energySource := [none];
                            sessionId := None |} d * 0 == 0) by ring.
    rewrite E2. repeat split; apply round_to_0.
  - split.
    + split; [discriminate |]. intros ->.
      apply list_elem_of_singleton in Hsrc. discriminate.
    + discriminate.
Qed.

(** [mock_available_unit_is_idle] at the sample inputs. *)
Lemma mock_available_unit_is_idle_witness :
  Draws_random Examples.draws_grid
  /\ exists t,
       generateTelemetry 0 (scenarios 0 0) Examples.draws_grid = Some t
       /\ (status t = available <-> energy_source t = none).
Proof.
  assert (H : Draws_random Examples.draws_grid).
  { unfold Draws_random, is_random, Qle, Qlt. simpl. lia. }
  split; [exact H |].
  destruct (mock_available_unit_is_idle 0 0 0 Examples.draws_grid H)
    as (t & E & I & _).
  exists t. auto.
Defined.

End MockReadings.

(** ** The mock feed next to the live consumer *)

Section MockAndLive.

Import WebSocketProvider MockFirebaseDB.

Lemma generated_flags now rc rp d t :
  generated now rc rp d t ->
  JS.truthy (session_id t) = negb (Status_eqb (status t) available)
  /\ (Status_eqb (status t) charging = true -> JS.truthy (session_id t) = true).
Proof.
  intros (sc & src & Hin & _ & ->).
  rewrite mkTelemetry_status, mkTelemetry_session_id.
  destruct (scenarios_inv _ _ _ Hin) as [-> | [-> | ->]];
    cbn [sc_status sessionId Status_eqb negb]; split; auto; discriminate.
Qed.

(** In the statistics of the feed every one of the three units is either
    available or in a session, and a charging unit is in a session. *)
Theorem mock_sessions_and_available_units (now : Z) (d : MockDraws) :
  MockDraws_random d ->
  exists r,
    generateMockData now d = Some r
    /\ length (evse_units r) = 3%nat
    /\ (active_sessions (system_stats r) + available_units (system_stats r)
        = 3)%nat
    /\ (charging_units (system_stats r) <= active_sessions (system_stats r))%nat.
Proof.
  intros Hd.
  destruct (generateMockData_Some now d Hd)
    as (t1 & t2 & t3 & st & E & G1 & G2 & G3 & Est).
  eexists. split; [exact E |]. cbn [evse_units system_stats].
  split; [reflexivity |].
  destruct (systemStatsOf_sums now (r_avg_temperature d)
              [mkUnit now 1 t1; mkUnit now 2 t2; mkUnit now 3 t3])
    as (st' & Est' & _ & _ & _ & _ & _ & _ & A & B & C & _).
  rewrite Est in Est'. injection Est' as <-.
  rewrite A, B, C. cbn [fmap list_fmap telemetry mkUnit]. rewrite !count_cons.
  destruct (generated_flags _ _ _ _ _ G1) as [F1 K1].
  destruct (generated_flags _ _ _ _ _ G2) as [F2 K2].
  destruct (generated_flags _ _ _ _ _ G3) as [F3 K3].
  rewrite F1, F2, F3 in *. unfold count. cbn [List.filter length].
  destruct (Status_eqb (status t1) available),
    (Status_eqb (status t2) available), (Status_eqb (status t3) available),
    (Status_eqb (status t1) charging) eqn:X1,
    (Status_eqb (status t2) charging) eqn:X2,
    (Status_eqb (status t3) charging) eqn:X3;
    cbn [negb] in *;
    try (specialize (K1 eq_refl)); try (specialize (K2 eq_refl));
    try (specialize (K3 eq_refl)); try discriminate; split; lia.
Qed.

(** [mock_sessions_and_available_units] at the sample inputs. *)
Lemma mock_sessions_and_available_units_witness :
  MockDraws_random Examples.mock_draws
  /\ exists r,
       generateMockData 0 Examples.mock_draws = Some r
       /\ (active_sessions (system_stats r) + available_units (system_stats r)
           = 3)%nat.
Proof.
  assert (H : MockDraws_random Examples.mock_draws).
  { unfold MockDraws_random, Draws_random, is_random, Qle, Qlt.
    simpl. lia. }
  split; [exact H |].
  destruct (mock_sessions_and_available_units 0 Examples.mock_draws H)
    as (r & E & _ & S & _).
  exists r. auto.
Defined.

(** A record of the feed handed to the live handler is filed under the
    [unit_id] it carries, one of [evse_unit_1], [evse_unit_2] and
    [evse_unit_3]; the fallback keys are never used for it. *)
Theorem mock_record_keyed_by_own_unit_id
    (now now' : Z) (rc rp : Q) (d : Draws) :
  Draws_random d ->
  exists t,
    generateTelemetry now (scenarios rc rp) d = Some t
    /\ msg_unit_id t = Some (unitIdOf now' t)
    /\ (unitIdOf now' t = "evse_unit_1" \/ unitIdOf now' t = "evse_unit_2"
        \/ unitIdOf now' t = "evse_unit_3").
Proof.
  intros (A & _ & _ & B & _ & _ & U).
  destruct (generateTelemetry_Some now rc rp d A B)
    as (t & E & sc & src & _ & _ & ->).
  eexists. split; [exact E |].
  destruct (mkTelemetry_readings now sc src d) as (_ & _ & _ & _ & Eu).
  pose proof (floor_times_range _ 3 U ltac:(lia)) as Hr.
  change (floor_times (r_unit d) 3) with (JS.Math_floor (r_unit d * 3)) in Hr.
  assert (Hcase : JS.Math_floor (r_unit d * 3) = 0%Z
                  \/ JS.Math_floor (r_unit d * 3) = 1%Z
                  \/ JS.Math_floor (r_unit d * 3) = 2%Z) by lia.
  unfold unitIdOf. rewrite Eu.
  destruct Hcase as [-> | [-> | ->]]; cbn; auto.
Qed.

(** [mock_record_keyed_by_own_unit_id] at the sample inputs. *)
Lemma mock_record_keyed_by_own_unit_id_witness :
  Draws_random Examples.draws_grid
  /\ exists t,
       generateTelemetry 0 (scenarios 0 0) Examples.draws_grid = Some t
       /\ msg_unit_id t = Some (unitIdOf 5000 t).
Proof.
  assert (H : Draws_random Examples.draws_grid).
  { unfold Draws_random, is_random, Qle, Qlt. simpl. lia. }
  split; [exact H |].
  destruct (mock_record_keyed_by_own_unit_id 0 5000 0 0 Examples.draws_grid H)
    as (t & E & K & _).
  exists t. auto.
Defined.

End MockAndLive.

(** ** The registry at sample inputs *)

Section RegistrySamples.

Import MockListeners.

(** [off_silences_path] at the sample inputs. *)
Lemma off_silences_path_witness :
  NoDup (fst <$> RegistryExamples.registry)
  /\ notify RegistryExamples.tick (off "system_stats" RegistryExamples.registry)
     = [].
Proof.
  assert (H : NoDup (fst <$> RegistryExamples.registry)).
  { cbn. repeat constructor; rewrite ?elem_of_cons, ?elem_of_nil;
      intros Hin; repeat destruct Hin as [Hin | Hin]; try discriminate; tauto. }
  split; [exact H |].
  rewrite (off_silences_path "system_stats" RegistryExamples.tick
             RegistryExamples.registry H).
  reflexivity.
Defined.

(** [on_subscribes_known_paths] at the sample inputs. *)
Lemma on_subscribes_known_paths_witness :
  payloadFor "evse_units" RegistryExamples.tick
    = Some (Units [Examples.unit_of "evse_unit_1" Examples.legacy_message])
  /\ payloadFor "debug" RegistryExamples.tick = None
  /\ In (7%nat, Units [Examples.unit_of "evse_unit_1" Examples.legacy_message])
        (notify RegistryExamples.tick
                (on "evse_units" 7 RegistryExamples.registry))
  /\ notify RegistryExamples.tick (on "debug" 8 RegistryExamples.registry)
     = notify RegistryExamples.tick RegistryExamples.registry.
Proof.
  assert (H1 : payloadFor "evse_units" RegistryExamples.tick
               = Some (Units [Examples.unit_of "evse_unit_1"
                                Examples.legacy_message])) by reflexivity.
  assert (H2 : payloadFor "debug" RegistryExamples.tick = None) by reflexivity.
  split; [exact H1 |]. split; [exact H2 |]. split.
  - exact (proj1 (on_subscribes_known_paths "evse_units" 7 RegistryExamples.tick
                    RegistryExamples.registry) _ H1).
  - exact (proj2 (on_subscribes_known_paths "debug" 8 RegistryExamples.tick
                    RegistryExamples.registry) H2).
Defined.

End RegistrySamples.

(** * Numbers of the running program *)

(** ** Rounding to binary64 *)

Section Binary64Rounding.

Import Binary64.

Lemma p2_pos (e : Z) : 0 < 2 ^ e.
Proof. apply Qpower_0_lt. reflexivity. Qed.

Lemma p2_plus (a b : Z) : 2 ^ (a + b) == 2 ^ a * 2 ^ b.
Proof. apply Qpower_plus. discriminate. Qed.

Lemma p2_le (a b : Z) : (a <= b)%Z -> 2 ^ a <= 2 ^ b.
Proof. intros H. apply Qpower_le_compat_l; [exact H | discriminate]. Qed.

Lemma p2_lt (a b : Z) : (a < b)%Z -> 2 ^ a < 2 ^ b.
Proof. intros H. apply Qpower_lt_compat_l; [exact H | reflexivity]. Qed.

Lemma p2_lt_inv (a b : Z) : 2 ^ a < 2 ^ b -> (a < b)%Z.
Proof. intros H. apply (Qpower_lt_compat_l_inv 2); [exact H | reflexivity]. Qed.

Lemma p2_int (a : Z) : (0 <= a)%Z -> 2 ^ a == inject_Z (2 ^ a).
Proof. intros H. rewrite Zpower_Qpower by exact H. reflexivity. Qed.

Lemma exponent_spec (x : Q) :
  0 < x -> 2 ^ exponent x <= x /\ x < 2 ^ (exponent x + 1).
Proof.
  intros Hx. destruct x as [n d]. unfold exponent. cbn [Qnum Qden].
  assert (Hn : (0 < n)%Z) by (unfold Qlt in Hx; cbn in Hx; lia).
  set (a := Z.log2 n). set (b := Z.log2 (Z.pos d)).
  destruct (Z.log2_spec n Hn) as [Ha1 Ha2]. fold a in Ha1, Ha2.
  destruct (Z.log2_spec (Z.pos d) eq_refl) as [Hb1 Hb2]. fold b in Hb1, Hb2.
  assert (Ha0 : (0 <= a)%Z) by apply Z.log2_nonneg.
  assert (Hb0 : (0 <= b)%Z) by apply Z.log2_nonneg.
  assert (Ex : n # d == inject_Z n / inject_Z (Z.pos d)) by apply Qmake_Qdiv.
  assert (Hd : 0 < inject_Z (Z.pos d)) by reflexivity.
  assert (Hup : n # d < 2 ^ (a - b + 1)).
  { replace (a - b + 1)%Z with ((a + 1) + - b)%Z by lia.
    rewrite p2_plus, Qpower_opp, Ex.
    rewrite (p2_int (a + 1)) by lia. rewrite (p2_int b) by lia.
    apply Qlt_shift_div_r; [exact Hd |].
    assert (H1 : inject_Z n < inject_Z (2 ^ (a + 1))).
    { rewrite <- Zlt_Qlt. exact Ha2. }
    assert (H2 : inject_Z (2 ^ b) <= inject_Z (Z.pos d)).
    { rewrite <- Zle_Qle. exact Hb1. }
    assert (H3 : 0 < inject_Z (2 ^ b)).
    { rewrite <- (p2_int b) by lia. apply p2_pos. }
    assert (H4 : 0 < inject_Z (2 ^ (a + 1))).
    { rewrite <- (p2_int (a + 1)) by lia. apply p2_pos. }
    eapply Qlt_le_trans; [exact H1 |].
    setoid_replace (inject_Z (2 ^ (a + 1)))
      with (inject_Z (2 ^ (a + 1)) * / inject_Z (2 ^ b) * inject_Z (2 ^ b))
      using relation Qeq at 1 by (field; lra).
    apply Qmult_le_l; [| exact H2].
    apply Qmult_lt_0_compat; [exact H4 |]. apply Qinv_lt_0_compat. exact H3. }
  assert (Hlow : 2 ^ (a - b - 1) < n # d).
  { replace (a - b - 1)%Z with (a + - (b + 1))%Z by lia.
    rewrite p2_plus, Qpower_opp, Ex.
    rewrite (p2_int a) by lia. rewrite (p2_int (b + 1)) by lia.
    assert (H1 : inject_Z (2 ^ a) <= inject_Z n).
    { rewrite <- Zle_Qle. exact Ha1. }
    assert (H2 : inject_Z (Z.pos d) < inject_Z (2 ^ (b + 1))).
    { rewrite <- Zlt_Qlt. exact Hb2. }
    assert (H3 : 0 < inject_Z (2 ^ (b + 1))).
    { rewrite <- (p2_int (b + 1)) by lia. apply p2_pos. }
    assert (H4 : 0 < inject_Z (2 ^ a)).
    { rewrite <- (p2_int a) by lia. apply p2_pos. }
    apply Qlt_shift_div_l; [exact Hd |].
    eapply Qlt_le_trans; [| exact H1].
    setoid_replace (inject_Z (2 ^ a))
      with (inject_Z (2 ^ a) * / inject_Z (2 ^ (b + 1)) * inject_Z (2 ^ (b + 1)))
      using relation Qeq at 2 by (field; lra).
    apply Qmult_lt_l; [| exact H2].
    apply Qmult_lt_0_compat; [exact H4 |]. apply Qinv_lt_0_compat. exact H3. }
  destruct (Qle_bool (2 ^ (a - b)) (n # d)) eqn:E.
  - apply Qle_bool_iff in E. split; assumption.
  - split; [apply Qlt_le_weak; exact Hlow |].
    replace (a - b - 1 + 1)%Z with (a - b)%Z by lia.
    apply Qnot_le_lt. intros H. apply Qle_bool_iff in H. congruence.
Qed.

Lemma exponent_unique (x : Q) (e : Z) :
  2 ^ e <= x -> x < 2 ^ (e + 1) -> exponent x = e.
Proof.
  intros H1 H2.
  assert (Hx : 0 < x) by (eapply Qlt_le_trans; [apply (p2_pos e) | exact H1]).
  destruct (exponent_spec x Hx) as [S1 S2].
  assert (A : (e < exponent x + 1)%Z).
  { apply p2_lt_inv. eapply Qle_lt_trans; eassumption. }
  assert (B : (exponent x < e + 1)%Z).
  { apply p2_lt_inv. eapply Qle_lt_trans; eassumption. }
  lia.
Qed.

Lemma exponent_Proper (x y : Q) : 0 < x -> x == y -> exponent x = exponent y.
Proof.
  intros Hx E. assert (Hy : 0 < y) by (rewrite <- E; exact Hx).
  destruct (exponent_spec y Hy) as [S1 S2].
  apply exponent_unique; rewrite E; assumption.
Qed.

Lemma exponent_lt (x : Q) (m : Z) : 0 < x -> x < 2 ^ m -> (exponent x < m)%Z.
Proof.
  intros Hx H. destruct (exponent_spec x Hx) as [S1 _].
  apply p2_lt_inv. eapply Qle_lt_trans; eassumption.
Qed.

Lemma exponent_ge (x : Q) (m : Z) : 2 ^ m <= x -> (m <= exponent x)%Z.
Proof.
  intros H.
  assert (Hx : 0 < x) by (eapply Qlt_le_trans; [apply (p2_pos m) | exact H]).
  destruct (exponent_spec x Hx) as [_ S2].
  assert (A : (m < exponent x + 1)%Z).
  { apply p2_lt_inv. eapply Qle_lt_trans; eassumption. }
  lia.
Qed.

Lemma exponent_le (x y : Q) : 0 < x -> x <= y -> (exponent x <= exponent y)%Z.
Proof.
  intros Hx H. apply exponent_ge.
  destruct (exponent_spec x Hx) as [S1 _]. eapply Qle_trans; eassumption.
Qed.

Lemma nearest_even_Proper (q1 q2 : Q) :
  q1 == q2 -> nearest_even q1 = nearest_even q2.
Proof.
  intros E. unfold nearest_even.
  assert (F : Qfloor q1 = Qfloor q2) by (rewrite E; reflexivity).
  rewrite F.
  assert (C : (q1 - inject_Z (Qfloor q2) ?= 1 # 2)
              = (q2 - inject_Z (Qfloor q2) ?= 1 # 2)).
  { apply Qcompare_comp; [rewrite E; reflexivity | reflexivity]. }
  rewrite C. reflexivity.
Qed.

Lemma nearest_even_bounds (q : Q) :
  (Qfloor q <= nearest_even q <= Qfloor q + 1)%Z.
Proof.
  unfold nearest_even.
  destruct (q - inject_Z (Qfloor q) ?= 1 # 2); [destruct (Z.even _) | |]; lia.
Qed.

Lemma nearest_even_Z (n : Z) : nearest_even (inject_Z n) = n.
Proof.
  unfold nearest_even. rewrite Qfloor_Z.
  assert (C : (inject_Z n - inject_Z n ?= 1 # 2) = Lt).
  { apply Qlt_alt. generalize (inject_Z n). intros q.
    assert (E : q - q == 0) by ring. rewrite E. reflexivity. }
  rewrite C. reflexivity.
Qed.

Lemma nearest_even_mono (q1 q2 : Q) :
  q1 <= q2 -> (nearest_even q1 <= nearest_even q2)%Z.
Proof.
  intros H.
  pose proof (Qfloor_resp_le _ _ H) as Hf.
  pose proof (nearest_even_bounds q1) as B1.
  pose proof (nearest_even_bounds q2) as B2.
  destruct (Z.eq_dec (Qfloor q1) (Qfloor q2)) as [E | NE]; [| lia].
  unfold nearest_even. rewrite E.
  assert (Hr : q1 - inject_Z (Qfloor q2) <= q2 - inject_Z (Qfloor q2)) by lra.
  destruct (Qcompare_spec (q1 - inject_Z (Qfloor q2)) (1 # 2)) as [A | A | A];
    destruct (Qcompare_spec (q2 - inject_Z (Qfloor q2)) (1 # 2)) as [B | B | B];
    try destruct (Z.even (Qfloor q2)); try lia; exfalso; lra.
Qed.

Lemma nearest_even_nonneg (q : Q) : 0 <= q -> (0 <= nearest_even q)%Z.
Proof.
  intros H. pose proof (nearest_even_bounds q) as B.
  pose proof (Qfloor_resp_le _ _ H) as F. change (Qfloor 0) with 0%Z in F. lia.
Qed.

(** Scaling by the quantum. *)
Lemma scaled_le (x : Q) (p m : Z) :
  (p <= m)%Z -> x <= 2 ^ m -> x / 2 ^ p <= inject_Z (2 ^ (m - p)).
Proof.
  intros Hpm H. rewrite <- p2_int by lia.
  apply Qle_shift_div_r; [apply p2_pos |].
  rewrite <- p2_plus. replace (m - p + p)%Z with m by lia. exact H.
Qed.

Lemma scaled_ge (x : Q) (p m : Z) :
  (p <= m)%Z -> 2 ^ m <= x -> inject_Z (2 ^ (m - p)) <= x / 2 ^ p.
Proof.
  intros Hpm H. rewrite <- p2_int by lia.
  apply Qle_shift_div_l; [apply p2_pos |].
  rewrite <- p2_plus. replace (m - p + p)%Z with m by lia. exact H.
Qed.

Lemma round_pos_le_pow (x : Q) (m : Z) :
  x <= 2 ^ m -> (quantum x <= m)%Z -> round_pos x <= 2 ^ m.
Proof.
  intros H Hq. unfold round_pos. set (p := quantum x) in *.
  pose proof (nearest_even_mono _ _ (scaled_le x p m Hq H)) as N.
  rewrite nearest_even_Z in N.
  replace m with ((m - p) + p)%Z at 1 by lia. rewrite p2_plus.
  apply Qmult_le_compat_r; [| apply Qlt_le_weak, p2_pos].
  rewrite (p2_int (m - p)) by lia. rewrite <- Zle_Qle. exact N.
Qed.

Lemma round_pos_ge_pow (x : Q) (m : Z) :
  2 ^ m <= x -> (quantum x <= m)%Z -> 2 ^ m <= round_pos x.
Proof.
  intros H Hq. unfold round_pos. set (p := quantum x) in *.
  pose proof (nearest_even_mono _ _ (scaled_ge x p m Hq H)) as N.
  rewrite nearest_even_Z in N.
  replace m with ((m - p) + p)%Z at 1 by lia. rewrite p2_plus.
  apply Qmult_le_compat_r; [| apply Qlt_le_weak, p2_pos].
  rewrite (p2_int (m - p)) by lia. rewrite <- Zle_Qle. exact N.
Qed.

Lemma round_pos_nonneg (x : Q) : 0 < x -> 0 <= round_pos x.
Proof.
  intros Hx. unfold round_pos.
  apply Qmult_le_0_compat; [| apply Qlt_le_weak, p2_pos].
  change 0 with (inject_Z 0). rewrite <- Zle_Qle.
  apply nearest_even_nonneg. apply Qle_shift_div_l; [apply p2_pos |].
  lra.
Qed.

Lemma round_pos_Proper (x y : Q) :
  0 < x -> x == y -> round_pos x == round_pos y.
Proof.
  intros Hx E. unfold round_pos, quantum.
  rewrite <- (exponent_Proper x y Hx E).
  set (p := Z.max (exponent x - 52) (-1074)).
  assert (N : nearest_even (x / 2 ^ p) = nearest_even (y / 2 ^ p)).
  { apply nearest_even_Proper. rewrite E. reflexivity. }
  rewrite N. reflexivity.
Qed.

Lemma round_pos_mono (x y : Q) :
  0 < x -> x <= y -> round_pos x <= round_pos y.
Proof.
  intros Hx H. assert (Hy : 0 < y) by lra.
  pose proof (exponent_le x y Hx H) as He.
  destruct (Z.eq_dec (quantum x) (quantum y)) as [E | NE].
  - unfold round_pos. rewrite E.
    apply Qmult_le_compat_r; [| apply Qlt_le_weak, p2_pos].
    rewrite <- Zle_Qle. apply nearest_even_mono.
    apply Qmult_le_compat_r; [exact H |].
    apply Qlt_le_weak, Qinv_lt_0_compat, p2_pos.
  - unfold quantum in NE.
    destruct (exponent_spec x Hx) as [_ X2].
    destruct (exponent_spec y Hy) as [Y1 _].
    apply Qle_trans with (2 ^ exponent y).
    + apply round_pos_le_pow; [| unfold quantum; lia].
      apply Qlt_le_weak. eapply Qlt_le_trans; [exact X2 |].
      apply p2_le. lia.
    + apply round_pos_ge_pow; [exact Y1 | unfold quantum; lia].
Qed.

(** A multiple of its own quantum is left alone. *)
Lemma round_pos_fixed (y : Q) (k : Z) :
  y == inject_Z k * 2 ^ quantum y -> round_pos y == y.
Proof.
  intros E. unfold round_pos.
  assert (N : nearest_even (y / 2 ^ quantum y) = k).
  { rewrite <- (nearest_even_Z k). apply nearest_even_Proper.
    rewrite E at 1. field. pose proof (p2_pos (quantum y)). lra. }
  rewrite N. symmetry. exact E.
Qed.

Lemma round_pos_idem (x : Q) :
  0 < x -> 0 < round_pos x -> round_pos (round_pos x) == round_pos x.
Proof.
  intros Hx Hy.
  set (y := round_pos x) in *. set (e := exponent x). set (p := quantum x).
  set (k := nearest_even (x / 2 ^ p)).
  assert (Ey : y == inject_Z k * 2 ^ p) by reflexivity.
  destruct (exponent_spec x Hx) as [X1 X2]. fold e in X1, X2.
  assert (Hp : p = Z.max (e - 52) (-1074)) by reflexivity.
  assert (Hup : y <= 2 ^ Z.max (e + 1) p).
  { apply round_pos_le_pow; [| fold p; lia].
    apply Qlt_le_weak. eapply Qlt_le_trans; [exact X2 |]. apply p2_le. lia. }
  destruct (Z.eq_dec p (e - 52)%Z) as [Hn | Hs].
  - (* normal *)
    assert (Hlow : 2 ^ e <= y).
    { apply round_pos_ge_pow; [exact X1 | fold p; lia]. }
    replace (Z.max (e + 1) p) with (e + 1)%Z in Hup by lia.
    destruct (Qlt_le_dec y (2 ^ (e + 1))) as [Hlt | Hge].
    + assert (Q : quantum y = p).
      { unfold quantum. rewrite (exponent_unique y e Hlow Hlt). lia. }
      apply (round_pos_fixed y k). rewrite Q. exact Ey.
    + assert (Eq2 : y == 2 ^ (e + 1)) by lra.
      assert (Q : quantum y = (p + 1)%Z).
      { unfold quantum. rewrite (exponent_unique y (e + 1)).
        - lia.
        - lra.
        - rewrite Eq2. apply p2_lt. lia. }
      apply (round_pos_fixed y (2 ^ 52)). rewrite Q, Eq2.
      rewrite <- p2_int by lia. rewrite <- p2_plus.
      replace (52 + (p + 1))%Z with (e + 1)%Z by lia. reflexivity.
  - (* subnormal *)
    assert (Q : quantum y = p).
    { unfold quantum.
      assert (A : (exponent y <= p + 52)%Z).
      { apply Z.lt_succ_r. apply exponent_lt; [exact Hy |].
        eapply Qle_lt_trans; [exact Hup |]. apply p2_lt. lia. }
      lia. }
    apply (round_pos_fixed y k). rewrite Q. exact Ey.
Qed.

Lemma rnd_Proper (x y : Q) : x == y -> rnd x = rnd y.
Proof.
  intros E. unfold rnd.
  rewrite (Qred_complete _ _ E).
  assert (E' : - x == - y) by (rewrite E; reflexivity).
  rewrite (Qred_complete _ _ E'). reflexivity.
Qed.

Lemma Qnum_sign (x : Q) :
  match Qnum x with
  | Z0 => x == 0
  | Zpos _ => 0 < x
  | Zneg _ => x < 0
  end.
Proof. destruct x as [[| n | n] d]; unfold Qeq, Qlt; cbn; lia. Qed.

Lemma rnd_zero (x : Q) : x == 0 -> rnd x = 0.
Proof.
  intros E. rewrite (rnd_Proper x 0 E). reflexivity.
Qed.

Lemma rnd_pos_eq (x : Q) : 0 < x -> rnd x == round_pos (Qred x).
Proof.
  intros Hx. unfold rnd. pose proof (Qnum_sign (Qred x)) as S.
  pose proof (Qred_correct x) as C.
  destruct (Qnum (Qred x)).
  - exfalso. rewrite C in S. lra.
  - apply Qred_correct.
  - exfalso. rewrite C in S. lra.
Qed.

Lemma rnd_neg_eq (x : Q) : x < 0 -> rnd x == - round_pos (Qred (- x)).
Proof.
  intros Hx. unfold rnd. pose proof (Qnum_sign (Qred x)) as S.
  pose proof (Qred_correct x) as C.
  destruct (Qnum (Qred x)).
  - exfalso. rewrite C in S. lra.
  - exfalso. rewrite C in S. lra.
  - apply Qred_correct.
Qed.

Lemma rnd_opp (x : Q) : rnd (- x) == - rnd x.
Proof.
  destruct (Q_dec x 0) as [[Hn | Hp] | Hz].
  - rewrite (rnd_neg_eq x Hn). rewrite rnd_pos_eq by lra. ring.
  - rewrite (rnd_pos_eq x Hp). rewrite rnd_neg_eq by lra.
    assert (E : - - x == x) by ring.
    rewrite (Qred_complete _ _ E). reflexivity.
  - rewrite (rnd_zero x Hz). rewrite rnd_zero by (rewrite Hz; reflexivity).
    reflexivity.
Qed.

Lemma rnd_nonneg (x : Q) : 0 <= x -> 0 <= rnd x.
Proof.
  intros H. destruct (Qlt_le_dec 0 x) as [Hp | Hz].
  - rewrite (rnd_pos_eq x Hp). apply round_pos_nonneg.
    rewrite Qred_correct. exact Hp.
  - rewrite rnd_zero by lra. apply Qle_refl.
Qed.

Lemma rnd_mono_pos (x y : Q) : 0 < x -> x <= y -> rnd x <= rnd y.
Proof.
  intros Hx H. rewrite (rnd_pos_eq x Hx). rewrite rnd_pos_eq by lra.
  apply round_pos_mono; rewrite !Qred_correct; assumption.
Qed.

Lemma rnd_mono (x y : Q) : x <= y -> rnd x <= rnd y.
Proof.
  intros H. destruct (Q_dec x 0) as [[Hn | Hp] | Hz].
  - destruct (Qlt_le_dec y 0) as [Hyn | Hyp].
    + assert (A : rnd (- y) <= rnd (- x)) by (apply rnd_mono_pos; lra).
      rewrite !rnd_opp in A. lra.
    + assert (A : 0 <= rnd (- x)) by (apply rnd_nonneg; lra).
      rewrite rnd_opp in A. pose proof (rnd_nonneg y Hyp). lra.
  - apply rnd_mono_pos; assumption.
  - rewrite (rnd_zero x Hz). apply rnd_nonneg. lra.
Qed.

Lemma rnd_idem_pos (x : Q) : 0 < x -> rnd (rnd x) == rnd x.
Proof.
  intros Hx. pose proof (rnd_nonneg x (Qlt_le_weak _ _ Hx)) as Hn.
  destruct (Qlt_le_dec 0 (rnd x)) as [Hp | Hz].
  - rewrite (rnd_pos_eq (rnd x) Hp).
    assert (E : Qred (rnd x) == round_pos (Qred x)).
    { rewrite Qred_correct. apply rnd_pos_eq. exact Hx. }
    assert (Hr : 0 < round_pos (Qred x)).
    { rewrite <- (rnd_pos_eq x Hx). exact Hp. }
    assert (Hq : 0 < Qred (rnd x)) by (rewrite Qred_correct; exact Hp).
    rewrite (round_pos_Proper _ _ Hq E).
    rewrite round_pos_idem; [| rewrite Qred_correct; exact Hx | exact Hr].
    symmetry. apply rnd_pos_eq. exact Hx.
  - assert (E : rnd x == 0) by lra.
    rewrite (rnd_zero _ E). symmetry. exact E.
Qed.

Lemma rnd_idem (x : Q) : rnd (rnd x) == rnd x.
Proof.
  destruct (Q_dec x 0) as [[Hn | Hp] | Hz].
  - assert (A : rnd (rnd (- x)) == rnd (- x)) by (apply rnd_idem_pos; lra).
    assert (B : rnd (- x) == - rnd x) by apply rnd_opp.
    rewrite (rnd_Proper _ _ B) in A. rewrite rnd_opp in A. lra.
  - apply rnd_idem_pos. exact Hp.
  - rewrite (rnd_zero x Hz). reflexivity.
Qed.

Lemma nearest_even_error (q : Q) :
  Qabs (inject_Z (nearest_even q) - q) <= 1 # 2.
Proof.
  unfold nearest_even.
  pose proof (Qfloor_le q) as Hlo. pose proof (Qlt_floor q) as Hhi.
  rewrite inject_Z_plus in Hhi. change (inject_Z 1) with 1 in Hhi.
  apply Qabs_Qle_condition.
  destruct (Qcompare_spec (q - inject_Z (Qfloor q)) (1 # 2)) as [E | L | G].
  - destruct (Z.even (Qfloor q)).
    + split; lra.
    + rewrite inject_Z_plus. change (inject_Z 1) with 1. split; lra.
  - split; lra.
  - rewrite inject_Z_plus. change (inject_Z 1) with 1. split; lra.
Qed.

(** Rounding moves a positive number by at most half a quantum. *)
Lemma round_pos_error (x : Q) :
  Qabs (round_pos x - x) <= 2 ^ (quantum x - 1).
Proof.
  unfold round_pos. set (p := quantum x).
  pose proof (p2_pos p) as Hp.
  pose proof (nearest_even_error (x / 2 ^ p)) as N.
  apply Qabs_Qle_condition in N. destruct N as [N1 N2].
  assert (Ex : x == x / 2 ^ p * 2 ^ p) by (field; lra).
  assert (Eh : 2 ^ (p - 1) == (1 # 2) * 2 ^ p).
  { replace (p - 1)%Z with (-1 + p)%Z by lia. rewrite p2_plus. reflexivity. }
  set (k := inject_Z (nearest_even (x / 2 ^ p))) in *. clearbody k.
  set (y := x / 2 ^ p) in *. clearbody y.
  set (s := 2 ^ p) in *. clearbody s.
  rewrite Eh, Ex.
  assert (A : (k - y) * s <= (1 # 2) * s).
  { apply Qmult_le_compat_r; lra. }
  assert (B : (- (1 # 2)) * s <= (k - y) * s).
  { apply Qmult_le_compat_r; lra. }
  assert (C : k * s - y * s == (k - y) * s) by ring.
  apply Qabs_Qle_condition. rewrite C. split; lra.
Qed.

(** The relative error of a rounding is at most [2^-53], but for an
    absolute error of [2^-1075] in the subnormal range. *)
Lemma rnd_error (x : Q) :
  Qabs (rnd x - x) <= Qabs x * 2 ^ (-53) + 2 ^ (-1075).
Proof.
  assert (Hpos : forall y, 0 < y ->
             Qabs (round_pos y - y) <= y * 2 ^ (-53) + 2 ^ (-1075)).
  { intros y Hy. eapply Qle_trans; [apply round_pos_error |].
    destruct (exponent_spec y Hy) as [Y1 _].
    pose proof (p2_pos (-1075)) as H1.
    assert (H2 : 0 <= y * 2 ^ (-53)).
    { apply Qmult_le_0_compat; [lra |]. apply Qlt_le_weak, p2_pos. }
    unfold quantum.
    destruct (Z.max_spec (exponent y - 52) (-1074)) as [[_ ->] | [_ ->]].
    - change (-1074 - 1)%Z with (-1075)%Z. lra.
    - replace (exponent y - 52 - 1)%Z with (exponent y + -53)%Z by lia.
      rewrite p2_plus.
      apply Qle_trans with (y * 2 ^ (-53)); [| lra].
      apply Qmult_le_compat_r; [exact Y1 |].
      apply Qlt_le_weak, p2_pos. }
  destruct (Q_dec x 0) as [[Hn | Hp] | Hz].
  - rewrite (rnd_neg_eq x Hn).
    assert (Hy : 0 < Qred (- x)) by (rewrite Qred_correct; lra).
    pose proof (Hpos _ Hy) as H. rewrite Qred_correct in H at 2 3.
    rewrite (Qabs_neg x) by lra.
    apply Qabs_Qle_condition in H. destruct H as [H1 H2].
    apply Qabs_Qle_condition. split; lra.
  - rewrite (rnd_pos_eq x Hp).
    assert (Hy : 0 < Qred x) by (rewrite Qred_correct; lra).
    pose proof (Hpos _ Hy) as H. rewrite Qred_correct in H at 2 3.
    rewrite (Qabs_pos x) by lra. exact H.
  - rewrite (rnd_zero x Hz). rewrite Hz.
    pose proof (p2_pos (-1075)) as H1.
    assert (E : Qabs (0 - 0) == 0) by reflexivity.
    rewrite E. change (Qabs 0) with 0. lra.
Qed.

End Binary64Rounding.

(** ** The statistics as running sums *)

Section RunningSums.

Variable rnd : Q -> Q.

(** What [reduce] has accumulated after a run from [a] over [l]: every
    total is the running sum of the readings, in the order of [l]. *)
Lemma fold_step_running (l : list EVSEUnit) (a : WebSocketProvider.Acc) :
  let r := fold_left (UseWebSocket.step rnd) l a in
  let ts := telemetry <$> l in
  WebSocketProvider.acc_total_power_w r
  = fold_left (Num.add rnd) (power_w <$> ts)
      (WebSocketProvider.acc_total_power_w a)
  /\ WebSocketProvider.acc_total_solar_energy_kwh r
     = fold_left (Num.add rnd) (session_energy_kwh_solar <$> ts)
         (WebSocketProvider.acc_total_solar_energy_kwh a)
  /\ WebSocketProvider.acc_total_grid_energy_kwh r
     = fold_left (Num.add rnd) (session_energy_kwh_grid <$> ts)
         (WebSocketProvider.acc_total_grid_energy_kwh a)
  /\ WebSocketProvider.acc_total_temperature_c r
     = fold_left (Num.add rnd) (temperature_c <$> ts)
         (WebSocketProvider.acc_total_temperature_c a).
Proof.
  revert a. induction l as [| u l IH]; intros a.
  - cbn. repeat split; reflexivity.
  - cbn [fold_left]. destruct (IH (UseWebSocket.step rnd a u))
      as (H1 & H2 & H3 & H4).
    cbv zeta. rewrite H1, H2, H3, H4. rewrite !fmap_cons.
    cbn [fold_left]. repeat split; reflexivity.
Qed.

Lemma fold_step_tally (l : list EVSEUnit) (a : WebSocketProvider.Acc) :
  let r := fold_left (UseWebSocket.step rnd) l a in
  let ts := telemetry <$> l in
  WebSocketProvider.acc_active_sessions r
  = (WebSocketProvider.acc_active_sessions a
     + count (fun t => JS.truthy (session_id t)) ts)%nat
  /\ WebSocketProvider.acc_available_units r
     = (WebSocketProvider.acc_available_units a
        + count (fun t => Status_eqb (status t) available) ts)%nat
  /\ WebSocketProvider.acc_charging_units r
     = (WebSocketProvider.acc_charging_units a
        + count (fun t => Status_eqb (status t) charging) ts)%nat
  /\ WebSocketProvider.acc_faulted_units r
     = (WebSocketProvider.acc_faulted_units a
        + count (fun t => Status_eqb (status t) faulted) ts)%nat.
Proof.
  revert a. induction l as [| u l IH]; intros a.
  - cbn. unfold count. cbn. lia.
  - cbn [fold_left]. destruct (IH (UseWebSocket.step rnd a u))
      as (H1 & H2 & H3 & H4).
    cbv zeta. rewrite H1, H2, H3, H4. rewrite !fmap_cons, !count_cons.
    cbn [UseWebSocket.step WebSocketProvider.acc_active_sessions
         WebSocketProvider.acc_available_units
         WebSocketProvider.acc_charging_units
         WebSocketProvider.acc_faulted_units].
    unfold WebSocketProvider.b2n.
    destruct (JS.truthy _), (Status_eqb _ available),
      (Status_eqb _ charging), (Status_eqb _ faulted); lia.
Qed.

Lemma div_Some (a b : Q) : ~ b == 0 -> Num.div rnd a b = Some (rnd (a / b)).
Proof.
  intros Hb. unfold Num.div. destruct (Qeq_bool b 0) eqn:E; [| reflexivity].
  apply Qeq_bool_iff in E. contradiction.
Qed.

(** The value of the guarded percentage. *)
Lemma percentage_value (part total : Q) :
  UseWebSocket.percentage rnd part total
  = Some (if Qlt_le_dec 0 total
          then Num.mul rnd (rnd (part / total)) 100 else 0).
Proof.
  unfold UseWebSocket.percentage.
  destruct (Qlt_le_dec 0 total) as [Hpos | Hle]; [| reflexivity].
  rewrite div_Some by (intros E; rewrite E in Hpos; lra). reflexivity.
Qed.

(** The statistics of a non-empty fleet, with both divisions carried out
    and every total read as a running sum. *)
Lemma calculateSystemStats_cons (now : Z) (e : string * EVSEUnit)
    (units : list (string * EVSEUnit)) :
  let ts := snapshots (e :: units) in
  let S := running_sum rnd (session_energy_kwh_solar <$> ts) in
  let G := running_sum rnd (session_energy_kwh_grid <$> ts) in
  let T := Num.add rnd S G in
  UseWebSocket.calculateSystemStats rnd now (e :: units)
  = Some {| total_power_w := JS.Math_round (running_sum rnd (power_w <$> ts));
            total_solar_energy_kwh := Num.Number_toFixed rnd 4 S;
            total_grid_energy_kwh := Num.Number_toFixed rnd 4 G;
            total_energy_kwh := Num.Number_toFixed rnd 4 T;
            avg_temperature_c :=
              Num.Number_toFixed rnd 1
                (rnd (running_sum rnd (temperature_c <$> ts)
                      / inject_Z (Z.of_nat (length ts))));
            solar_percentage :=
              Num.Number_toFixed rnd 1
                (if Qlt_le_dec 0 T
                 then Num.mul rnd (rnd (S / T)) 100 else 0);
            active_sessions := count (fun t => JS.truthy (session_id t)) ts;
            available_units :=
              count (fun t => Status_eqb (status t) available) ts;
            charging_units :=
              count (fun t => Status_eqb (status t) charging) ts;
            faulted_units :=
              count (fun t => Status_eqb (status t) faulted) ts;
            stats_last_updated := now |}.
Proof.
  intros ts S G T. unfold UseWebSocket.calculateSystemStats.
  change (Nat.eqb (length (UseWebSocket.Array_from_values (e :: units))) 0)
    with false. cbv iota.
  unfold UseWebSocket.reduce.
  destruct (fold_step_running (UseWebSocket.Array_from_values (e :: units))
              WebSocketProvider.acc0) as (H1 & H2 & H3 & H4).
  destruct (fold_step_tally (UseWebSocket.Array_from_values (e :: units))
              WebSocketProvider.acc0) as (C1 & C2 & C3 & C4).
  cbv zeta in H1, H2, H3, H4, C1, C2, C3, C4.
  rewrite H1, H2, H3, H4, C1, C2, C3, C4.
  fold (snapshots (e :: units)). fold ts.
  change (fold_left (Num.add rnd) (session_energy_kwh_solar <$> ts)
            (WebSocketProvider.acc_total_solar_energy_kwh
               WebSocketProvider.acc0)) with S.
  change (fold_left (Num.add rnd) (session_energy_kwh_grid <$> ts)
            (WebSocketProvider.acc_total_grid_energy_kwh
               WebSocketProvider.acc0)) with G.
  fold T. rewrite percentage_value. cbn [mbind option_bind].
  assert (Hlen : length (UseWebSocket.Array_from_values (e :: units))
                 = length ts).
  { unfold ts, snapshots. rewrite length_fmap. reflexivity. }
  rewrite Hlen.
  rewrite div_Some.
  2:{ unfold ts, snapshots, UseWebSocket.Array_from_values.
      rewrite !fmap_cons. intros H. unfold Qeq in H.
      cbn [Qnum Qden inject_Z length] in H. lia. }
  reflexivity.
Qed.

(** The totals of the mock feed's statistics loop. *)
Lemma fold_visit_running (l : list EVSEUnit) (a : MockFirebaseDB.Totals) :
  let r := fold_left (UseFirebaseData.visit rnd) l a in
  let ts := telemetry <$> l in
  MockFirebaseDB.totalPower r
  = fold_left (Num.add rnd) (power_w <$> ts) (MockFirebaseDB.totalPower a)
  /\ MockFirebaseDB.totalSolar r
     = fold_left (Num.add rnd) (session_energy_kwh_solar <$> ts)
         (MockFirebaseDB.totalSolar a)
  /\ MockFirebaseDB.totalGrid r
     = fold_left (Num.add rnd) (session_energy_kwh_grid <$> ts)
         (MockFirebaseDB.totalGrid a)
  /\ MockFirebaseDB.activeSessions r
     = (MockFirebaseDB.activeSessions a
        + count (fun t => JS.truthy (session_id t)) ts)%nat
  /\ MockFirebaseDB.chargingUnits r
     = (MockFirebaseDB.chargingUnits a
        + count (fun t => Status_eqb (status t) charging) ts)%nat
  /\ MockFirebaseDB.availableUnits r
     = (MockFirebaseDB.availableUnits a
        + count (fun t => Status_eqb (status t) available) ts)%nat.
Proof.
  revert a. induction l as [| u l IH]; intros a.
  - cbn. unfold count. cbn. repeat split; lia.
  - cbn [fold_left]. destruct (IH (UseFirebaseData.visit rnd a u))
      as (H1 & H2 & H3 & H4 & H5 & H6).
    cbv zeta. rewrite H1, H2, H3, H4, H5, H6.
    rewrite !fmap_cons, !count_cons.
    cbn [fold_left UseFirebaseData.visit MockFirebaseDB.totalPower
         MockFirebaseDB.totalSolar MockFirebaseDB.totalGrid
         MockFirebaseDB.activeSessions MockFirebaseDB.chargingUnits
         MockFirebaseDB.availableUnits].
    destruct (JS.truthy _), (Status_eqb _ charging),
      (Status_eqb _ available); repeat split; lia.
Qed.

(** The mock feed's statistics over any list of units. *)
Lemma systemStatsOf_value (now : Z) (r_avg : Q) (units : list EVSEUnit) :
  let ts := telemetry <$> units in
  let S := running_sum rnd (session_energy_kwh_solar <$> ts) in
  let G := running_sum rnd (session_energy_kwh_grid <$> ts) in
  let T := Num.add rnd S G in
  UseFirebaseData.systemStatsOf rnd now r_avg units
  = Some {| total_power_w := JS.Math_round (running_sum rnd (power_w <$> ts));
            total_solar_energy_kwh := Num.round_to rnd 10000 S;
            total_grid_energy_kwh := Num.round_to rnd 10000 G;
            total_energy_kwh := Num.round_to rnd 10000 T;
            avg_temperature_c :=
              Num.round_to rnd 10 (Num.add rnd (Num.mul rnd r_avg 10) 25);
            solar_percentage :=
              Num.round_to rnd 10
                (if Qlt_le_dec 0 T
                 then Num.mul rnd (rnd (S / T)) 100 else 0);
            active_sessions := count (fun t => JS.truthy (session_id t)) ts;
            available_units :=
              count (fun t => Status_eqb (status t) available) ts;
            charging_units :=
              count (fun t => Status_eqb (status t) charging) ts;
            faulted_units := 0;
            stats_last_updated := now |}.
Proof.
  intros ts S G T. unfold UseFirebaseData.systemStatsOf.
  destruct (fold_visit_running units MockFirebaseDB.totals0)
    as (H1 & H2 & H3 & H4 & H5 & H6).
  cbv zeta in H1, H2, H3, H4, H5, H6.
  unfold UseFirebaseData.solarPercentage.
  rewrite H1, H2, H3, H4, H5, H6. fold ts.
  change (fold_left (Num.add rnd) (session_energy_kwh_solar <$> ts)
            (MockFirebaseDB.totalSolar MockFirebaseDB.totals0)) with S.
  change (fold_left (Num.add rnd) (session_energy_kwh_grid <$> ts)
            (MockFirebaseDB.totalGrid MockFirebaseDB.totals0)) with G.
  fold T.
  destruct (Qlt_le_dec 0 T) as [Hpos | Hle]; [| reflexivity].
  rewrite div_Some by (intros E; rewrite E in Hpos; lra). reflexivity.
Qed.

End RunningSums.

(** ** The mock feed's generator, whatever the rounding *)

Section MockGenerator.

Variable rnd : Q -> Q.

Lemma rounded_scenarios_inv (rc rp : Q) (sc : MockFirebaseDB.Scenario) :
  sc ∈ UseFirebaseData.scenarios rnd rc rp ->
  sc = {| MockFirebaseDB.sc_status := charging;
          MockFirebaseDB.voltageRange := (220, 240);
          MockFirebaseDB.currentRange := (15, 32);
          MockFirebaseDB.energySource := [solar; grid; solar];
          MockFirebaseDB.sessionId := Some (UseFirebaseData.sess rnd rc) |}
  \/ sc = {| MockFirebaseDB.sc_status := available;
             MockFirebaseDB.voltageRange := (220, 240);
             MockFirebaseDB.currentRange := (0, 0);
             MockFirebaseDB.energySource := [none];
             MockFirebaseDB.sessionId := None |}
  \/ sc = {| MockFirebaseDB.sc_status := preparing;
             MockFirebaseDB.voltageRange := (220, 240);
             MockFirebaseDB.currentRange := (0, 5);
             MockFirebaseDB.energySource := [solar];
             MockFirebaseDB.sessionId := Some (UseFirebaseData.sess rnd rp) |}.
Proof.
  unfold UseFirebaseData.scenarios. rewrite !elem_of_cons, elem_of_nil. tauto.
Qed.

Lemma at_index_elem_of {A} (arr : list A) (i : Z) (x : A) :
  MockFirebaseDB.at_index arr i = Some x -> x ∈ arr.
Proof.
  unfold MockFirebaseDB.at_index. destruct (i <? 0)%Z; [discriminate |].
  apply list_elem_of_lookup_2.
Qed.

(** A returned record is built from the row and the source at the two
    drawn indices. *)
Lemma generateTelemetry_inv (now : Z) (scs : list MockFirebaseDB.Scenario)
    (d : MockFirebaseDB.Draws) (t : TelemetryData) :
  UseFirebaseData.generateTelemetry rnd now scs d = Some t ->
  exists sc src,
    MockFirebaseDB.at_index scs
      (UseFirebaseData.floor_times rnd (MockFirebaseDB.r_scenario d)
         (length scs)) = Some sc
    /\ MockFirebaseDB.at_index (MockFirebaseDB.energySource sc)
         (UseFirebaseData.floor_times rnd (MockFirebaseDB.r_source d)
            (length (MockFirebaseDB.energySource sc))) = Some src
    /\ t = UseFirebaseData.mkTelemetry rnd now sc src d.
Proof.
  unfold UseFirebaseData.generateTelemetry. intros H.
  destruct (MockFirebaseDB.at_index scs _) as [sc |] eqn:Esc;
    [| discriminate].
  cbn [mbind option_bind] in H.
  destruct (MockFirebaseDB.at_index (MockFirebaseDB.energySource sc) _)
    as [src |] eqn:Esrc; [| discriminate].
  cbn [mbind option_bind] in H. injection H as <-.
  exists sc, src. auto.
Qed.

Lemma rounded_mkTelemetry_fields now sc src d :
  let t := UseFirebaseData.mkTelemetry rnd now sc src d in
  status t = MockFirebaseDB.sc_status sc
  /\ session_id t = MockFirebaseDB.sessionId sc
  /\ energy_source t = src
  /\ power_w t = Num.round_to rnd 100 (UseFirebaseData.power rnd sc d)
  /\ session_energy_kwh_solar t
     = Num.round_to rnd 10000 (fst (UseFirebaseData.energies rnd src sc d))
  /\ session_energy_kwh_grid t
     = Num.round_to rnd 10000 (snd (UseFirebaseData.energies rnd src sc d))
  /\ session_total_energy_kwh t
     = Num.round_to rnd 10000
         (Num.add rnd (fst (UseFirebaseData.energies rnd src sc d))
                      (snd (UseFirebaseData.energies rnd src sc d))).
Proof.
  unfold UseFirebaseData.mkTelemetry.
  destruct (UseFirebaseData.energies rnd src sc d). cbn.
  repeat split; reflexivity.
Qed.

(** No row of the table is faulted. *)
Lemma generated_never_faulted (now : Z) (rc rp : Q)
    (d : MockFirebaseDB.Draws) (t : TelemetryData) :
  UseFirebaseData.generateTelemetry rnd now
    (UseFirebaseData.scenarios rnd rc rp) d = Some t ->
  Status_eqb (status t) faulted = false.
Proof.
  intros H. destruct (generateTelemetry_inv _ _ _ _ H)
    as (sc & src & Esc & _ & ->).
  destruct (rounded_mkTelemetry_fields now sc src d) as (-> & _).
  apply at_index_elem_of in Esc.
  destruct (rounded_scenarios_inv _ _ _ Esc) as [-> | [-> | ->]];
    reflexivity.
Qed.

(** The data of one tick: three records, and the statistics of the
    statistics loop over the three units. *)
Lemma generateMockData_inv (now : Z) (d : MockFirebaseDB.MockDraws)
    (r : MockFirebaseDB.MockData) :
  UseFirebaseData.generateMockData rnd now d = Some r ->
  exists t1 t2 t3,
    let scs := UseFirebaseData.scenarios rnd
                 (MockFirebaseDB.r_session_charging d)
                 (MockFirebaseDB.r_session_preparing d) in
    UseFirebaseData.generateTelemetry rnd now scs (MockFirebaseDB.unit1 d)
    = Some t1
    /\ UseFirebaseData.generateTelemetry rnd now scs (MockFirebaseDB.unit2 d)
       = Some t2
    /\ UseFirebaseData.generateTelemetry rnd now scs (MockFirebaseDB.unit3 d)
       = Some t3
    /\ MockFirebaseDB.evse_units r
       = [MockFirebaseDB.mkUnit now 1 t1; MockFirebaseDB.mkUnit now 2 t2;
          MockFirebaseDB.mkUnit now 3 t3]
    /\ MockFirebaseDB.latest_telemetry r = t1
    /\ UseFirebaseData.systemStatsOf rnd now
         (MockFirebaseDB.r_avg_temperature d) (MockFirebaseDB.evse_units r)
       = Some (MockFirebaseDB.system_stats r).
Proof.
  unfold UseFirebaseData.generateMockData. intros H.
  destruct (UseFirebaseData.generateTelemetry rnd now _
              (MockFirebaseDB.unit1 d)) as [t1 |] eqn:E1; [| discriminate].
  cbn [mbind option_bind] in H.
  destruct (UseFirebaseData.generateTelemetry rnd now _
              (MockFirebaseDB.unit2 d)) as [t2 |] eqn:E2; [| discriminate].
  cbn [mbind option_bind] in H.
  destruct (UseFirebaseData.generateTelemetry rnd now _
              (MockFirebaseDB.unit3 d)) as [t3 |] eqn:E3; [| discriminate].
  cbn [mbind option_bind] in H.
  destruct (UseFirebaseData.systemStatsOf rnd now _ _) as [st |] eqn:Est;
    [| discriminate].
  cbn [mbind option_bind] in H. injection H as <-.
  exists t1, t2, t3. cbn [MockFirebaseDB.evse_units
                          MockFirebaseDB.latest_telemetry
                          MockFirebaseDB.system_stats].
  auto 7.
Qed.

Lemma generateMockData_of_records (now : Z) (d : MockFirebaseDB.MockDraws)
    (t1 t2 t3 : TelemetryData) :
  let scs := UseFirebaseData.scenarios rnd
               (MockFirebaseDB.r_session_charging d)
               (MockFirebaseDB.r_session_preparing d) in
  UseFirebaseData.generateTelemetry rnd now scs (MockFirebaseDB.unit1 d)
  = Some t1 ->
  UseFirebaseData.generateTelemetry rnd now scs (MockFirebaseDB.unit2 d)
  = Some t2 ->
  UseFirebaseData.generateTelemetry rnd now scs (MockFirebaseDB.unit3 d)
  = Some t3 ->
  is_Some (UseFirebaseData.generateMockData rnd now d).
Proof.
  intros scs E1 E2 E3. unfold UseFirebaseData.generateMockData.
  fold scs. rewrite E1, E2, E3. cbn [mbind option_bind].
  rewrite systemStatsOf_value. cbn [mbind option_bind]. eexists. reflexivity.
Qed.

End MockGenerator.

(** ** Arithmetic of the running program *)

Section DoubleArithmetic.

Lemma Math_round_mono (x y : Q) : x <= y -> JS.Math_round x <= JS.Math_round y.
Proof.
  intros H. unfold JS.Math_round. rewrite <- Zle_Qle.
  apply Qfloor_resp_le. lra.
Qed.

Lemma rnd_0 : Binary64.rnd 0 = 0.
Proof. reflexivity. Qed.

Lemma rnd_1 : Binary64.rnd 1 == 1.
Proof. vm_compute. reflexivity. Qed.

Lemma rnd_100 : Binary64.rnd 100 == 100.
Proof. vm_compute. reflexivity. Qed.

Lemma rnd_le_double (x c : Q) :
  is_double c -> x <= c -> Binary64.rnd x <= c.
Proof.
  intros Hc H. apply Qle_trans with (Binary64.rnd c).
  - apply rnd_mono. exact H.
  - apply Qle_lteq. right. exact Hc.
Qed.

Lemma rnd_ge_double (x c : Q) :
  is_double c -> c <= x -> c <= Binary64.rnd x.
Proof.
  intros Hc H. apply Qle_trans with (Binary64.rnd c).
  - apply Qle_lteq. right. symmetry. exact Hc.
  - apply rnd_mono. exact H.
Qed.

Lemma is_double_0 : is_double 0.
Proof. unfold is_double. rewrite rnd_0. reflexivity. Qed.

Lemma is_double_rnd (x : Q) : is_double (Binary64.rnd x).
Proof. apply rnd_idem. Qed.

Lemma add_nonneg (a b : Q) : 0 <= a -> 0 <= b -> 0 <= Num.add Binary64.rnd a b.
Proof. intros Ha Hb. unfold Num.add. apply rnd_nonneg. lra. Qed.

(** Adding a non-negative number to a double does not make it smaller. *)
Lemma add_ge_left (a b : Q) :
  is_double a -> 0 <= b -> a <= Num.add Binary64.rnd a b.
Proof.
  intros Ha Hb. unfold Num.add. apply rnd_ge_double; [exact Ha | lra].
Qed.

Lemma add_ge_right (a b : Q) :
  0 <= a -> is_double b -> b <= Num.add Binary64.rnd a b.
Proof.
  intros Ha Hb. unfold Num.add. apply rnd_ge_double; [exact Hb | lra].
Qed.

Lemma fold_add_double (l : list Q) (a : Q) :
  is_double a -> is_double (fold_left (Num.add Binary64.rnd) l a).
Proof.
  revert a. induction l as [| x l IH]; intros a Ha; [exact Ha |].
  cbn [fold_left]. apply IH. apply is_double_rnd.
Qed.

Lemma fold_add_nonneg (l : list Q) (a : Q) :
  Forall (fun x => 0 <= x) l -> 0 <= a ->
  0 <= fold_left (Num.add Binary64.rnd) l a.
Proof.
  intros Hl. revert a. induction Hl as [| x l Hx _ IH]; intros a Ha;
    [exact Ha |].
  cbn [fold_left]. apply IH. apply add_nonneg; assumption.
Qed.

Lemma running_sum_double (l : list Q) : is_double (running_sum Binary64.rnd l).
Proof. apply fold_add_double, is_double_0. Qed.

Lemma running_sum_nonneg (l : list Q) :
  Forall (fun x => 0 <= x) l -> 0 <= running_sum Binary64.rnd l.
Proof. intros H. apply fold_add_nonneg; [exact H | lra]. Qed.

(** The guarded quotient, as a percentage, of a part of a positive
    total. *)
Lemma percent_range (S T : Q) :
  0 <= S -> S <= T -> 0 < T ->
  0 <= Num.mul Binary64.rnd (Binary64.rnd (S / T)) 100 <= 100.
Proof.
  intros HS HST HT.
  assert (Hq : 0 <= S / T <= 1).
  { split.
    - apply Qle_shift_div_l; [exact HT | lra].
    - apply Qle_shift_div_r; [exact HT | lra]. }
  assert (Hr : 0 <= Binary64.rnd (S / T) <= 1).
  { split.
    - apply rnd_nonneg. apply Hq.
    - apply rnd_le_double; [exact rnd_1 | apply Hq]. }
  unfold Num.mul. split.
  - apply rnd_nonneg. apply Qmult_le_0_compat; lra.
  - apply rnd_le_double; [exact rnd_100 | lra].
Qed.

Lemma Number_toFixed1_percent (x : Q) :
  0 <= x <= 100 -> 0 <= Num.Number_toFixed Binary64.rnd 1 x <= 100.
Proof.
  intros H. destruct (toFixed1_percent x H) as [H0 H100].
  unfold Num.Number_toFixed. split.
  - apply rnd_nonneg. exact H0.
  - apply rnd_le_double; [exact rnd_100 | exact H100].
Qed.

Lemma round_to_mono (k x y : Q) :
  0 < k -> x <= y ->
  Num.round_to Binary64.rnd k x <= Num.round_to Binary64.rnd k y.
Proof.
  intros Hk H. unfold Num.round_to, Num.quot, Num.mul.
  apply rnd_mono. apply Qmult_le_compat_r.
  - apply Math_round_mono. apply rnd_mono.
    apply Qmult_le_compat_r; lra.
  - apply Qlt_le_weak, Qinv_lt_0_compat. exact Hk.
Qed.

Lemma round_to_10_percent64 (x : Q) :
  0 <= x <= 100 -> 0 <= Num.round_to Binary64.rnd 10 x <= 100.
Proof.
  intros [H0 H100]. split.
  - apply Qle_trans with (Num.round_to Binary64.rnd 10 0).
    + vm_compute. discriminate.
    + apply round_to_mono; [reflexivity | exact H0].
  - apply Qle_trans with (Num.round_to Binary64.rnd 10 100).
    + apply round_to_mono; [reflexivity | exact H100].
    + vm_compute. discriminate.
Qed.

Lemma Number_toFixed_0 (d : nat) : Num.Number_toFixed Binary64.rnd d 0 = 0.
Proof.
  unfold Num.Number_toFixed. apply rnd_zero. apply toFixed_0.
Qed.

Lemma round_to_10_0 : Num.round_to Binary64.rnd 10 0 = 0.
Proof. vm_compute. reflexivity. Qed.

(** *** Indices drawn by [Math.random()] *)

Lemma floor_times_3 (r : Q) :
  is_draw r -> (0 <= UseFirebaseData.floor_times Binary64.rnd r 3 < 3)%Z.
Proof.
  intros [H0 H1]. unfold UseFirebaseData.floor_times, JS.Math_floor, Num.mul.
  change (inject_Z (Z.of_nat 3)) with 3.
  split.
  - change 0%Z with (Qfloor 0). apply Qfloor_resp_le.
    apply rnd_nonneg. lra.
  - rewrite Zlt_Qlt.
    apply Qle_lt_trans with (Binary64.rnd (r * 3)); [apply Qfloor_le |].
    apply Qle_lt_trans with (Binary64.rnd (Binary64.below_one * 3)).
    + apply rnd_mono. lra.
    + vm_compute. reflexivity.
Qed.

Lemma floor_times_1 (r : Q) :
  is_draw r -> UseFirebaseData.floor_times Binary64.rnd r 1 = 0%Z.
Proof.
  intros [H0 H1]. unfold UseFirebaseData.floor_times, JS.Math_floor, Num.mul.
  change (inject_Z (Z.of_nat 1)) with 1.
  assert (A : (0 <= Qfloor (Binary64.rnd (r * 1)))%Z).
  { change 0%Z with (Qfloor 0). apply Qfloor_resp_le.
    apply rnd_nonneg. lra. }
  assert (B : (Qfloor (Binary64.rnd (r * 1)) < 1)%Z).
  { rewrite Zlt_Qlt.
    apply Qle_lt_trans with (Binary64.rnd (r * 1)); [apply Qfloor_le |].
    apply Qle_lt_trans with (Binary64.rnd (Binary64.below_one * 1)).
    - apply rnd_mono. lra.
    - vm_compute. reflexivity. }
  lia.
Qed.

(** For results of [Math.random()] the generator returns a record, built
    from the row and the source at the drawn indices. *)
Lemma generateTelemetry_drawn (now : Z) (rc rp : Q)
    (d : MockFirebaseDB.Draws) :
  is_draw (MockFirebaseDB.r_scenario d) ->
  is_draw (MockFirebaseDB.r_source d) ->
  exists sc src,
    MockFirebaseDB.at_index (UseFirebaseData.scenarios Binary64.rnd rc rp)
      (UseFirebaseData.floor_times Binary64.rnd
         (MockFirebaseDB.r_scenario d) 3) = Some sc
    /\ MockFirebaseDB.at_index (MockFirebaseDB.energySource sc)
         (UseFirebaseData.floor_times Binary64.rnd
            (MockFirebaseDB.r_source d)
            (length (MockFirebaseDB.energySource sc))) = Some src
    /\ UseFirebaseData.generateTelemetry Binary64.rnd now
         (UseFirebaseData.scenarios Binary64.rnd rc rp) d
       = Some (UseFirebaseData.mkTelemetry Binary64.rnd now sc src d).
Proof.
  intros Hsc Hsrc.
  destruct (at_index_Some (UseFirebaseData.scenarios Binary64.rnd rc rp)
              (UseFirebaseData.floor_times Binary64.rnd
                 (MockFirebaseDB.r_scenario d) 3))
    as (sc & Esc & Hin).
  { apply floor_times_3. exact Hsc. }
  assert (Hidx : exists src,
             MockFirebaseDB.at_index (MockFirebaseDB.energySource sc)
               (UseFirebaseData.floor_times Binary64.rnd
                  (MockFirebaseDB.r_source d)
                  (length (MockFirebaseDB.energySource sc))) = Some src).
  { destruct (rounded_scenarios_inv _ _ _ _ Hin) as [-> | [-> | ->]];
      cbn [MockFirebaseDB.energySource length].
    - destruct (at_index_Some [solar; grid; solar]
                  (UseFirebaseData.floor_times Binary64.rnd
                     (MockFirebaseDB.r_source d) 3)) as (src & E & _).
      { apply floor_times_3. exact Hsrc. }
      exists src. exact E.
    - rewrite (floor_times_1 _ Hsrc). exists none. reflexivity.
    - rewrite (floor_times_1 _ Hsrc). exists solar. reflexivity. }
  destruct Hidx as (src & Esrc).
  exists sc, src. split; [exact Esc |]. split; [exact Esrc |].
  unfold UseFirebaseData.generateTelemetry.
  change (length (UseFirebaseData.scenarios Binary64.rnd rc rp)) with 3%nat.
  rewrite Esc. cbn [mbind option_bind]. rewrite Esrc. reflexivity.
Qed.

End DoubleArithmetic.

(** * Statements on numeric results *)

(** ** Fleet statistics *)

Section FleetNumbers.

(** C5, refuted as stated.  A single unit drawing half a watt is reported
    with a total power of 1 W; and three units reading 0.1 W, 0.1 W and
    4.3 W are reported with 5 W when they joined the fleet in this order and
    with 4 W when the 4.3 W unit joined first: the reported total is not
    the sum of the units' power values. *)
Lemma total_power_is_rounded_in_arrival_order :
  (exists st,
      UseWebSocket.calculateSystemStats Binary64.rnd 0 Doubles.fleet1
      = Some st
      /\ power_w <$> snapshots Doubles.fleet1 = [1 # 2]
      /\ total_power_w st == 1)
  /\ (exists st st',
        UseWebSocket.calculateSystemStats Binary64.rnd 0
          (Doubles.fleet3 (1 # 10) (1 # 10) (43 # 10)) = Some st
        /\ UseWebSocket.calculateSystemStats Binary64.rnd 0
             (Doubles.fleet3 (43 # 10) (1 # 10) (1 # 10)) = Some st'
        /\ total_power_w st == 5
        /\ total_power_w st' == 4).
Proof.
  split.
  - eexists. split; [vm_compute; reflexivity |].
    split; [reflexivity |]. vm_compute. reflexivity.
  - eexists. eexists. split; [vm_compute; reflexivity |].
    split; [vm_compute; reflexivity |].
    split; vm_compute; reflexivity.
Qed.

(** C5, as amended.  Whatever the rounding of the arithmetic, the
    statistics of a non-empty fleet are reductions over the snapshots in
    the map's insertion order, followed by a rounding: the total power is
    [Math.round] of the running sum of the power readings (hence within
    half a watt of that running sum), the energy totals are
    [Number(x.toFixed(4))] of the running sums of the buckets and of their
    sum, and the four counts are exact; the empty fleet gives all zeros.
    The mock feed does the same over its three units with
    [Math.round(x * 10000) / 10000], and its constant [faulted_units] is
    the number of faulted units, none being generated.  No field but the
    time stamp depends on anything else, and for results of
    [Math.random()] the mock feed does return its data. *)
Theorem fleet_stats_are_running_sums
    (rnd : Q -> Q) (now : Z) (units : list (string * EVSEUnit))
    (d : MockFirebaseDB.MockDraws) :
  (let ts := snapshots units in
   units <> [] ->
   exists st,
     UseWebSocket.calculateSystemStats rnd now units = Some st
     /\ total_power_w st = JS.Math_round (running_sum rnd (power_w <$> ts))
     /\ Qabs (total_power_w st - running_sum rnd (power_w <$> ts)) <= 1 # 2
     /\ total_solar_energy_kwh st
        = Num.Number_toFixed rnd 4
            (running_sum rnd (session_energy_kwh_solar <$> ts))
     /\ total_grid_energy_kwh st
        = Num.Number_toFixed rnd 4
            (running_sum rnd (session_energy_kwh_grid <$> ts))
     /\ total_energy_kwh st
        = Num.Number_toFixed rnd 4
            (Num.add rnd (running_sum rnd (session_energy_kwh_solar <$> ts))
                         (running_sum rnd (session_energy_kwh_grid <$> ts)))
     /\ active_sessions st = count (fun t => JS.truthy (session_id t)) ts
     /\ available_units st
        = count (fun t => Status_eqb (status t) available) ts
     /\ charging_units st
        = count (fun t => Status_eqb (status t) charging) ts
     /\ faulted_units st
        = count (fun t => Status_eqb (status t) faulted) ts
     /\ stats_last_updated st = now)
  /\ UseWebSocket.calculateSystemStats rnd now [] = Some (zero_stats now)
  /\ (forall r,
        UseFirebaseData.generateMockData rnd now d = Some r ->
        let ts := telemetry <$> MockFirebaseDB.evse_units r in
        let st := MockFirebaseDB.system_stats r in
        total_power_w st = JS.Math_round (running_sum rnd (power_w <$> ts))
        /\ total_solar_energy_kwh st
           = Num.round_to rnd 10000
               (running_sum rnd (session_energy_kwh_solar <$> ts))
        /\ total_grid_energy_kwh st
           = Num.round_to rnd 10000
               (running_sum rnd (session_energy_kwh_grid <$> ts))
        /\ total_energy_kwh st
           = Num.round_to rnd 10000
               (Num.add rnd
                  (running_sum rnd (session_energy_kwh_solar <$> ts))
                  (running_sum rnd (session_energy_kwh_grid <$> ts)))
        /\ active_sessions st = count (fun t => JS.truthy (session_id t)) ts
        /\ available_units st
           = count (fun t => Status_eqb (status t) available) ts
        /\ charging_units st
           = count (fun t => Status_eqb (status t) charging) ts
        /\ faulted_units st
           = count (fun t => Status_eqb (status t) faulted) ts
        /\ stats_last_updated st = now)
  /\ (MockDraws_drawn d ->
      is_Some (UseFirebaseData.generateMockData Binary64.rnd now d)).
Proof.
  split; [| split; [| split]].
  - intros ts Hne. destruct units as [| e units']; [contradiction |].
    eexists. split; [apply calculateSystemStats_cons |].
    cbn [total_power_w total_solar_energy_kwh total_grid_energy_kwh
         total_energy_kwh active_sessions available_units charging_units
         faulted_units stats_last_updated].
    fold ts. split; [reflexivity |]. split.
    { apply Qabs_Qle_condition.
      destruct (Math_round_bounds (running_sum rnd (power_w <$> ts))).
      split; lra. }
    repeat split; reflexivity.
  - reflexivity.
  - intros r Hr ts st.
    destruct (generateMockData_inv rnd now d r Hr)
      as (t1 & t2 & t3 & G1 & G2 & G3 & Eu & _ & Est).
    rewrite systemStatsOf_value in Est. injection Est as Est.
    unfold st. rewrite <- Est.
    cbn [total_power_w total_solar_energy_kwh total_grid_energy_kwh
         total_energy_kwh active_sessions available_units charging_units
         faulted_units stats_last_updated].
    fold ts. repeat split; try reflexivity.
    unfold ts. rewrite Eu. unfold count.
    cbn [fmap list_fmap telemetry MockFirebaseDB.mkUnit List.filter].
    rewrite (generated_never_faulted _ _ _ _ _ _ G1),
      (generated_never_faulted _ _ _ _ _ _ G2),
      (generated_never_faulted _ _ _ _ _ _ G3).
    reflexivity.
  - intros (_ & _ & D1 & D2 & D3 & _).
    destruct D1 as (A1 & _ & _ & B1 & _).
    destruct D2 as (A2 & _ & _ & B2 & _).
    destruct D3 as (A3 & _ & _ & B3 & _).
    destruct (generateTelemetry_drawn now
                (MockFirebaseDB.r_session_charging d)
                (MockFirebaseDB.r_session_preparing d)
                (MockFirebaseDB.unit1 d) A1 B1) as (? & ? & _ & _ & E1).
    destruct (generateTelemetry_drawn now
                (MockFirebaseDB.r_session_charging d)
                (MockFirebaseDB.r_session_preparing d)
                (MockFirebaseDB.unit2 d) A2 B2) as (? & ? & _ & _ & E2).
    destruct (generateTelemetry_drawn now
                (MockFirebaseDB.r_session_charging d)
                (MockFirebaseDB.r_session_preparing d)
                (MockFirebaseDB.unit3 d) A3 B3) as (? & ? & _ & _ & E3).
    eapply generateMockData_of_records; eassumption.
Qed.

(** C6, refuted as stated.  Three units at 20, 20 and 21 degrees have the
    mean 61/3 and are reported at 20.3; two units at 20 and 20.3 degrees
    are reported at 20.1, below their mean; and the mock feed reports 30
    degrees for three units that are all at 20. *)
Lemma avg_temperature_is_not_the_mean :
  (exists st,
      UseWebSocket.calculateSystemStats Binary64.rnd 0
        (Doubles.fleet3 3300 3300 3300) = Some st
      /\ temperature_c <$> snapshots (Doubles.fleet3 3300 3300 3300)
         = [20; 20; 21]
      /\ avg_temperature_c st == Doubles.parsed (203 # 10)
      /\ ~ avg_temperature_c st == 61 # 3)
  /\ (exists st,
        UseWebSocket.calculateSystemStats Binary64.rnd 0 Doubles.fleet2
        = Some st
        /\ temperature_c <$> snapshots Doubles.fleet2
           = [20; Doubles.parsed (203 # 10)]
        /\ avg_temperature_c st == Doubles.parsed (201 # 10)
        /\ avg_temperature_c st < (20 + Doubles.parsed (203 # 10)) / 2)
  /\ (exists r,
        UseFirebaseData.generateMockData Binary64.rnd 0 Doubles.mock_draws
        = Some r
        /\ Forall (fun u => temperature_c (telemetry u) == 20)
                  (MockFirebaseDB.evse_units r)
        /\ avg_temperature_c (MockFirebaseDB.system_stats r) == 30).
Proof.
  split; [| split].
  - eexists. split; [vm_compute; reflexivity |].
    split; [reflexivity |].
    split; [vm_compute; reflexivity |].
    vm_compute. discriminate.
  - eexists. split; [vm_compute; reflexivity |].
    split; [reflexivity |].
    split; vm_compute; reflexivity.
  - eexists. split; [vm_compute; reflexivity |]. split.
    + repeat constructor.
    + vm_compute. reflexivity.
Qed.

Lemma mock_avg_temperature_range (r : Q) :
  is_draw r ->
  25 <= Num.round_to Binary64.rnd 10
          (Num.add Binary64.rnd (Num.mul Binary64.rnd r 10) 25) <= 35.
Proof.
  intros [H0 H1]. split.
  - apply Qle_trans with
      (Num.round_to Binary64.rnd 10
         (Num.add Binary64.rnd (Num.mul Binary64.rnd 0 10) 25)).
    + vm_compute. discriminate.
    + apply round_to_mono; [reflexivity |].
      unfold Num.add, Num.mul. apply rnd_mono.
      apply Qplus_le_l. apply rnd_mono. lra.
  - apply Qle_trans with
      (Num.round_to Binary64.rnd 10
         (Num.add Binary64.rnd
            (Num.mul Binary64.rnd Binary64.below_one 10) 25)).
    + apply round_to_mono; [reflexivity |].
      unfold Num.add, Num.mul. apply rnd_mono.
      apply Qplus_le_l. apply rnd_mono. lra.
    + vm_compute. discriminate.
Qed.

(** C6, as amended.  For a non-empty fleet the live consumer reports
    [Number((sum / n).toFixed(1))], where [sum] is the running sum of the
    units' temperatures in insertion order and the quotient is a number of
    the program: the decimal printed is within 0.05 of that quotient.  The
    mock feed reports [Math.round((r * 10 + 25) * 10) / 10] for one random
    draw [r], whatever the units' temperatures are; in the running program
    this lies between 25 and 35. *)
Theorem avg_temperature_is_the_rounded_quotient
    (rnd : Q -> Q) (now : Z) (units : list (string * EVSEUnit))
    (d : MockFirebaseDB.MockDraws) :
  (let temps := temperature_c <$> snapshots units in
   let q := rnd (running_sum rnd temps / inject_Z (Z.of_nat (length temps))) in
   units <> [] ->
   exists st,
     UseWebSocket.calculateSystemStats rnd now units = Some st
     /\ avg_temperature_c st = Num.Number_toFixed rnd 1 q
     /\ Qabs (JS.toFixed 1 q - q) <= 1 # 20)
  /\ (forall r,
        UseFirebaseData.generateMockData rnd now d = Some r ->
        avg_temperature_c (MockFirebaseDB.system_stats r)
        = Num.round_to rnd 10
            (Num.add rnd
               (Num.mul rnd (MockFirebaseDB.r_avg_temperature d) 10) 25))
  /\ (MockDraws_drawn d ->
      exists r,
        UseFirebaseData.generateMockData Binary64.rnd now d = Some r
        /\ 25 <= avg_temperature_c (MockFirebaseDB.system_stats r) <= 35).
Proof.
  assert (Hmock : forall rnd' r,
             UseFirebaseData.generateMockData rnd' now d = Some r ->
             avg_temperature_c (MockFirebaseDB.system_stats r)
             = Num.round_to rnd' 10
                 (Num.add rnd'
                    (Num.mul rnd' (MockFirebaseDB.r_avg_temperature d) 10)
                    25)).
  { intros rnd' r Hr.
    destruct (generateMockData_inv rnd' now d r Hr)
      as (t1 & t2 & t3 & _ & _ & _ & _ & _ & Est).
    rewrite systemStatsOf_value in Est. injection Est as Est.
    rewrite <- Est. reflexivity. }
  split; [| split].
  - intros temps q Hne. destruct units as [| e units']; [contradiction |].
    eexists. split; [apply calculateSystemStats_cons |].
    cbn [avg_temperature_c]. split.
    + unfold q, temps. rewrite length_fmap. reflexivity.
    + eapply Qle_trans; [apply toFixed_error |].
      apply Qle_lteq. right. reflexivity.
  - intros r Hr. apply Hmock. exact Hr.
  - intros Hd.
    assert (Hsome : is_Some (UseFirebaseData.generateMockData
                               Binary64.rnd now d)).
    { destruct Hd as (_ & _ & D1 & D2 & D3 & _).
      destruct D1 as (A1 & _ & _ & B1 & _).
      destruct D2 as (A2 & _ & _ & B2 & _).
      destruct D3 as (A3 & _ & _ & B3 & _).
      destruct (generateTelemetry_drawn now
                  (MockFirebaseDB.r_session_charging d)
                  (MockFirebaseDB.r_session_preparing d)
                  (MockFirebaseDB.unit1 d) A1 B1) as (? & ? & _ & _ & E1).
      destruct (generateTelemetry_drawn now
                  (MockFirebaseDB.r_session_charging d)
                  (MockFirebaseDB.r_session_preparing d)
                  (MockFirebaseDB.unit2 d) A2 B2) as (? & ? & _ & _ & E2).
      destruct (generateTelemetry_drawn now
                  (MockFirebaseDB.r_session_charging d)
                  (MockFirebaseDB.r_session_preparing d)
                  (MockFirebaseDB.unit3 d) A3 B3) as (? & ? & _ & _ & E3).
      eapply generateMockData_of_records; eassumption. }
    destruct Hsome as [r Hr]. exists r. split; [exact Hr |].
    rewrite (Hmock _ _ Hr). apply mock_avg_temperature_range.
    apply Hd.
Qed.

End FleetNumbers.

(** ** The solar percentage *)

Section PercentageNumbers.

Lemma nonneg_buckets (ts : list TelemetryData) :
  Forall nonneg_energy ts ->
  Forall (fun x => 0 <= x) (session_energy_kwh_solar <$> ts)
  /\ Forall (fun x => 0 <= x) (session_energy_kwh_grid <$> ts).
Proof.
  intros H. split; apply Forall_fmap;
    (eapply Forall_impl; [exact H |]); intros t [Hs Hg]; assumption.
Qed.

(** The three facts the claim states, for the value under the guard and a
    rounding [f] of it. *)
Lemma guarded_percentage (f : Q -> Q) (S G : Q) :
  f 0 = 0 ->
  (forall x, 0 <= x <= 100 -> 0 <= f x <= 100) ->
  is_double S -> 0 <= S -> 0 <= G ->
  let T := Num.add Binary64.rnd S G in
  let p := f (if Qlt_le_dec 0 T
              then Num.mul Binary64.rnd (Binary64.rnd (S / T)) 100 else 0) in
  (T == 0 -> p == 0)
  /\ (~ T == 0 ->
      p = f (Num.mul Binary64.rnd (Binary64.rnd (S / T)) 100))
  /\ 0 <= p <= 100.
Proof.
  intros Hf0 Hf HdS HS HG T p.
  assert (HT : 0 <= T) by (apply add_nonneg; assumption).
  assert (HST : S <= T) by (apply add_ge_left; assumption).
  unfold p. destruct (Qlt_le_dec 0 T) as [Hpos | Hle].
  - split; [intros E; exfalso; lra |]. split; [reflexivity |].
    apply Hf. apply percent_range; assumption.
  - split; [intros _; rewrite Hf0; reflexivity |].
    split; [intros E; exfalso; apply E; lra |].
    rewrite Hf0. lra.
Qed.

(** C2, refuted as stated.  With 1 kWh solar and 2 kWh grid the reported
    percentage is 33.3, which is neither 100/3 nor the program's own
    [1 / 3 * 100]; and with a solar bucket of 2 kWh next to a grid bucket of
    -1 kWh the reported percentage is 200, outside [0, 100]. *)
Lemma solar_percentage_is_rounded_and_unbounded :
  (exists st,
      UseWebSocket.calculateSystemStats Binary64.rnd 0 Doubles.fleet1
      = Some st
      /\ solar_percentage st == Doubles.parsed (333 # 10)
      /\ ~ solar_percentage st == 100 # 3
      /\ ~ solar_percentage st
           == Num.mul Binary64.rnd (Binary64.rnd (1 / 3)) 100)
  /\ (exists st,
        UseWebSocket.calculateSystemStats Binary64.rnd 0
          Doubles.fleet_negative = Some st
        /\ solar_percentage st == 200).
Proof.
  split.
  - eexists. split; [vm_compute; reflexivity |].
    split; [vm_compute; reflexivity |].
    split; vm_compute; discriminate.
  - eexists. split; [vm_compute; reflexivity |]. vm_compute. reflexivity.
Qed.

(** C2, as amended.  In the running program, over snapshots whose energy
    buckets are not negative and whose totals stay in the range of the
    doubles, no division by zero is performed; the reported solar
    percentage is exactly 0 when the total energy is 0, and otherwise it
    is the program's [solar / total * 100] under [Number(x.toFixed(1))]
    in the live statistics and under [Math.round(x * 10) / 10] in the mock
    feed, while the per-session indicator keeps the unrounded number.  All
    of them lie in [0, 100]. *)
Theorem solar_percentage_of_the_running_program
    (now : Z) (units : list (string * EVSEUnit)) (r_avg : Q)
    (mock_units : list EVSEUnit) (t : TelemetryData) :
  Forall nonneg_energy (snapshots units) ->
  Forall nonneg_energy (telemetry <$> mock_units) ->
  energy_measured t ->
  (let S := running_sum Binary64.rnd
              (session_energy_kwh_solar <$> snapshots units) in
   let G := running_sum Binary64.rnd
              (session_energy_kwh_grid <$> snapshots units) in
   let T := Num.add Binary64.rnd S G in
   T <= Binary64.max_value ->
   exists st,
     UseWebSocket.calculateSystemStats Binary64.rnd now units = Some st
     /\ (T == 0 -> solar_percentage st == 0)
     /\ (~ T == 0 ->
         solar_percentage st
         = Num.Number_toFixed Binary64.rnd 1
             (Num.mul Binary64.rnd (Binary64.rnd (S / T)) 100))
     /\ 0 <= solar_percentage st <= 100)
  /\ (let S := running_sum Binary64.rnd
                 (session_energy_kwh_solar <$> (telemetry <$> mock_units)) in
      let G := running_sum Binary64.rnd
                 (session_energy_kwh_grid <$> (telemetry <$> mock_units)) in
      let T := Num.add Binary64.rnd S G in
      T <= Binary64.max_value ->
      exists st,
        UseFirebaseData.systemStatsOf Binary64.rnd now r_avg mock_units
        = Some st
        /\ (T == 0 -> solar_percentage st == 0)
        /\ (~ T == 0 ->
            solar_percentage st
            = Num.round_to Binary64.rnd 10
                (Num.mul Binary64.rnd (Binary64.rnd (S / T)) 100))
        /\ 0 <= solar_percentage st <= 100)
  /\ (let s := session_energy_kwh_solar t in
      let g := session_energy_kwh_grid t in
      let T := Num.add Binary64.rnd s g in
      T <= Binary64.max_value ->
      exists p,
        EnergySourceIndicator.solarPercentage Binary64.rnd t = Some p
        /\ (T == 0 -> p == 0)
        /\ (~ T == 0 ->
            p = Num.mul Binary64.rnd (Binary64.rnd (s / T)) 100)
        /\ 0 <= p <= 100).
Proof.
  intros Hunits Hmock Ht. split; [| split].
  - intros S G T _.
    destruct (nonneg_buckets _ Hunits) as [Hs Hg].
    pose proof (running_sum_nonneg _ Hs) as HS. fold S in HS.
    pose proof (running_sum_nonneg _ Hg) as HG. fold G in HG.
    pose proof (running_sum_double
                  (session_energy_kwh_solar <$> snapshots units)) as HdS.
    fold S in HdS.
    destruct units as [| e units'].
    + exists (zero_stats now). split; [reflexivity |].
      cbn [solar_percentage zero_stats].
      split; [intros _; reflexivity |].
      split; [| lra].
      intros E. exfalso. apply E. reflexivity.
    + eexists. split; [apply calculateSystemStats_cons |].
      cbn [solar_percentage]. fold S. fold G. fold T.
      apply (guarded_percentage (Num.Number_toFixed Binary64.rnd 1));
        [apply Number_toFixed_0 | apply Number_toFixed1_percent
        | assumption | assumption | assumption].
  - intros S G T _.
    destruct (nonneg_buckets _ Hmock) as [Hs Hg].
    pose proof (running_sum_nonneg _ Hs) as HS. fold S in HS.
    pose proof (running_sum_nonneg _ Hg) as HG. fold G in HG.
    pose proof (running_sum_double
                  (session_energy_kwh_solar <$> (telemetry <$> mock_units)))
      as HdS.
    fold S in HdS.
    eexists. split; [apply systemStatsOf_value |].
    cbn [solar_percentage]. fold S. fold G. fold T.
    apply (guarded_percentage (Num.round_to Binary64.rnd 10));
      [apply round_to_10_0 | apply round_to_10_percent64
      | assumption | assumption | assumption].
  - intros s g T _. destruct Ht as (Hds & Hs & _ & Hg).
    fold s in Hds, Hs. fold g in Hg.
    exists (if Qlt_le_dec 0 T
            then Num.mul Binary64.rnd (Binary64.rnd (s / T)) 100 else 0).
    split.
    + unfold EnergySourceIndicator.solarPercentage,
        EnergySourceIndicator.totalEnergy. fold s. fold g. fold T.
      destruct (Qlt_le_dec 0 T) as [Hpos | Hle]; [| reflexivity].
      rewrite div_Some by (intros E; rewrite E in Hpos; lra). reflexivity.
    + apply (guarded_percentage (fun x => x));
        [reflexivity | intros x Hx; exact Hx
        | assumption | assumption | assumption].
Qed.

(** [solar_percentage_of_the_running_program] at the sample inputs. *)
Lemma solar_percentage_of_the_running_program_witness :
  Forall nonneg_energy (snapshots Doubles.fleet1)
  /\ Forall nonneg_energy
       (telemetry <$> UseWebSocket.Array_from_values Doubles.fleet1)
  /\ energy_measured Doubles.small_session
  /\ Num.add Binary64.rnd 1 2 <= Binary64.max_value
  /\ exists st,
       UseWebSocket.calculateSystemStats Binary64.rnd 0 Doubles.fleet1
       = Some st
       /\ 0 <= solar_percentage st <= 100.
Proof.
  assert (H1 : Forall nonneg_energy (snapshots Doubles.fleet1)).
  { vm_compute. repeat constructor; discriminate. }
  assert (H2 : energy_measured Doubles.small_session).
  { vm_compute. repeat split; discriminate. }
  assert (H3 : Num.add Binary64.rnd 1 2 <= Binary64.max_value).
  { vm_compute. discriminate. }
  split; [exact H1 |]. split; [exact H1 |]. split; [exact H2 |].
  split; [exact H3 |].
  destruct (solar_percentage_of_the_running_program 0 Doubles.fleet1 0
              (UseWebSocket.Array_from_values Doubles.fleet1)
              Doubles.small_session H1 H1 H2) as [Hlive _].
  destruct (Hlive H3) as (st & E & _ & _ & R).
  exists st. split; assumption.
Defined.

End PercentageNumbers.

(** ** Billing *)

Section Billing.




End Billing.

(** ** The energy buckets of a generated record *)

Section AccumulatorNumbers.

(** C9, refuted as stated.  With 0.33 kWh delivered from the grid the grid
    bucket holds 0.264 kWh and the solar bucket 0.066 kWh; delivered from
    solar, the solar bucket holds all 0.33 kWh and the grid bucket 0.033 kWh
    on top; and a preparing unit reports a total of 0.0005 kWh next to
    buckets of 0.0004 and 0 kWh. *)
Lemma energy_buckets_do_not_add_up :
  (exists t,
      UseFirebaseData.generateTelemetry Binary64.rnd 0
        (UseFirebaseData.scenarios Binary64.rnd 0 0)
        (Doubles.draws_charging (1 # 2)) = Some t
      /\ energy_source t = grid
      /\ power_w t == 3300
      /\ Qabs (Num.mul Binary64.rnd
                 (UseFirebaseData.sessionTime Binary64.rnd
                    (Doubles.draws_charging (1 # 2)))
                 (Num.quot Binary64.rnd (power_w t) 1000) - (33 # 100))
         <= 1 # 1000000000000
      /\ session_energy_kwh_grid t == Doubles.parsed (264 # 1000)
      /\ session_energy_kwh_solar t == Doubles.parsed (66 # 1000))
  /\ (exists t,
        UseFirebaseData.generateTelemetry Binary64.rnd 0
          (UseFirebaseData.scenarios Binary64.rnd 0 0)
          (Doubles.draws_charging 0) = Some t
        /\ energy_source t = solar
        /\ power_w t == 3300
        /\ session_energy_kwh_solar t == Doubles.parsed (33 # 100)
        /\ session_energy_kwh_grid t == Doubles.parsed (33 # 1000))
  /\ (exists t,
        UseFirebaseData.generateTelemetry Binary64.rnd 0
          (UseFirebaseData.scenarios Binary64.rnd 0 0)
          Doubles.draws_preparing = Some t
        /\ session_energy_kwh_solar t == Doubles.parsed (4 # 10000)
        /\ session_energy_kwh_grid t == 0
        /\ session_total_energy_kwh t == Doubles.parsed (5 # 10000)
        /\ ~ session_total_energy_kwh t
             == session_energy_kwh_solar t + session_energy_kwh_grid t
        /\ ~ session_total_energy_kwh t
             == Num.add Binary64.rnd (session_energy_kwh_solar t)
                                     (session_energy_kwh_grid t)).
Proof.
  split; [| split]; eexists; (split; [vm_compute; reflexivity |]);
    repeat split; try (vm_compute; reflexivity);
    vm_compute; discriminate.
Qed.

(** C9, as amended.  In the running program, for results of
    [Math.random()], a record is generated from the row of the scenario
    table at the drawn index and the source at the second drawn index:
    status, session id and power are that row's, and the buckets are
    computed afresh from [E = sessionTime * (power / 1000)] of that row (no
    derate, nothing carried over from earlier records), each under
    [Math.round(x * 10000) / 10000]: from solar, [E] to the solar bucket and
    [E * 0.1] more to the grid bucket; from the grid, [E * 0.2] to the
    solar bucket and [E * 0.8] to the grid bucket; from no source, which is
    the case exactly for an available unit, zero in both.  The reported
    total is the rounded sum of the unrounded buckets. *)
Theorem session_buckets_of_the_drawn_scenario
    (now : Z) (rc rp : Q) (d : MockFirebaseDB.Draws) :
  Draws_drawn d ->
  exists sc src t,
    MockFirebaseDB.at_index (UseFirebaseData.scenarios Binary64.rnd rc rp)
      (UseFirebaseData.floor_times Binary64.rnd
         (MockFirebaseDB.r_scenario d) 3) = Some sc
    /\ MockFirebaseDB.at_index (MockFirebaseDB.energySource sc)
         (UseFirebaseData.floor_times Binary64.rnd
            (MockFirebaseDB.r_source d)
            (length (MockFirebaseDB.energySource sc))) = Some src
    /\ UseFirebaseData.generateTelemetry Binary64.rnd now
         (UseFirebaseData.scenarios Binary64.rnd rc rp) d = Some t
    /\ status t = MockFirebaseDB.sc_status sc
    /\ session_id t = MockFirebaseDB.sessionId sc
    /\ energy_source t = src
    /\ (src = none <-> MockFirebaseDB.sc_status sc = available)
    /\ power_w t
       = Num.round_to Binary64.rnd 100 (UseFirebaseData.power Binary64.rnd sc d)
    /\ (let E := Num.mul Binary64.rnd
                   (UseFirebaseData.sessionTime Binary64.rnd d)
                   (Num.quot Binary64.rnd
                      (UseFirebaseData.power Binary64.rnd sc d) 1000) in
        match src with
        | solar =>
            session_energy_kwh_solar t = Num.round_to Binary64.rnd 10000 E
            /\ session_energy_kwh_grid t
               = Num.round_to Binary64.rnd 10000
                   (Num.mul Binary64.rnd E
                      (Num.literal Binary64.rnd (1 # 10)))
            /\ session_total_energy_kwh t
               = Num.round_to Binary64.rnd 10000
                   (Num.add Binary64.rnd E
                      (Num.mul Binary64.rnd E
                         (Num.literal Binary64.rnd (1 # 10))))
        | grid =>
            session_energy_kwh_solar t
            = Num.round_to Binary64.rnd 10000
                (Num.mul Binary64.rnd E (Num.literal Binary64.rnd (2 # 10)))
            /\ session_energy_kwh_grid t
               = Num.round_to Binary64.rnd 10000
                   (Num.mul Binary64.rnd E
                      (Num.literal Binary64.rnd (8 # 10)))
            /\ session_total_energy_kwh t
               = Num.round_to Binary64.rnd 10000
                   (Num.add Binary64.rnd
                      (Num.mul Binary64.rnd E
                         (Num.literal Binary64.rnd (2 # 10)))
                      (Num.mul Binary64.rnd E
                         (Num.literal Binary64.rnd (8 # 10))))
        | none =>
            session_energy_kwh_solar t = 0
            /\ session_energy_kwh_grid t = 0
            /\ session_total_energy_kwh t = 0
        end).
Proof.
  intros (Hsc & _ & _ & Hsrc & _).
  destruct (generateTelemetry_drawn now rc rp d Hsc Hsrc)
    as (sc & src & Esc & Esrc & E).
  exists sc, src, (UseFirebaseData.mkTelemetry Binary64.rnd now sc src d).
  destruct (rounded_mkTelemetry_fields Binary64.rnd now sc src d)
    as (F1 & F2 & F3 & F4 & F5 & F6 & F7).
  split; [exact Esc |]. split; [exact Esrc |]. split; [exact E |].
  split; [exact F1 |]. split; [exact F2 |]. split; [exact F3 |].
  split.
  - pose proof (at_index_elem_of _ _ _ Esc) as Hin.
    pose proof (at_index_elem_of _ _ _ Esrc) as Hsin.
    destruct (rounded_scenarios_inv _ _ _ _ Hin) as [-> | [-> | ->]];
      cbn [MockFirebaseDB.energySource MockFirebaseDB.sc_status] in *.
    + split; [| discriminate]. intros ->.
      rewrite !elem_of_cons, elem_of_nil in Hsin.
      destruct Hsin as [? | [? | [? | []]]]; discriminate.
    + split; [reflexivity |]. intros _.
      rewrite elem_of_cons, elem_of_nil in Hsin.
      destruct Hsin as [-> | []]. reflexivity.
    + split; [| discriminate]. intros ->.
      rewrite elem_of_cons, elem_of_nil in Hsin.
      destruct Hsin as [? | []]. discriminate.
  - split; [exact F4 |]. cbv zeta. rewrite F5, F6, F7.
    unfold UseFirebaseData.energies, UseFirebaseData.energyRate.
    destruct src; cbn [fst snd].
    + repeat split; reflexivity.
    + repeat split; reflexivity.
    + repeat split; vm_compute; reflexivity.
Qed.

(** [session_buckets_of_the_drawn_scenario] at the sample draws. *)
Lemma session_buckets_of_the_drawn_scenario_witness :
  Draws_drawn (Doubles.draws_charging (1 # 2))
  /\ exists t,
       UseFirebaseData.generateTelemetry Binary64.rnd 0
         (UseFirebaseData.scenarios Binary64.rnd 0 0)
         (Doubles.draws_charging (1 # 2)) = Some t
       /\ status t = charging
       /\ energy_source t = grid.
Proof.
  assert (H : Draws_drawn (Doubles.draws_charging (1 # 2))).
  { vm_compute. repeat split; discriminate. }
  split; [exact H |].
  destruct (session_buckets_of_the_drawn_scenario 0 0 0
              (Doubles.draws_charging (1 # 2)) H)
    as (sc & src & t & Esc & Esrc & E & F1 & _ & F3 & _).
  exists t. split; [exact E |].
  vm_compute in Esc. injection Esc as <-.
  vm_compute in Esrc. injection Esrc as <-.
  split; [exact F1 | exact F3].
Defined.

End AccumulatorNumbers.

(** * Further facts on the statistics, the handler and the costs *)

Section FleetOrderAndPayloads.

(** The four counts of the statistics do not depend on the order in which
    the units joined the map. *)
Theorem counts_do_not_depend_on_arrival_order
    (rnd : Q -> Q) (now : Z) (units units' : list (string * EVSEUnit)) :
  Permutation units units' ->
  exists st st',
    UseWebSocket.calculateSystemStats rnd now units = Some st
    /\ UseWebSocket.calculateSystemStats rnd now units' = Some st'
    /\ active_sessions st = active_sessions st'
    /\ available_units st = available_units st'
    /\ charging_units st = charging_units st'
    /\ faulted_units st = faulted_units st'.
Proof.
  intros Hperm.
  assert (Hts : Permutation (snapshots units) (snapshots units')).
  { unfold snapshots, UseWebSocket.Array_from_values.
    apply fmap_Permutation, fmap_Permutation. exact Hperm. }
  destruct units as [| e l]; destruct units' as [| e' l'].
  - exists (zero_stats now), (zero_stats now). repeat split; reflexivity.
  - apply Permutation_nil_l in Hperm. discriminate.
  - symmetry in Hperm. apply Permutation_nil_l in Hperm. discriminate.
  - eexists. eexists.
    split; [apply calculateSystemStats_cons |].
    split; [apply calculateSystemStats_cons |].
    cbn [active_sessions available_units charging_units faulted_units].
    repeat split; apply count_perm; exact Hts.
Qed.

(** [counts_do_not_depend_on_arrival_order] on the three sample units and
    their reversal, whose reported total power differs. *)
Lemma counts_do_not_depend_on_arrival_order_witness :
  Permutation (Doubles.fleet3 (1 # 10) (1 # 10) (43 # 10))
              (reverse (Doubles.fleet3 (1 # 10) (1 # 10) (43 # 10)))
  /\ exists st st',
       UseWebSocket.calculateSystemStats Binary64.rnd 0
         (Doubles.fleet3 (1 # 10) (1 # 10) (43 # 10)) = Some st
       /\ UseWebSocket.calculateSystemStats Binary64.rnd 0
            (reverse (Doubles.fleet3 (1 # 10) (1 # 10) (43 # 10)))
          = Some st'
       /\ charging_units st = charging_units st'
       /\ total_power_w st == 5
       /\ total_power_w st' == 4.
Proof.
  assert (H : Permutation (Doubles.fleet3 (1 # 10) (1 # 10) (43 # 10))
                (reverse (Doubles.fleet3 (1 # 10) (1 # 10) (43 # 10)))).
  { symmetry. apply reverse_Permutation. }
  split; [exact H |].
  destruct (counts_do_not_depend_on_arrival_order Binary64.rnd 0 _ _ H)
    as (st & st' & E & E' & _ & _ & C & _).
  exists st, st'. split; [exact E |]. split; [exact E' |].
  split; [exact C |].
  vm_compute in E. injection E as <-.
  vm_compute in E'. injection E' as <-.
  split; vm_compute; reflexivity.
Defined.

(** What the handler writes for each kind of payload.  An object of the
    declared type lands under its key and is read back from there, no other
    entry is touched, the map grows by at most one entry and the statistics
    are present afterwards; the payload [null] replaces the legacy
    telemetry by [null] and leaves the map and the statistics alone; a
    payload that does not parse changes nothing. *)
Theorem payload_files_at_most_one_unit
    (now : Z) (payload : WebSocketProvider.Message)
    (st : WebSocketProvider.State) :
  let st' := WebSocketProvider.onPayload now payload st in
  match payload with
  | WebSocketProvider.Parsed data =>
      let key := WebSocketProvider.unitIdOf now data in
      WebSocketProvider.evseUnits st' !! key
      = Some {| unit_id := key; telemetry := data; last_updated := now |}
      /\ (forall k, k <> key ->
          WebSocketProvider.evseUnits st' !! k
          = WebSocketProvider.evseUnits st !! k)
      /\ (size (WebSocketProvider.evseUnits st)
          <= size (WebSocketProvider.evseUnits st')
          <= S (size (WebSocketProvider.evseUnits st)))%nat
      /\ WebSocketProvider.telemetryData st' = Some data
      /\ is_Some (WebSocketProvider.systemStats st')
  | WebSocketProvider.JsonNull =>
      WebSocketProvider.telemetryData st' = None
      /\ WebSocketProvider.evseUnits st' = WebSocketProvider.evseUnits st
      /\ WebSocketProvider.systemStats st' = WebSocketProvider.systemStats st
  | WebSocketProvider.Unparsable => st' = st
  end.
Proof.
  intros st'. destruct payload as [| | data].
  - reflexivity.
  - repeat split; reflexivity.
  - intros key. subst st'.
    cbn [WebSocketProvider.onPayload WebSocketProvider.onmessage
         WebSocketProvider.evseUnits WebSocketProvider.telemetryData
         WebSocketProvider.systemStats].
    fold key. split; [apply lookup_insert_eq |].
    split; [intros k Hk; apply lookup_insert_ne; congruence |].
    split.
    + rewrite map_size_insert.
      destruct (WebSocketProvider.evseUnits st !! key); cbn; lia.
    + split; [reflexivity |]. apply statsOfArray_total.
Qed.

(** The statistics of the mock feed agree, in total power and in the four
    counts, with what [calculateSystemStats] computes on the map the
    provider builds from the feed's units. *)
Theorem mock_stats_agree_on_power_and_counts
    (rnd : Q -> Q) (now now' : Z) (d : MockFirebaseDB.MockDraws)
    (r : MockFirebaseDB.MockData) :
  UseFirebaseData.generateMockData rnd now d = Some r ->
  exists st,
    UseWebSocket.calculateSystemStats rnd now'
      (MockListeners.unitsMap (MockFirebaseDB.evse_units r)) = Some st
    /\ total_power_w st = total_power_w (MockFirebaseDB.system_stats r)
    /\ active_sessions st = active_sessions (MockFirebaseDB.system_stats r)
    /\ available_units st = available_units (MockFirebaseDB.system_stats r)
    /\ charging_units st = charging_units (MockFirebaseDB.system_stats r)
    /\ faulted_units st = faulted_units (MockFirebaseDB.system_stats r).
Proof.
  intros Hr.
  destruct (generateMockData_inv rnd now d r Hr)
    as (t1 & t2 & t3 & G1 & G2 & G3 & Eu & _ & Est).
  rewrite systemStatsOf_value in Est. injection Est as Est.
  rewrite <- Est. rewrite Eu.
  change (MockListeners.unitsMap
            [MockFirebaseDB.mkUnit now 1 t1; MockFirebaseDB.mkUnit now 2 t2;
             MockFirebaseDB.mkUnit now 3 t3])
    with [("evse_unit_1"%string, MockFirebaseDB.mkUnit now 1 t1);
          ("evse_unit_2"%string, MockFirebaseDB.mkUnit now 2 t2);
          ("evse_unit_3"%string, MockFirebaseDB.mkUnit now 3 t3)].
  eexists. split; [apply calculateSystemStats_cons |].
  cbn [total_power_w active_sessions available_units charging_units
       faulted_units].
  change (snapshots
            [("evse_unit_1"%string, MockFirebaseDB.mkUnit now 1 t1);
             ("evse_unit_2"%string, MockFirebaseDB.mkUnit now 2 t2);
             ("evse_unit_3"%string, MockFirebaseDB.mkUnit now 3 t3)])
    with [t1; t2; t3].
  change (telemetry <$>
            [MockFirebaseDB.mkUnit now 1 t1; MockFirebaseDB.mkUnit now 2 t2;
             MockFirebaseDB.mkUnit now 3 t3])
    with [t1; t2; t3].
  repeat split; try reflexivity.
  unfold count. cbn [List.filter].
  rewrite (generated_never_faulted _ _ _ _ _ _ G1),
    (generated_never_faulted _ _ _ _ _ _ G2),
    (generated_never_faulted _ _ _ _ _ _ G3).
  reflexivity.
Qed.

(** [mock_stats_agree_on_power_and_counts] at the sample draws. *)
Lemma mock_stats_agree_on_power_and_counts_witness :
  exists r st,
    UseFirebaseData.generateMockData Binary64.rnd 0 Doubles.mock_draws
    = Some r
    /\ UseWebSocket.calculateSystemStats Binary64.rnd 7
         (MockListeners.unitsMap (MockFirebaseDB.evse_units r)) = Some st
    /\ total_power_w st = total_power_w (MockFirebaseDB.system_stats r)
    /\ total_power_w st == 6604.
Proof.
  assert (H : is_Some (UseFirebaseData.generateMockData Binary64.rnd 0
                         Doubles.mock_draws)).
  { vm_compute. eexists. reflexivity. }
  destruct H as [r Hr]. exists r.
  destruct (mock_stats_agree_on_power_and_counts Binary64.rnd 0 7
              Doubles.mock_draws r Hr) as (st & E & P & _).
  exists st. split; [exact Hr |]. split; [exact E |]. split; [exact P |].
  rewrite P. vm_compute in Hr. injection Hr as <-.
  vm_compute. reflexivity.
Defined.

(** In the running program the two bars of the energy source indicator
    are percentages: for a record whose buckets are not negative and whose
    total is a finite double, both lie in [0, 100], both are 0 when the
    total is 0, and otherwise each is the program's [bucket / total * 100].
    They need not add up to 100. *)
Theorem energy_mix_in_range (t : TelemetryData) :
  energy_measured t ->
  let s := session_energy_kwh_solar t in
  let g := session_energy_kwh_grid t in
  let T := Num.add Binary64.rnd s g in
  T <= Binary64.max_value ->
  exists p q,
    EnergySourceIndicator.solarPercentage Binary64.rnd t = Some p
    /\ EnergySourceIndicator.gridPercentage Binary64.rnd t = Some q
    /\ 0 <= p <= 100 /\ 0 <= q <= 100
    /\ (T == 0 -> p == 0 /\ q == 0)
    /\ (~ T == 0 ->
        p = Num.mul Binary64.rnd (Binary64.rnd (s / T)) 100
        /\ q = Num.mul Binary64.rnd (Binary64.rnd (g / T)) 100).
Proof.
  intros (Hds & Hs & Hdg & Hg) s g T _.
  fold s in Hds, Hs. fold g in Hdg, Hg.
  assert (HT : 0 <= T) by (apply add_nonneg; assumption).
  assert (HsT : s <= T) by (apply add_ge_left; assumption).
  assert (HgT : g <= T) by (apply add_ge_right; assumption).
  unfold EnergySourceIndicator.solarPercentage,
    EnergySourceIndicator.gridPercentage, EnergySourceIndicator.totalEnergy.
  fold s. fold g. fold T.
  destruct (Qlt_le_dec 0 T) as [Hpos | Hle].
  - rewrite !div_Some by (intros E; rewrite E in Hpos; lra).
    cbn [mbind option_bind]. eexists. eexists.
    split; [reflexivity |]. split; [reflexivity |].
    split; [apply percent_range; assumption |].
    split; [apply percent_range; assumption |].
    split; [intros E; exfalso; lra |].
    intros _. split; reflexivity.
  - exists 0, 0. split; [reflexivity |]. split; [reflexivity |].
    split; [lra |]. split; [lra |].
    split; [intros _; split; reflexivity |].
    intros E. exfalso. apply E. lra.
Qed.

(** [energy_mix_in_range] at 1 kWh solar and 2 kWh grid, where the two
    bars add up to less than 100. *)
Lemma energy_mix_in_range_witness :
  energy_measured Examples.legacy_message
  /\ Num.add Binary64.rnd 1 2 <= Binary64.max_value
  /\ exists p q,
       EnergySourceIndicator.solarPercentage Binary64.rnd
         Examples.legacy_message = Some p
       /\ EnergySourceIndicator.gridPercentage Binary64.rnd
            Examples.legacy_message = Some q
       /\ 0 <= p <= 100 /\ 0 <= q <= 100
       /\ p + q < 100.
Proof.
  assert (H1 : energy_measured Examples.legacy_message).
  { vm_compute. repeat split; discriminate. }
  assert (H2 : Num.add Binary64.rnd 1 2 <= Binary64.max_value).
  { vm_compute. discriminate. }
  split; [exact H1 |]. split; [exact H2 |].
  destruct (energy_mix_in_range Examples.legacy_message H1 H2)
    as (p & q & Ep & Eq & Rp & Rq & _).
  exists p, q. split; [exact Ep |]. split; [exact Eq |].
  split; [exact Rp |]. split; [exact Rq |].
  vm_compute in Ep. injection Ep as <-.
  vm_compute in Eq. injection Eq as <-.
  vm_compute. reflexivity.
Defined.

(** The error of [solar * 10 + grid * 50] in the running program. *)
Lemma cost_error (s g : Q) :
  0 <= s -> 0 <= g ->
  Qabs (Num.add Binary64.rnd (Num.mul Binary64.rnd s 10)
                             (Num.mul Binary64.rnd g 50)
        - (s * 10 + g * 50))
  <= (s * 10 + g * 50) * 2 ^ (-51) + 2 ^ (-1073).
Proof.
  intros Hs Hg. unfold Num.add, Num.mul.
  pose proof (rnd_error (s * 10)) as A.
  pose proof (rnd_error (g * 50)) as B.
  pose proof (rnd_error (Binary64.rnd (s * 10) + Binary64.rnd (g * 50))) as C.
  pose proof (rnd_nonneg (s * 10)) as A0.
  pose proof (rnd_nonneg (g * 50)) as B0.
  rewrite (Qabs_pos (s * 10)) in A by lra.
  rewrite (Qabs_pos (g * 50)) in B by lra.
  rewrite (Qabs_pos (Binary64.rnd (s * 10) + Binary64.rnd (g * 50))) in C
    by lra.
  assert (U : 2 ^ (-53) == 1 # 9007199254740992) by reflexivity.
  assert (U' : 2 ^ (-51) == 1 # 2251799813685248) by reflexivity.
  assert (H4 : 2 ^ (-1073) == 4 * 2 ^ (-1075)).
  { change (-1073)%Z with (2 + -1075)%Z. rewrite p2_plus. reflexivity. }
  pose proof (p2_pos (-1075)) as Hh.
  rewrite U in A, B, C. rewrite U', H4.
  set (h := 2 ^ (-1075)) in *. clearbody h.
  set (a := Binary64.rnd (s * 10)) in *. clearbody a.
  set (b := Binary64.rnd (g * 50)) in *. clearbody b.
  set (c := Binary64.rnd (a + b)) in *. clearbody c.
  apply Qabs_Qle_condition in A. apply Qabs_Qle_condition in B.
  apply Qabs_Qle_condition in C. apply Qabs_Qle_condition.
  destruct A, B, C. split; lra.
Qed.

(** In the running program the total cost either panel derives is the
    exact [solar * 10 + grid * 50] up to the rounding of three operations:
    for buckets that are not negative and a cost within the range of the
    doubles, the two differ by at most [2^-51] of the exact cost (and
    [2^-1073] where the products underflow). *)
Theorem derived_cost_is_exact_up_to_rounding
    (t : TelemetryData) (systemStats : option SystemStats) :
  let s := session_energy_kwh_solar t in
  let g := session_energy_kwh_grid t in
  let S := total_solar_energy_kwh (StatsGrid.stats systemStats) in
  let G := total_grid_energy_kwh (StatsGrid.stats systemStats) in
  0 <= s -> 0 <= g -> 0 <= S -> 0 <= G ->
  s * 10 + g * 50 <= Binary64.max_value / 2 ->
  S * 10 + G * 50 <= Binary64.max_value / 2 ->
  Qabs (SessionInfo.totalCost Binary64.rnd t - (s * 10 + g * 50))
  <= (s * 10 + g * 50) * 2 ^ (-51) + 2 ^ (-1073)
  /\ Qabs (StatsGrid.totalCostJMD Binary64.rnd (StatsGrid.stats systemStats)
           - (S * 10 + G * 50))
     <= (S * 10 + G * 50) * 2 ^ (-51) + 2 ^ (-1073).
Proof.
  intros s g S G Hs Hg HS HG _ _. split.
  - apply cost_error; assumption.
  - apply cost_error; assumption.
Qed.

(** [derived_cost_is_exact_up_to_rounding] at 0.0015 kWh from solar, where
    the derived cost lies below the exact one. *)
Lemma derived_cost_is_exact_up_to_rounding_witness :
  0 <= session_energy_kwh_solar Doubles.small_session
  /\ 0 <= session_energy_kwh_grid Doubles.small_session
  /\ session_energy_kwh_solar Doubles.small_session * 10
     + session_energy_kwh_grid Doubles.small_session * 50
     <= Binary64.max_value / 2
  /\ Qabs (SessionInfo.totalCost Binary64.rnd Doubles.small_session
           - (session_energy_kwh_solar Doubles.small_session * 10
              + session_energy_kwh_grid Doubles.small_session * 50))
     <= (session_energy_kwh_solar Doubles.small_session * 10
         + session_energy_kwh_grid Doubles.small_session * 50) * 2 ^ (-51)
        + 2 ^ (-1073)
  /\ SessionInfo.totalCost Binary64.rnd Doubles.small_session
     < session_energy_kwh_solar Doubles.small_session * 10
       + session_energy_kwh_grid Doubles.small_session * 50.
Proof.
  assert (H1 : 0 <= session_energy_kwh_solar Doubles.small_session)
    by (vm_compute; discriminate).
  assert (H2 : 0 <= session_energy_kwh_grid Doubles.small_session)
    by (vm_compute; discriminate).
  assert (H3 : session_energy_kwh_solar Doubles.small_session * 10
               + session_energy_kwh_grid Doubles.small_session * 50
               <= Binary64.max_value / 2)
    by (vm_compute; discriminate).
  split; [exact H1 |]. split; [exact H2 |]. split; [exact H3 |]. split.
  - apply (derived_cost_is_exact_up_to_rounding Doubles.small_session
             (Some Doubles.small_stats) H1 H2 H1 H2 H3 H3).
  - vm_compute. reflexivity.
Defined.

End FleetOrderAndPayloads.
